(** * cloud-map: topology assembly and diagram rendering

    A shallow embedding of the organizer ([organizer.py]), the resource
    models ([models.py]), the text report generator ([diagram.py]) and the
    PlantUML generator ([presentation/plantuml_generator.py]) and the
    discovery orchestration ([main.py]), followed by the properties
    established about them.

    Conventions of the embedding:
    - a Python [str] is a [string]; a [Dict[str, str]] is a
      [gmap string string]; a [List[X]] is a [list X]; an [Optional[X]] is
      an [option X]; an [int] is a [Z] where it can be negative and a [nat]
      where it is a length;
    - a dictionary whose iteration order matters (the availability-zone
      groups) is an association list kept in insertion order;
    - a text sink ([TextIO]) is the sequence of chunks written to it, and a
      method writing to it takes the sink and returns the sink;
    - a read of an attribute the object does not carry raises
      [AttributeError]; code that can raise returns [result]. *)

From stdpp Require Import gmap strings list.
From Stdlib Require Import ZArith DecimalString Ascii.

#[local] Set Warnings "-clear-no-such-hyp".


(** ** Python values and built-ins used by the program *)

Module Py.

(** The line feed character (the escape backslash-n of a Python literal). *)
Definition nl : string := String (Ascii.ascii_of_nat 10) EmptyString.

(** The double quote character. *)
Definition dq : string := String (Ascii.ascii_of_nat 34) EmptyString.

(** Truth value of a [str]: false only for the empty string. *)
Definition str_truthy (s : string) : bool :=
  match s with
  | EmptyString => false
  | String _ _ => true
  end.

(** Truth value of an [Optional[str]]: [None] and the empty string are
    false. *)
Definition opt_truthy (o : option string) : bool :=
  match o with
  | None => false
  | Some s => str_truthy s
  end.

(** [o or d] for an [Optional[str]] [o] and a [str] [d]. *)
Definition or_else (o : option string) (d : string) : string :=
  match o with
  | Some s => if str_truthy s then s else d
  | None => d
  end.

(** Truth value of a list: false only for the empty list. *)
Definition list_truthy {A} (l : list A) : bool :=
  match l with
  | [] => false
  | _ :: _ => true
  end.

(** [s.replace(a, b)] for one-character [a] and [b]. *)
Fixpoint replace (a b : Ascii.ascii) (s : string) : string :=
  match s with
  | EmptyString => EmptyString
  | String c s' =>
      String (if Ascii.eqb c a then b else c) (replace a b s')
  end.

(** [s * n]: [n] copies of [s]; none when [n] is not positive. *)
Fixpoint repeat_nat (s : string) (n : nat) : string :=
  match n with
  | O => EmptyString
  | S n' => s +:+ repeat_nat s n'
  end.

Definition mul (s : string) (n : Z) : string := repeat_nat s (Z.to_nat n).

(** [s[:n]]: the first [n] characters, all of [s] when it is shorter. *)
Fixpoint slice_to (n : nat) (s : string) : string :=
  match n, s with
  | S n', String c s' => String c (slice_to n' s')
  | _, _ => EmptyString
  end.

(** [l[:n]] on lists is [take n l]; [l[n:]] is [drop n l]. *)

(** [str(n)] for a length. *)
Definition str_of_nat (n : nat) : string :=
  NilZero.string_of_uint (Nat.to_uint n).

(** [str(b)] for a [bool]. *)
Definition str_of_bool (b : bool) : string :=
  if b then "True" else "False".

(** [sep.join(l)]. *)
Fixpoint join (sep : string) (l : list string) : string :=
  match l with
  | [] => EmptyString
  | [x] => x
  | x :: l' => x +:+ sep +:+ join sep l'
  end.

(** [d.get(k, default)] on a [Dict[str, str]]. *)
Definition dict_get (d : gmap string string) (k default : string) : string :=
  match d !! k with
  | Some v => v
  | None => default
  end.

(** Exceptions raised by the modelled code. *)
Inductive exn : Type :=
  | AttributeError (cls attr : string).

Definition result (A : Type) : Type := exn + A.

Definition ret {A} (a : A) : result A := inr a.
Definition raise {A} (e : exn) : result A := inl e.

Definition bind {A B} (m : result A) (k : A → result B) : result B :=
  match m with
  | inl e => inl e
  | inr a => k a
  end.

(** A [for] loop threading a state through a body that can raise. *)
Fixpoint for_each {A S} (body : S → A → result S) (l : list A) (s : S)
  : result S :=
  match l with
  | [] => ret s
  | x :: l' => bind (body s x) (for_each body l')
  end.

(** [getattr] on an attribute the instance may not carry. *)
Definition getattr {A} (cls attr : string) (slot : option A) : result A :=
  match slot with
  | Some a => ret a
  | None => raise (AttributeError cls attr)
  end.

End Py.

Arguments Py.replace (a b)%_char_scope s%_string_scope.

Notation "'do' x <- m ; k" := (Py.bind m (λ x, k))
  (at level 10, x name, m at level 100, k at level 200,
   format "'do'  x  <-  m ; '//' k").

(** ** Resource models ([models.py]) *)

(** [BaseResource.__post_init__]: every model declares [name], so
    [hasattr(self, 'name')] holds; the name is taken from [tags['Name']]
    when no truthy name was given and the tag is present. *)
Module BaseResource.

Definition post_init (name : option string) (tags : gmap string string)
  : option string :=
  if negb (Py.opt_truthy name) then
    match tags !! "Name" with
    | Some n => Some n
    | None => name
    end
  else name.

End BaseResource.

Module VPC.
Record t : Type := mk {
  resource_id : string;
  resource_type : string;
  region : string;
  tags : gmap string string;
  cidr_block : string;
  state : string;
  is_default : bool;
  name : option string
}.

(** The dataclass constructor followed by [__post_init__]. *)
Definition init (resource_id resource_type region : string)
    (tags : gmap string string) (cidr_block state : string)
    (is_default : bool) (name : option string) : t :=
  mk resource_id "vpc" region tags cidr_block state is_default
     (BaseResource.post_init name tags).
End VPC.

Module Subnet.
Record t : Type := mk {
  resource_id : string;
  resource_type : string;
  region : string;
  tags : gmap string string;
  vpc_id : string;
  cidr_block : string;
  availability_zone : string;
  state : string;
  map_public_ip_on_launch : bool;
  name : option string
}.

Definition init (resource_id resource_type region : string)
    (tags : gmap string string)
    (vpc_id cidr_block availability_zone state : string)
    (map_public_ip_on_launch : bool) (name : option string) : t :=
  mk resource_id "subnet" region tags vpc_id cidr_block availability_zone
     state map_public_ip_on_launch (BaseResource.post_init name tags).
End Subnet.

Module RouteTable.
Record t : Type := mk {
  resource_id : string;
  resource_type : string;
  region : string;
  tags : gmap string string;
  vpc_id : string;
  routes : list (gmap string string);
  subnet_associations : list string;
  name : option string
}.

Definition init (resource_id resource_type region : string)
    (tags : gmap string string) (vpc_id : string)
    (routes : list (gmap string string)) (subnet_associations : list string)
    (name : option string) : t :=
  mk resource_id "route_table" region tags vpc_id routes subnet_associations
     (BaseResource.post_init name tags).
End RouteTable.

Module InternetGateway.
Record t : Type := mk {
  resource_id : string;
  resource_type : string;
  region : string;
  tags : gmap string string;
  vpc_id : option string;
  state : string;
  name : option string
}.

Definition init (resource_id resource_type region : string)
    (tags : gmap string string) (vpc_id : option string) (state : string)
    (name : option string) : t :=
  mk resource_id "internet_gateway" region tags vpc_id state
     (BaseResource.post_init name tags).
End InternetGateway.

Module EC2Instance.
Record t : Type := mk {
  resource_id : string;
  resource_type : string;
  region : string;
  tags : gmap string string;
  instance_type : string;
  state : string;
  vpc_id : string;
  subnet_id : string;
  private_ip : string;
  security_groups : list string;
  public_ip : option string;
  name : option string
}.

Definition init (resource_id resource_type region : string)
    (tags : gmap string string)
    (instance_type state vpc_id subnet_id private_ip : string)
    (security_groups : list string) (public_ip name : option string) : t :=
  mk resource_id "ec2_instance" region tags instance_type state vpc_id
     subnet_id private_ip security_groups public_ip
     (BaseResource.post_init name tags).
End EC2Instance.

Module LambdaFunction.
Record t : Type := mk {
  resource_id : string;
  resource_type : string;
  region : string;
  tags : gmap string string;
  function_name : string;
  runtime : string;
  state : string;
  subnet_ids : list string;
  security_group_ids : list string;
  vpc_config : option (gmap string string);
  name : option string
}.

Definition init (resource_id resource_type region : string)
    (tags : gmap string string) (function_name runtime state : string)
    (subnet_ids security_group_ids : list string)
    (vpc_config : option (gmap string string)) (name : option string) : t :=
  mk resource_id "lambda_function" region tags function_name runtime state
     subnet_ids security_group_ids vpc_config
     (BaseResource.post_init name tags).

(** Truth value of [func.vpc_config]: a present, non-empty dictionary. *)
Definition vpc_config_truthy (f : t) : bool :=
  match vpc_config f with
  | None => false
  | Some d => negb (bool_decide (d = ∅))
  end.
End LambdaFunction.

Module Route53HostedZone.
Record t : Type := mk {
  resource_id : string;
  resource_type : string;
  region : string;
  tags : gmap string string;
  zone_name : string;
  zone_id : string;
  private_zone : bool;
  record_count : Z;
  vpc_associations : list string;
  name : option string
}.

Definition init (resource_id resource_type region : string)
    (tags : gmap string string) (zone_name zone_id : string)
    (private_zone : bool) (record_count : Z)
    (vpc_associations : list string) (name : option string) : t :=
  mk resource_id "route53_hosted_zone" region tags zone_name zone_id
     private_zone record_count vpc_associations
     (BaseResource.post_init name tags).
End Route53HostedZone.

Module APIGateway.
Record t : Type := mk {
  resource_id : string;
  resource_type : string;
  region : string;
  tags : gmap string string;
  api_name : string;
  api_type : string;
  protocol_type : string;
  endpoint_type : string;
  vpc_links : list string;
  name : option string
}.

Definition init (resource_id resource_type region : string)
    (tags : gmap string string)
    (api_name api_type protocol_type endpoint_type : string)
    (vpc_links : list string) (name : option string) : t :=
  mk resource_id "api_gateway" region tags api_name api_type protocol_type
     endpoint_type vpc_links (BaseResource.post_init name tags).
End APIGateway.

(** Modelled from the spec: the NAT gateway record. [models.py] declares no
    such class; the PlantUML generator reads [resource_id], [subnet_id] and
    [name] of the elements of [topology.nat_gateways], and the spec gives a
    NAT gateway a single parent [subnet_id] that may be absent. *)
Module NatGateway.
Record t : Type := mk {
  resource_id : string;
  subnet_id : option string;
  name : option string
}.
End NatGateway.

(** ** Topologies and the organizer ([organizer.py]) *)

Module NetworkTopology.

(** The dataclass declares the first six fields. The last three are the
    attributes [nat_gateways], [route53_zones] and [api_gateways] that the
    PlantUML generator reads from a topology: the class declares none of
    them, so they are slots of the instance that may be empty, and [None]
    in such a slot means that the instance does not carry the attribute.

    Modelled from the spec: the content of the three slots when present.
    The generator imports its topology class from [executor.organizer],
    which is not among the sources; the spec lets a topology hold NAT
    gateways, DNS zones and API endpoints as plain sequences. *)
Record t : Type := mk {
  vpc : VPC.t;
  subnets : list Subnet.t;
  route_tables : list RouteTable.t;
  internet_gateways : list InternetGateway.t;
  ec2_instances : list EC2Instance.t;
  lambda_functions : list LambdaFunction.t;
  nat_gateways : option (list NatGateway.t);
  route53_zones : option (list Route53HostedZone.t);
  api_gateways : option (list APIGateway.t)
}.

(** The dataclass constructor of [organizer.py]: six fields, no further
    attribute. *)
Definition init (vpc : VPC.t) (subnets : list Subnet.t)
    (route_tables : list RouteTable.t)
    (internet_gateways : list InternetGateway.t)
    (ec2_instances : list EC2Instance.t)
    (lambda_functions : list LambdaFunction.t) : t :=
  mk vpc subnets route_tables internet_gateways ec2_instances
     lambda_functions None None None.

Definition get_subnet_by_id (self : t) (subnet_id : string)
  : option Subnet.t :=
  head (filter (λ subnet, Subnet.resource_id subnet = subnet_id)
               (subnets self)).

Definition get_instances_by_subnet (self : t) (subnet_id : string)
  : list EC2Instance.t :=
  filter (λ instance, EC2Instance.subnet_id instance = subnet_id)
         (ec2_instances self).

Definition get_lambda_functions_by_subnet (self : t) (subnet_id : string)
  : list LambdaFunction.t :=
  filter (λ func, subnet_id ∈ LambdaFunction.subnet_ids func)
         (lambda_functions self).

Definition get_public_subnets (self : t) : list Subnet.t :=
  filter (λ subnet, Subnet.map_public_ip_on_launch subnet = true)
         (subnets self).

Definition get_private_subnets (self : t) : list Subnet.t :=
  filter (λ subnet, Subnet.map_public_ip_on_launch subnet ≠ true)
         (subnets self).

End NetworkTopology.

Module AccountTopology.

Record t : Type := mk {
  region : string;
  vpcs : list NetworkTopology.t
}.

Definition get_vpc_topology (self : t) (vpc_id : string)
  : option NetworkTopology.t :=
  head (filter
          (λ vpc_topo,
             VPC.resource_id (NetworkTopology.vpc vpc_topo) = vpc_id)
          (vpcs self)).

Definition get_all_instances (self : t) : list EC2Instance.t :=
  fold_left
    (λ instances vpc_topology,
       instances ++ NetworkTopology.ec2_instances vpc_topology)
    (vpcs self) [].

Definition get_all_subnets (self : t) : list Subnet.t :=
  fold_left
    (λ subnets vpc_topology,
       subnets ++ NetworkTopology.subnets vpc_topology)
    (vpcs self) [].

End AccountTopology.

Module ResourceOrganizer.

(** The condition under which the loop over [lambda_functions] appends
    [func] to the functions of [vpc]. *)
Definition lambda_in_vpc (vpc : VPC.t) (vpc_subnets : list Subnet.t)
    (func : LambdaFunction.t) : Prop :=
  LambdaFunction.vpc_config_truthy func = true ∧
  Exists (λ subnet, Subnet.vpc_id subnet = VPC.resource_id vpc)
         (filter
            (λ subnet,
               Subnet.resource_id subnet ∈ LambdaFunction.subnet_ids func)
            vpc_subnets).

#[global] Instance lambda_in_vpc_dec vpc vpc_subnets func :
  Decision (lambda_in_vpc vpc vpc_subnets func).
Proof. unfold lambda_in_vpc. apply _. Defined.

(** The body of the loop over [vpcs]: the topology built for one VPC. *)
Definition organize_vpc (subnets : list Subnet.t)
    (route_tables : list RouteTable.t)
    (internet_gateways : list InternetGateway.t)
    (ec2_instances : list EC2Instance.t)
    (lambda_functions : list LambdaFunction.t) (vpc : VPC.t)
  : NetworkTopology.t :=
  let vpc_subnets :=
    filter (λ subnet, Subnet.vpc_id subnet = VPC.resource_id vpc) subnets in
  let vpc_route_tables :=
    filter (λ rt, RouteTable.vpc_id rt = VPC.resource_id vpc)
           route_tables in
  let vpc_gateways :=
    filter (λ igw, InternetGateway.vpc_id igw = Some (VPC.resource_id vpc))
           internet_gateways in
  let vpc_instances :=
    filter (λ instance, EC2Instance.vpc_id instance = VPC.resource_id vpc)
           ec2_instances in
  let vpc_lambda_functions :=
    fold_left
      (λ acc func,
         if decide (lambda_in_vpc vpc vpc_subnets func)
         then acc ++ [func] else acc)
      lambda_functions [] in
  NetworkTopology.init vpc vpc_subnets vpc_route_tables vpc_gateways
    vpc_instances vpc_lambda_functions.

(** [lambda_functions or []]. *)
Definition lambda_functions_or_empty
    (lambda_functions : option (list LambdaFunction.t))
  : list LambdaFunction.t :=
  match lambda_functions with
  | Some l => l
  | None => []
  end.

Definition organize_network_topology (vpcs : list VPC.t)
    (subnets : list Subnet.t) (route_tables : list RouteTable.t)
    (internet_gateways : list InternetGateway.t)
    (ec2_instances : list EC2Instance.t)
    (lambda_functions : option (list LambdaFunction.t))
  : list NetworkTopology.t :=
  let lambda_functions := lambda_functions_or_empty lambda_functions in
  fold_left
    (λ topologies vpc,
       topologies ++
       [organize_vpc subnets route_tables internet_gateways ec2_instances
          lambda_functions vpc])
    vpcs [].

Definition create_account_topology (region : string)
    (network_topologies : list NetworkTopology.t) : AccountTopology.t :=
  AccountTopology.mk region network_topologies.

End ResourceOrganizer.

(** ** The text report generator ([diagram.py]) *)

(** A text sink: the chunks written so far, oldest first. *)
Module TextIO.
Definition t : Type := list string.
Definition write (s : string) (output : t) : t := output ++ [s].
End TextIO.

Module TextDiagramGenerator.

Record t : Type := mk { indent_size : Z }.

(** [__init__(self, indent_size=2)]. *)
Definition init (indent_size : option Z) : t :=
  mk (default 2%Z indent_size).

Definition _indent (self : t) (level : Z) : string :=
  Py.mul " " (level * indent_size self).

(** The body of the loop over the instances of one subnet. *)
Definition write_instance (self : t) (output : TextIO.t)
    (instance : EC2Instance.t) : TextIO.t :=
  let output :=
    TextIO.write
      (_indent self 3 +:+
       Py.or_else (EC2Instance.name instance)
                  (EC2Instance.resource_id instance) +:+ Py.nl) output in
  let output :=
    TextIO.write
      (_indent self 4 +:+ "Type: " +:+ EC2Instance.instance_type instance
       +:+ Py.nl) output in
  let output :=
    TextIO.write
      (_indent self 4 +:+ "State: " +:+ EC2Instance.state instance
       +:+ Py.nl) output in
  let output :=
    TextIO.write
      (_indent self 4 +:+ "Private IP: " +:+ EC2Instance.private_ip instance
       +:+ Py.nl) output in
  if Py.opt_truthy (EC2Instance.public_ip instance) then
    TextIO.write
      (_indent self 4 +:+ "Public IP: " +:+
       default "" (EC2Instance.public_ip instance) +:+ Py.nl) output
  else output.

(** The three lines that describe a subnet, and the heading of its
    instances. *)
Definition subnet_title (self : t) (subnet : Subnet.t) : string :=
  let subnet_type :=
    if Subnet.map_public_ip_on_launch subnet then "Public" else "Private" in
  _indent self 1 +:+ subnet_type +:+ " Subnet: " +:+
  Py.or_else (Subnet.name subnet) (Subnet.resource_id subnet) +:+ Py.nl.

Definition subnet_cidr_line (self : t) (subnet : Subnet.t) : string :=
  _indent self 2 +:+ "CIDR: " +:+ Subnet.cidr_block subnet +:+ Py.nl.

Definition subnet_az_line (self : t) (subnet : Subnet.t) : string :=
  _indent self 2 +:+ "AZ: " +:+ Subnet.availability_zone subnet +:+ Py.nl.

Definition instances_heading (self : t) : string :=
  _indent self 2 +:+ "EC2 Instances:" +:+ Py.nl.

(** The body of the loop over the subnets of a topology. *)
Definition write_subnet (self : t) (topology : NetworkTopology.t)
    (output : TextIO.t) (subnet : Subnet.t) : TextIO.t :=
  let output := TextIO.write (subnet_title self subnet) output in
  let output := TextIO.write (subnet_cidr_line self subnet) output in
  let output := TextIO.write (subnet_az_line self subnet) output in
  let instances :=
    NetworkTopology.get_instances_by_subnet topology
      (Subnet.resource_id subnet) in
  let output :=
    if Py.list_truthy instances then
      let output := TextIO.write (instances_heading self) output in
      fold_left (write_instance self) instances output
    else output in
  TextIO.write Py.nl output.

(** The first line of the subnet-level report. *)
Definition vpc_report_title (topology : NetworkTopology.t) : string :=
  let vpc := NetworkTopology.vpc topology in
  "VPC: " +:+ Py.or_else (VPC.name vpc) (VPC.resource_id vpc) +:+ " (" +:+
  VPC.cidr_block vpc +:+ ")" +:+ Py.nl.

Definition generate_subnet_diagram (self : t) (topology : NetworkTopology.t)
    (output : TextIO.t) : TextIO.t :=
  let output := TextIO.write (vpc_report_title topology) output in
  fold_left (write_subnet self topology) (NetworkTopology.subnets topology)
    output.

(** The line of the VPC-level summary that counts the instances. *)
Definition total_instances_line (self : t) (total_instances : nat)
  : string :=
  _indent self 1 +:+ "Total EC2 Instances: " +:+
  Py.str_of_nat total_instances +:+ Py.nl.

(** The line of the account-level summary that counts the instances. *)
Definition account_instances_line (account_topology : AccountTopology.t)
  : string :=
  "Total Instances: " +:+
  Py.str_of_nat
    (length (AccountTopology.get_all_instances account_topology))
  +:+ Py.nl.

(** The lines of the VPC-level summary other than the instance count. *)
Definition vpc_title (topology : NetworkTopology.t) : string :=
  let vpc := NetworkTopology.vpc topology in
  "VPC: " +:+ Py.or_else (VPC.name vpc) (VPC.resource_id vpc) +:+ Py.nl.

Definition vpc_cidr_line (self : t) (topology : NetworkTopology.t)
  : string :=
  _indent self 1 +:+ "CIDR: " +:+
  VPC.cidr_block (NetworkTopology.vpc topology) +:+ Py.nl.

Definition vpc_state_line (self : t) (topology : NetworkTopology.t)
  : string :=
  _indent self 1 +:+ "State: " +:+
  VPC.state (NetworkTopology.vpc topology) +:+ Py.nl.

Definition vpc_default_line (self : t) (topology : NetworkTopology.t)
  : string :=
  _indent self 1 +:+ "Default: " +:+
  Py.str_of_bool (VPC.is_default (NetworkTopology.vpc topology)) +:+ Py.nl.

Definition igw_heading (self : t) : string :=
  _indent self 1 +:+ "Internet Gateways:" +:+ Py.nl.

Definition igw_line (self : t) (igw : InternetGateway.t) : string :=
  _indent self 2 +:+ InternetGateway.resource_id igw +:+ " (" +:+
  InternetGateway.state igw +:+ ")" +:+ Py.nl.

Definition public_subnets_line (self : t) (n : nat) : string :=
  _indent self 1 +:+ "Public Subnets: " +:+ Py.str_of_nat n +:+ Py.nl.

Definition private_subnets_line (self : t) (n : nat) : string :=
  _indent self 1 +:+ "Private Subnets: " +:+ Py.str_of_nat n +:+ Py.nl.

Definition generate_vpc_diagram (self : t) (topology : NetworkTopology.t)
    (output : TextIO.t) : TextIO.t :=
  let output := TextIO.write (vpc_title topology) output in
  let output := TextIO.write (vpc_cidr_line self topology) output in
  let output := TextIO.write (vpc_state_line self topology) output in
  let output := TextIO.write (vpc_default_line self topology) output in
  let output :=
    if Py.list_truthy (NetworkTopology.internet_gateways topology) then
      let output := TextIO.write (igw_heading self) output in
      fold_left (λ output igw, TextIO.write (igw_line self igw) output)
        (NetworkTopology.internet_gateways topology) output
    else output in
  let public_subnets := NetworkTopology.get_public_subnets topology in
  let private_subnets := NetworkTopology.get_private_subnets topology in
  let output :=
    if Py.list_truthy public_subnets then
      TextIO.write (public_subnets_line self (length public_subnets)) output
    else output in
  let output :=
    if Py.list_truthy private_subnets then
      TextIO.write (private_subnets_line self (length private_subnets))
        output
    else output in
  let total_instances := length (NetworkTopology.ec2_instances topology) in
  let output :=
    if negb (Nat.eqb total_instances 0) then
      TextIO.write (total_instances_line self total_instances) output
    else output in
  TextIO.write Py.nl output.

Definition generate_account_diagram (self : t)
    (account_topology : AccountTopology.t) (output : TextIO.t) : TextIO.t :=
  let output :=
    TextIO.write
      ("AWS Account - Region: " +:+ AccountTopology.region account_topology
       +:+ Py.nl) output in
  let output :=
    TextIO.write
      ("Total VPCs: " +:+
       Py.str_of_nat (length (AccountTopology.vpcs account_topology))
       +:+ Py.nl) output in
  let output :=
    TextIO.write (account_instances_line account_topology) output in
  let output :=
    TextIO.write
      ("Total Subnets: " +:+
       Py.str_of_nat
         (length (AccountTopology.get_all_subnets account_topology))
       +:+ Py.nl) output in
  let output := TextIO.write Py.nl output in
  fold_left
    (λ output vpc_topology, generate_vpc_diagram self vpc_topology output)
    (AccountTopology.vpcs account_topology) output.

Definition generate_full_diagram (self : t)
    (account_topology : AccountTopology.t) (output : TextIO.t) : TextIO.t :=
  let output := TextIO.write (Py.mul "=" 60 +:+ Py.nl) output in
  let output :=
    TextIO.write ("AWS CLOUD INFRASTRUCTURE MAP" +:+ Py.nl) output in
  let output := TextIO.write (Py.mul "=" 60 +:+ Py.nl +:+ Py.nl) output in
  let output := generate_account_diagram self account_topology output in
  let output :=
    TextIO.write ("DETAILED VPC BREAKDOWN:" +:+ Py.nl) output in
  let output := TextIO.write (Py.mul "-" 30 +:+ Py.nl +:+ Py.nl) output in
  fold_left
    (λ output vpc_topology,
       let output := generate_subnet_diagram self vpc_topology output in
       TextIO.write (Py.mul "-" 30 +:+ Py.nl) output)
    (AccountTopology.vpcs account_topology) output.

End TextDiagramGenerator.

(** ** The PlantUML generator ([presentation/plantuml_generator.py]) *)

Module PlantUMLDiagramGenerator.

(** The output manager and the session directory are handles of external
    collaborators; the generator only tests their presence and hands the
    content over. *)
Inductive OutputManager : Type := output_manager_handle.

Record t : Type := mk {
  output_manager : option OutputManager;
  session_dir : option string
}.

(** What [save_plantuml_output] is called with. *)
Record save_request : Type := mk_save {
  save_content : string;
  save_session_dir : string;
  save_region : string
}.

(** [az_groups[az]]: the dictionary with keys ['public'] and ['private']. *)
Record az_group : Type := mk_group {
  public : list Subnet.t;
  private : list Subnet.t
}.

(** The dictionary [az_groups], in insertion order. *)
Definition az_dict : Type := list (string * az_group).

(** [az_groups[az][...].append(subnet)] on a key that is present. *)
Definition az_dict_update (f : az_group → az_group) (az : string)
    (az_groups : az_dict) : az_dict :=
  (λ entry, if decide (entry.1 = az) then (entry.1, f entry.2) else entry)
    <$> az_groups.

(** The body of the loop that groups the subnets by availability zone. *)
Definition az_groups_step (az_groups : az_dict) (subnet : Subnet.t)
  : az_dict :=
  let az := Subnet.availability_zone subnet in
  let az_groups :=
    if decide (az ∈ az_groups.*1) then az_groups
    else az_groups ++ [(az, mk_group [] [])] in
  if Subnet.map_public_ip_on_launch subnet then
    az_dict_update (λ g, mk_group (public g ++ [subnet]) (private g))
      az az_groups
  else
    az_dict_update (λ g, mk_group (public g) (private g ++ [subnet]))
      az az_groups.

Definition build_az_groups (subnets : list Subnet.t) : az_dict :=
  fold_left az_groups_step subnets [].

(** The local variables a pass over one topology accumulates. *)
Record acc : Type := mk_acc {
  acc_lines : list string;
  acc_nat_gateway_ids : list string;
  acc_ec2_ids : list string
}.

Definition append_line (s : string) (st : acc) : acc :=
  mk_acc (acc_lines st ++ [s]) (acc_nat_gateway_ids st) (acc_ec2_ids st).

(** [range(0, n, 3)]. *)
Definition range_by_3 (n : nat) : list nat :=
  filter (λ i, i `mod` 3 = 0) (seq 0 n).

(** The node identifier and the node line of an instance. *)
Definition instance_node_id (instance : EC2Instance.t) : string :=
  Py.replace "-" "_" (EC2Instance.resource_id instance).

Definition instance_node_line (instance : EC2Instance.t) : string :=
  let instance_name := Py.or_else (EC2Instance.name instance) "Instance" in
  "        EC2Instance(" +:+ instance_node_id instance +:+ ", " +:+ Py.dq
  +:+ instance_name +:+ "\n" +:+ EC2Instance.instance_type instance +:+
  Py.dq +:+ ", " +:+ Py.dq +:+ Py.dq +:+ ") #Transparent".

(** One instance of a row: its identifier goes to [ec2_ids] and to
    [row_instance_ids], its node line to [lines]. *)
Definition emit_instance (st_row : acc * list string)
    (instance : EC2Instance.t) : acc * list string :=
  let instance_id := instance_node_id instance in
  (mk_acc (acc_lines st_row.1 ++ [instance_node_line instance])
     (acc_nat_gateway_ids st_row.1)
     (acc_ec2_ids st_row.1 ++ [instance_id]),
   st_row.2 ++ [instance_id]).

(** The hidden edge that keeps nodes [j] and [j + 1] of a row aligned. *)
Definition alignment_line (row_instance_ids : list string) (j : nat)
  : string :=
  "        " +:+ row_instance_ids !!! j +:+ " -[hidden]r- " +:+
  row_instance_ids !!! (j + 1).

Definition emit_alignment (row_instance_ids : list string) (st : acc)
  : acc :=
  if decide (1 < length row_instance_ids) then
    fold_left (λ st j, append_line (alignment_line row_instance_ids j) st)
      (seq 0 (length row_instance_ids - 1)) st
  else st.

(** The instances of one subnet, in rows of three. The source has this
    block twice, once for public and once for private subnets. *)
Definition emit_instance_rows (instances : list EC2Instance.t) (st : acc)
  : acc :=
  if Py.list_truthy instances then
    fold_left
      (λ st i,
         let row_instances := take 3 (drop i instances) in
         let st_row := fold_left emit_instance row_instances (st, []) in
         emit_alignment st_row.2 st_row.1)
      (range_by_3 (length instances)) st
  else st.

Definition nat_node_id (nat : NatGateway.t) : string :=
  Py.replace "-" "_" (NatGateway.resource_id nat).

Definition nat_node_line (nat : NatGateway.t) : string :=
  let nat_name := Py.or_else (NatGateway.name nat) "NAT Gateway" in
  "        VPCNATGateway(" +:+ nat_node_id nat +:+ ", " +:+ Py.dq +:+
  nat_name +:+ Py.dq +:+ ", " +:+ Py.dq +:+ Py.dq +:+ ") #Transparent".

Definition emit_nat_gateway (st : acc) (nat : NatGateway.t) : acc :=
  mk_acc (acc_lines st ++ [nat_node_line nat])
    (acc_nat_gateway_ids st ++ [nat_node_id nat])
    (acc_ec2_ids st).

Definition public_subnet_open (subnet : Subnet.t) : string :=
  let subnet_id := Py.replace "-" "_" (Subnet.resource_id subnet) in
  "      PublicSubnetGroup(" +:+ subnet_id +:+ ", " +:+ Py.dq +:+
  "Public subnet\n" +:+ Subnet.cidr_block subnet +:+ Py.dq +:+ ") {".

Definition private_subnet_open (subnet : Subnet.t) : string :=
  let subnet_id := Py.replace "-" "_" (Subnet.resource_id subnet) in
  "      PrivateSubnetGroup(" +:+ subnet_id +:+ ", " +:+ Py.dq +:+
  "Private subnet\n" +:+ Subnet.cidr_block subnet +:+ Py.dq +:+ ") {".

Definition subnet_close : string := "      }".

(** The NAT gateways drawn in a public subnet. *)
Definition nat_gateways_of_subnet (all_nat_gateways : list NatGateway.t)
    (subnet : Subnet.t) : list NatGateway.t :=
  filter
    (λ nat, NatGateway.subnet_id nat = Some (Subnet.resource_id subnet))
    all_nat_gateways.

(** The body of the loop over the public subnets of one zone. *)
Definition emit_public_subnet (topology : NetworkTopology.t) (st : acc)
    (subnet : Subnet.t) : Py.result acc :=
  let st := append_line (public_subnet_open subnet) st in
  do all_nat_gateways <-
    Py.getattr "NetworkTopology" "nat_gateways"
      (NetworkTopology.nat_gateways topology);
  let nat_gateways := nat_gateways_of_subnet all_nat_gateways subnet in
  let st := fold_left emit_nat_gateway nat_gateways st in
  let instances :=
    NetworkTopology.get_instances_by_subnet topology
      (Subnet.resource_id subnet) in
  let st := emit_instance_rows instances st in
  Py.ret (append_line subnet_close st).

(** The body of the loop over the private subnets of one zone. *)
Definition emit_private_subnet (topology : NetworkTopology.t) (st : acc)
    (subnet : Subnet.t) : acc :=
  let st := append_line (private_subnet_open subnet) st in
  let instances :=
    NetworkTopology.get_instances_by_subnet topology
      (Subnet.resource_id subnet) in
  let st := emit_instance_rows instances st in
  append_line subnet_close st.

Definition az_open (az : string) : string :=
  let az_id := Py.replace "." "_" (Py.replace "-" "_" az) in
  "    AvailabilityZoneGroup(" +:+ az_id +:+ ", " +:+ Py.dq +:+ "\t" +:+ az
  +:+ "\t" +:+ Py.dq +:+ ") {".

Definition az_close : string := "    }".

(** The body of the loop over [az_groups.items()]. *)
Definition emit_az_group (topology : NetworkTopology.t) (st : acc)
    (entry : string * az_group) : Py.result acc :=
  let st := append_line "" st in
  let st := append_line (az_open entry.1) st in
  do st <- Py.for_each (emit_public_subnet topology) (public entry.2) st;
  let st :=
    fold_left (emit_private_subnet topology) (private entry.2) st in
  Py.ret (append_line az_close st).

(** The first lines of a topology: the cloud group and the VPC group. *)
Definition vpc_open (topology : NetworkTopology.t) : list string :=
  let vpc := NetworkTopology.vpc topology in
  let vpc_name := Py.or_else (VPC.name vpc) (VPC.resource_id vpc) in
  let vpc_id := Py.replace "-" "_" (VPC.resource_id vpc) in
  ["AWSCloudGroup(cloud_" +:+ vpc_id +:+ ") {";
   "  VPCGroup(" +:+ vpc_id +:+ ", " +:+ Py.dq +:+ vpc_name +:+ Py.dq +:+
   ") {"].

Definition vpc_close : list string := ["  }"; "}"].

Definition igw_node_id (igw : InternetGateway.t) : string :=
  Py.replace "-" "_" (InternetGateway.resource_id igw).

Definition igw_node_line (igw : InternetGateway.t) : string :=
  "    VPCInternetGateway(" +:+ igw_node_id igw +:+ ", " +:+ Py.dq +:+
  "Internet Gateway" +:+ Py.dq +:+ ", " +:+ Py.dq +:+ Py.dq +:+ ")".

(** The loop over the internet gateways: [lines] and [igw_ids]. *)
Definition emit_internet_gateways (igws : list InternetGateway.t)
    (lines : list string) : list string * list string :=
  fold_left
    (λ st igw, (st.1 ++ [igw_node_line igw], st.2 ++ [igw_node_id igw]))
    igws (lines, []).

Definition zone_node_line (zone : Route53HostedZone.t) : string :=
  let zone_id := Py.replace "-" "_" (Route53HostedZone.resource_id zone) in
  let zone_type :=
    if Route53HostedZone.private_zone zone then "Private" else "Public" in
  "Route53(" +:+ zone_id +:+ ", " +:+ Py.dq +:+
  Route53HostedZone.zone_name zone +:+ "\n" +:+ zone_type +:+ " Zone" +:+
  Py.dq +:+ ", " +:+ Py.dq +:+ Py.dq +:+ ")".

(** The loop over the hosted zones: [lines] and [route53_ids]. *)
Definition emit_route53_zones (zones : list Route53HostedZone.t)
    (lines : list string) : list string * list string :=
  fold_left
    (λ st zone,
       (st.1 ++ [zone_node_line zone],
        st.2 ++ [Py.replace "-" "_" (Route53HostedZone.resource_id zone)]))
    zones (lines, []).

Definition api_node_line (api : APIGateway.t) : string :=
  let api_id := Py.replace "-" "_" (APIGateway.resource_id api) in
  "APIGateway(" +:+ api_id +:+ ", " +:+ Py.dq +:+ APIGateway.api_name api
  +:+ "\n" +:+ APIGateway.api_type api +:+ Py.dq +:+ ", " +:+ Py.dq +:+
  Py.dq +:+ ")".

(** The loop over the API gateways: [lines] and [api_ids]. *)
Definition emit_api_gateways (apis : list APIGateway.t)
    (lines : list string) : list string * list string :=
  fold_left
    (λ st api,
       (st.1 ++ [api_node_line api],
        st.2 ++ [Py.replace "-" "_" (APIGateway.resource_id api)]))
    apis (lines, []).

(** The edges from the instances of the private subnets to the first NAT
    gateway; the caller has tested [ec2_ids and nat_gateway_ids], and the
    body tests [nat_gateway_ids] again. *)
Definition emit_private_flows (topology : NetworkTopology.t)
    (az_groups : az_dict) (nat_gateway_ids : list string)
    (lines : list string) : list string :=
  fold_left
    (λ lines entry,
       fold_left
         (λ lines subnet,
            let instances :=
              NetworkTopology.get_instances_by_subnet topology
                (Subnet.resource_id subnet) in
            fold_left
              (λ lines instance,
                 if Py.list_truthy nat_gateway_ids then
                   lines ++
                   [instance_node_id instance +:+ " .u.> " +:+
                    nat_gateway_ids !!! 0]
                 else lines)
              instances lines)
         (private entry.2) lines)
    az_groups lines.

(** The three blocks of flow edges that end a topology. Every read of
    [igw_ids[0]] and [nat_gateway_ids[0]] is under a test that the list is
    not empty. *)
Definition emit_flows (topology : NetworkTopology.t) (az_groups : az_dict)
    (igw_ids nat_gateway_ids ec2_ids : list string) (lines : list string)
  : list string :=
  let lines :=
    if Py.list_truthy nat_gateway_ids && Py.list_truthy igw_ids then
      fold_left
        (λ lines nat_id, lines ++ [nat_id +:+ " .u.> " +:+ igw_ids !!! 0])
        nat_gateway_ids (lines ++ ["' Network Flow Connections"])
    else lines in
  let lines :=
    if Py.list_truthy ec2_ids && Py.list_truthy nat_gateway_ids then
      emit_private_flows topology az_groups nat_gateway_ids lines
    else lines in
  if bool_decide (1 < length nat_gateway_ids) && Py.list_truthy igw_ids
  then
    fold_left
      (λ lines nat_id,
         lines ++ [nat_id +:+ " .[hidden]u.> " +:+ igw_ids !!! 0])
      (drop 1 nat_gateway_ids) lines
  else lines.

Definition _generate_vpc_diagram_lines (topology : NetworkTopology.t)
  : Py.result (list string) :=
  let lines := vpc_open topology in
  let '(lines, igw_ids) :=
    emit_internet_gateways (NetworkTopology.internet_gateways topology)
      lines in
  let az_groups := build_az_groups (NetworkTopology.subnets topology) in
  do st <- Py.for_each (emit_az_group topology) az_groups
             (mk_acc lines [] []);
  let lines := acc_lines st ++ vpc_close in
  do zones <-
    Py.getattr "NetworkTopology" "route53_zones"
      (NetworkTopology.route53_zones topology);
  let '(lines, route53_ids) := emit_route53_zones zones lines in
  do apis <-
    Py.getattr "NetworkTopology" "api_gateways"
      (NetworkTopology.api_gateways topology);
  let '(lines, api_ids) := emit_api_gateways apis lines in
  let lines := lines ++ [""] in
  let lines :=
    emit_flows topology az_groups igw_ids (acc_nat_gateway_ids st)
      (acc_ec2_ids st) lines in
  Py.ret (lines ++ [""]).

(** The cells of one data row of the routing-table note. *)
Record note_row : Type := mk_row {
  rt_name : string;
  dest : string;
  gateway : string;
  status : string
}.

Definition make_note_row (rt : RouteTable.t) (route : gmap string string)
  : note_row :=
  mk_row
    (Py.slice_to 20
       (Py.or_else (RouteTable.name rt) (RouteTable.resource_id rt)))
    (Py.slice_to 18 (Py.dict_get route "destination" "N/A"))
    (Py.slice_to 18 (Py.dict_get route "gateway_id" "local"))
    (Py.slice_to 10 (Py.dict_get route "state" "active")).

Definition format_note_row (r : note_row) : string :=
  "| " +:+ rt_name r +:+ " | " +:+ dest r +:+ " | " +:+ gateway r +:+
  " | " +:+ status r +:+ " |".

(** The data rows of the note, in the order in which the nested loops over
    the topologies, their route tables and their routes produce them. *)
Definition note_rows (account_topology : AccountTopology.t)
  : list note_row :=
  fold_left
    (λ rows network_topology,
       fold_left
         (λ rows rt,
            fold_left (λ rows route, rows ++ [make_note_row rt route])
              (take 3 (RouteTable.routes rt)) rows)
         (take 5 (NetworkTopology.route_tables network_topology)) rows)
    (AccountTopology.vpcs account_topology) [].

(** The lines appended after the topologies when some topology has a route
    table. *)
Definition routing_table_note (account_topology : AccountTopology.t)
  : list string :=
  if existsb (λ vpc, Py.list_truthy (NetworkTopology.route_tables vpc))
       (AccountTopology.vpcs account_topology)
  then
    ["";
     "note bottom";
     "<size:12><b>Routing Tables</b></size>";
     "<#lightblue,#black>|= Route Table |= Destination |= Target |= Status |"]
    ++ (format_note_row <$> note_rows account_topology)
    ++ ["end note"]
  else [].

(** The fixed lines that open the document. *)
Definition preamble (region : string) : list string :=
  ["@startuml";
   "!define AWSPuml https://raw.githubusercontent.com/awslabs/aws-icons-for-plantuml/v20.0/dist";
   "!include AWSPuml/AWSCommon.puml";
   "!include AWSPuml/AWSSimplified.puml";
   "!include AWSPuml/Compute/EC2.puml";
   "!include AWSPuml/Compute/EC2Instance.puml";
   "!include AWSPuml/Compute/Lambda.puml";
   "!include AWSPuml/NetworkingContentDelivery/VPCNATGateway.puml";
   "!include AWSPuml/NetworkingContentDelivery/VPCInternetGateway.puml";
   "!include AWSPuml/NetworkingContentDelivery/APIGateway.puml";
   "!include AWSPuml/NetworkingContentDelivery/Route53.puml";
   "!include AWSPuml/Groups/AWSCloud.puml";
   "!include AWSPuml/Groups/VPC.puml";
   "!include AWSPuml/Groups/PublicSubnet.puml";
   "!include AWSPuml/Groups/PrivateSubnet.puml";
   "!include AWSPuml/Groups/AvailabilityZone.puml";
   "";
   "hide stereotype";
   "skinparam linetype ortho";
   "";
   "title AWS Infrastructure - " +:+ region;
   ""].

(** The lines of the document, before they are joined. *)
Definition document_lines (account_topology : AccountTopology.t)
  : Py.result (list string) :=
  let lines := preamble (AccountTopology.region account_topology) in
  do lines <-
    Py.for_each
      (λ lines network_topology,
         do vpc_lines <- _generate_vpc_diagram_lines network_topology;
         Py.ret (lines ++ vpc_lines))
      (AccountTopology.vpcs account_topology) lines;
  let lines := lines ++ routing_table_note account_topology in
  Py.ret (lines ++ ["@enduml"]).

Definition _generate_plantuml_content (account_topology : AccountTopology.t)
  : Py.result string :=
  do lines <- document_lines account_topology;
  Py.ret (Py.join Py.nl lines).

(** [generate_full_diagram]: the sink after the call and, when an output
    manager and a session directory are present, the request handed to
    [save_plantuml_output]. *)
Definition generate_full_diagram (self : t)
    (account_topology : AccountTopology.t) (output : TextIO.t)
  : Py.result (TextIO.t * option save_request) :=
  do content <- _generate_plantuml_content account_topology;
  let output := TextIO.write content output in
  match output_manager self, session_dir self with
  | Some _, Some dir =>
      Py.ret
        (output,
         Some (mk_save content dir
                 (AccountTopology.region account_topology)))
  | _, _ => Py.ret (output, None)
  end.

End PlantUMLDiagramGenerator.

(** ** The orchestration ([main.py]) *)

Module CloudMapService.

(** A discovery call either returns its list or raises the [RuntimeError]
    the discoverers wrap the client errors in. *)
Inductive error : Type :=
  | RuntimeError (msg : string).

Definition io (A : Type) : Type := error + A.

Definition io_bind {A B} (m : io A) (k : A → io B) : io B :=
  match m with
  | inl e => inl e
  | inr a => k a
  end.

(** A [for] loop over discovery calls: it stops at the first one that
    raises. *)
Fixpoint io_for_each {A S} (body : S → A → io S) (l : list A) (s : S)
  : io S :=
  match l with
  | [] => inr s
  | x :: l' => io_bind (body s x) (io_for_each body l')
  end.

(** The service holds its region and the discoverers injected into it. A
    discoverer method is a call to the cloud API: it is taken as a
    function of its argument, the answer the API gives during one run.
    [discover_lambda_functions] belongs to [aws_serverless_discoverer],
    which is not among the sources. *)
Record t : Type := mk {
  region : string;
  discover_vpcs : io (list VPC.t);
  discover_subnets : string → io (list Subnet.t);
  discover_route_tables : string → io (list RouteTable.t);
  discover_internet_gateways : string → io (list InternetGateway.t);
  discover_ec2_instances : option string → io (list EC2Instance.t);
  discover_lambda_functions : option string → io (list LambdaFunction.t)
}.

(** The lists [all_subnets], [all_route_tables] and [all_gateways]. *)
Record discovered : Type := mk_discovered {
  all_subnets : list Subnet.t;
  all_route_tables : list RouteTable.t;
  all_gateways : list InternetGateway.t
}.

(** The body of the loop over the VPCs in scope. *)
Definition discover_network (self : t) (all : discovered) (vpc : VPC.t)
  : io discovered :=
  io_bind (discover_subnets self (VPC.resource_id vpc)) (λ subnets,
  io_bind (discover_route_tables self (VPC.resource_id vpc))
    (λ route_tables,
  io_bind (discover_internet_gateways self (VPC.resource_id vpc))
    (λ gateways,
  inr (mk_discovered (all_subnets all ++ subnets)
         (all_route_tables all ++ route_tables)
         (all_gateways all ++ gateways))))).

(** [vpcs] after the optional filter on [vpc_id]. *)
Definition vpcs_in_scope (vpc_id : option string) (vpcs : list VPC.t)
  : list VPC.t :=
  if Py.opt_truthy vpc_id then
    filter (λ vpc, Some (VPC.resource_id vpc) = vpc_id) vpcs
  else vpcs.

(** [ec2_instances] after the optional filter on [vpc_id]. *)
Definition instances_in_scope (vpc_id : option string)
    (ec2_instances : list EC2Instance.t) : list EC2Instance.t :=
  if Py.opt_truthy vpc_id then
    filter (λ inst, Some (EC2Instance.vpc_id inst) = vpc_id) ec2_instances
  else ec2_instances.

Definition discover_infrastructure (self : t) (vpc_id : option string)
  : io AccountTopology.t :=
  io_bind (discover_vpcs self) (λ vpcs,
  let vpcs := vpcs_in_scope vpc_id vpcs in
  io_bind (io_for_each (discover_network self) vpcs
             (mk_discovered [] [] [])) (λ all,
  io_bind (discover_ec2_instances self None) (λ ec2_instances,
  let ec2_instances := instances_in_scope vpc_id ec2_instances in
  io_bind (discover_lambda_functions self vpc_id) (λ lambda_functions,
  let network_topologies :=
    ResourceOrganizer.organize_network_topology vpcs (all_subnets all)
      (all_route_tables all) (all_gateways all) ec2_instances
      (Some lambda_functions) in
  inr (ResourceOrganizer.create_account_topology (region self)
         network_topologies))))).

End CloudMapService.

(** ** Notions used in the statements *)

(** A child record is placed by the organizer at position [i] of its
    result and at no other position. *)
Definition placed_only_at {C : Type}
    (children : NetworkTopology.t → list C)
    (topologies : list NetworkTopology.t) (i : nat) (c : C) : Prop :=
  (∃ t, topologies !! i = Some t ∧ c ∈ children t) ∧
  (∀ j t, topologies !! j = Some t → c ∈ children t → j = i).

(** A child record is placed in no topology. *)
Definition placed_nowhere {C : Type}
    (children : NetworkTopology.t → list C)
    (topologies : list NetworkTopology.t) (c : C) : Prop :=
  ∀ t, t ∈ topologies → c ∉ children t.

(** The chunks of one instance in the subnet-level report. *)
Definition instance_chunks (self : TextDiagramGenerator.t)
    (instance : EC2Instance.t) : list string :=
  TextDiagramGenerator.write_instance self [] instance.

(** The chunks of one subnet in the subnet-level report, given the
    instances listed under it. *)
Definition subnet_section (self : TextDiagramGenerator.t)
    (subnet : Subnet.t) (instances : list EC2Instance.t) : list string :=
  [TextDiagramGenerator.subnet_title self subnet;
   TextDiagramGenerator.subnet_cidr_line self subnet;
   TextDiagramGenerator.subnet_az_line self subnet]
  ++ (if Py.list_truthy instances
      then TextDiagramGenerator.instances_heading self
           :: concat (instance_chunks self <$> instances)
      else [])
  ++ [Py.nl].

(** The chunks of the VPC-level summary that come before the instance
    count. *)
Definition vpc_summary_head (self : TextDiagramGenerator.t)
    (topology : NetworkTopology.t) : list string :=
  let igws := NetworkTopology.internet_gateways topology in
  let public_subnets := NetworkTopology.get_public_subnets topology in
  let private_subnets := NetworkTopology.get_private_subnets topology in
  [TextDiagramGenerator.vpc_title topology;
   TextDiagramGenerator.vpc_cidr_line self topology;
   TextDiagramGenerator.vpc_state_line self topology;
   TextDiagramGenerator.vpc_default_line self topology]
  ++ (if Py.list_truthy igws
      then TextDiagramGenerator.igw_heading self
           :: (TextDiagramGenerator.igw_line self <$> igws)
      else [])
  ++ (if Py.list_truthy public_subnets
      then [TextDiagramGenerator.public_subnets_line self
              (length public_subnets)]
      else [])
  ++ (if Py.list_truthy private_subnets
      then [TextDiagramGenerator.private_subnets_line self
              (length private_subnets)]
      else []).

(** A chunk is a line that counts the instances of a VPC when it starts
    with the indentation of level 1 followed by the label of the count. *)
Definition is_total_instances_line (self : TextDiagramGenerator.t)
    (chunk : string) : Prop :=
  String.prefix
    (TextDiagramGenerator._indent self 1 +:+ "Total EC2 Instances: ") chunk
  = true.

(** *** The diagram document as nested containers *)

Section Containers.

Import PlantUMLDiagramGenerator.

(** The hidden alignment edges of a row with the given node identifiers. *)
Definition alignment_lines (row_instance_ids : list string) : list string :=
  if decide (1 < length row_instance_ids) then
    alignment_line row_instance_ids
    <$> seq 0 (length row_instance_ids - 1)
  else [].

(** The lines of one row of instances: the nodes, then the edges. *)
Definition row_lines (row : list EC2Instance.t) : list string :=
  (instance_node_line <$> row) ++ alignment_lines (instance_node_id <$> row).

(** The rows of three into which a list of instances is cut. *)
Definition instance_rows (instances : list EC2Instance.t)
  : list (list EC2Instance.t) :=
  (λ i, take 3 (drop i instances)) <$> range_by_3 (length instances).

(** A subnet container: its opening line, the nodes of the NAT gateways
    drawn in it, the rows of the instances drawn in it, its closing
    line. *)
Definition subnet_container (opening : string) (nats : list NatGateway.t)
    (instances : list EC2Instance.t) : list string :=
  opening :: (nat_node_line <$> nats)
  ++ concat (row_lines <$> instance_rows instances)
  ++ [subnet_close].

Definition public_container (topology : NetworkTopology.t)
    (all_nats : list NatGateway.t) (subnet : Subnet.t) : list string :=
  subnet_container (public_subnet_open subnet)
    (nat_gateways_of_subnet all_nats subnet)
    (NetworkTopology.get_instances_by_subnet topology
       (Subnet.resource_id subnet)).

Definition private_container (topology : NetworkTopology.t)
    (subnet : Subnet.t) : list string :=
  subnet_container (private_subnet_open subnet) []
    (NetworkTopology.get_instances_by_subnet topology
       (Subnet.resource_id subnet)).

(** An availability-zone container: a blank line, its opening line, one
    container per public subnet of the group, one per private subnet of
    the group, its closing line. *)
Definition az_container (topology : NetworkTopology.t)
    (all_nats : list NatGateway.t) (entry : string * az_group)
  : list string :=
  [""; az_open entry.1]
  ++ concat (public_container topology all_nats <$> public entry.2)
  ++ concat (private_container topology <$> private entry.2)
  ++ [az_close].

(** The accumulator: empty, appended, and the concatenation of a list. *)
Definition acc_empty : acc := mk_acc [] [] [].

Definition acc_app (a b : acc) : acc :=
  mk_acc (acc_lines a ++ acc_lines b)
    (acc_nat_gateway_ids a ++ acc_nat_gateway_ids b)
    (acc_ec2_ids a ++ acc_ec2_ids b).

Definition acc_concat (l : list acc) : acc := foldr acc_app acc_empty l.

(** What a row, a subnet container and a zone container add to the
    accumulator. *)
Definition row_acc (row : list EC2Instance.t) : acc :=
  mk_acc (row_lines row) [] (instance_node_id <$> row).

Definition subnet_container_acc (opening : string)
    (nats : list NatGateway.t) (instances : list EC2Instance.t) : acc :=
  acc_app (mk_acc [opening] [] [])
    (acc_app (mk_acc (nat_node_line <$> nats) (nat_node_id <$> nats) [])
       (acc_app (acc_concat (row_acc <$> instance_rows instances))
          (mk_acc [subnet_close] [] []))).

Definition az_container_acc (topology : NetworkTopology.t)
    (all_nats : list NatGateway.t) (entry : string * az_group) : acc :=
  acc_app (mk_acc [""; az_open entry.1] [] [])
    (acc_app
       (acc_concat
          ((λ subnet,
              subnet_container_acc (public_subnet_open subnet)
                (nat_gateways_of_subnet all_nats subnet)
                (NetworkTopology.get_instances_by_subnet topology
                   (Subnet.resource_id subnet)))
           <$> public entry.2))
       (acc_app
          (acc_concat
             ((λ subnet,
                 subnet_container_acc (private_subnet_open subnet) []
                   (NetworkTopology.get_instances_by_subnet topology
                      (Subnet.resource_id subnet)))
              <$> private entry.2))
          (mk_acc [az_close] [] []))).

(** The group of an availability zone: its public subnets and its private
    subnets, each in the order of the list. *)
Definition group_of (az : string) (subnets : list Subnet.t) : az_group :=
  mk_group
    (filter
       (λ s, Subnet.availability_zone s = az ∧
             Subnet.map_public_ip_on_launch s = true) subnets)
    (filter
       (λ s, Subnet.availability_zone s = az ∧
             Subnet.map_public_ip_on_launch s ≠ true) subnets).

(** The data rows one topology contributes to the routing-table note. *)
Definition topology_note_rows (topology : NetworkTopology.t)
  : list note_row :=
  concat
    ((λ rt, make_note_row rt <$> take 3 (RouteTable.routes rt))
     <$> take 5 (NetworkTopology.route_tables topology)).

(** Every cell of a row is within its width. *)
Definition row_within_widths (r : note_row) : Prop :=
  String.length (rt_name r) ≤ 20 ∧ String.length (dest r) ≤ 18 ∧
  String.length (gateway r) ≤ 18 ∧ String.length (status r) ≤ 10.

(** The topology with the three attributes present. *)
Definition with_attributes (topology : NetworkTopology.t)
    (nats : list NatGateway.t) (zones : list Route53HostedZone.t)
    (apis : list APIGateway.t) : NetworkTopology.t :=
  NetworkTopology.mk (NetworkTopology.vpc topology)
    (NetworkTopology.subnets topology)
    (NetworkTopology.route_tables topology)
    (NetworkTopology.internet_gateways topology)
    (NetworkTopology.ec2_instances topology)
    (NetworkTopology.lambda_functions topology)
    (Some nats) (Some zones) (Some apis).

(** The availability zones of a list of subnets, each once, in the order
    of first occurrence. *)
Fixpoint first_seen (azs : list string) : list string :=
  match azs with
  | [] => []
  | az :: azs' => az :: filter (λ az', az' ≠ az) (first_seen azs')
  end.

End Containers.

(** A chunk is a whole line when it ends with a line feed. *)
Definition ends_with_newline (chunk : string) : Prop :=
  ∃ body, chunk = body +:+ Py.nl.

(** The name a report shows for a resource: the explicit name when it is
    not empty, else the [Name] tag when it is present and not empty, else
    the [resource_id]. *)
Definition displayed_name (name : option string) (tags : gmap string string)
    (resource_id : string) : string :=
  match name with
  | Some (String c n) => String c n
  | _ =>
      match tags !! "Name" with
      | Some (String c n) => String c n
      | _ => resource_id
      end
  end.

(** *** What the pass over a topology draws and connects *)

Section Drawn.

Import PlantUMLDiagramGenerator.

(** The instances of a subnet, as the pass looks them up. *)
Definition instances_of (topology : NetworkTopology.t) (subnet : Subnet.t)
  : list EC2Instance.t :=
  NetworkTopology.get_instances_by_subnet topology
    (Subnet.resource_id subnet).

(** The NAT gateways that get a node, in the order of their nodes. *)
Definition drawn_nat_gateways (topology : NetworkTopology.t)
    (all_nats : list NatGateway.t) : list NatGateway.t :=
  concat
    ((λ entry : string * az_group,
        concat (nat_gateways_of_subnet all_nats <$> public entry.2))
     <$> build_az_groups (NetworkTopology.subnets topology)).

(** The instances that get a node, in the order of their nodes. *)
Definition drawn_instances (topology : NetworkTopology.t)
  : list EC2Instance.t :=
  concat
    ((λ entry : string * az_group,
        concat (instances_of topology <$> public entry.2)
        ++ concat (instances_of topology <$> private entry.2))
     <$> build_az_groups (NetworkTopology.subnets topology)).

(** The instances drawn in private subnets, in the order of their nodes. *)
Definition private_instances (topology : NetworkTopology.t)
  : list EC2Instance.t :=
  concat
    ((λ entry : string * az_group,
        concat (instances_of topology <$> private entry.2))
     <$> build_az_groups (NetworkTopology.subnets topology)).

(** The flow edges of a topology, from the identifiers collected by the
    pass: every NAT gateway to the first internet gateway, every instance
    of a private subnet to the first NAT gateway, and the NAT gateways
    after the first to the first internet gateway once more, hidden. *)
Definition flow_lines (igw_ids nat_ids ec2_ids private_ids : list string)
  : list string :=
  (if Py.list_truthy nat_ids && Py.list_truthy igw_ids
   then "' Network Flow Connections"
        :: ((λ nat_id, nat_id +:+ " .u.> " +:+ igw_ids !!! 0) <$> nat_ids)
   else [])
  ++ (if Py.list_truthy ec2_ids && Py.list_truthy nat_ids
      then (λ instance_id, instance_id +:+ " .u.> " +:+ nat_ids !!! 0)
           <$> private_ids
      else [])
  ++ (if bool_decide (1 < length nat_ids) && Py.list_truthy igw_ids
      then (λ nat_id, nat_id +:+ " .[hidden]u.> " +:+ igw_ids !!! 0)
           <$> drop 1 nat_ids
      else []).

(** A topology the pass can draw: it carries [route53_zones] and
    [api_gateways], and it carries [nat_gateways] unless it has no public
    subnet. *)
Definition renderable (topology : NetworkTopology.t) : Prop :=
  is_Some (NetworkTopology.route53_zones topology) ∧
  is_Some (NetworkTopology.api_gateways topology) ∧
  (is_Some (NetworkTopology.nat_gateways topology) ∨
   NetworkTopology.get_public_subnets topology = []).


End Drawn.

(** A string holds a given character. *)
Fixpoint contains_char (c : Ascii.ascii) (s : string) : Prop :=
  match s with
  | EmptyString => False
  | String c' s' => c' = c ∨ contains_char c s'
  end.

(** *** Discovery *)

(** What a discovery call returned, when it did return. *)
Definition returned {A : Type} (call : CloudMapService.io (list A))
  : list A :=
  match call with
  | inr l => l
  | inl _ => []
  end.

(** A discovery call returned. *)
Definition succeeded {A : Type} (call : CloudMapService.io A) : Prop :=
  ∃ a, call = inr a.

(** The three network discovery calls made for a VPC all returned. *)
Definition network_discovered (self : CloudMapService.t) (vpc : VPC.t)
  : Prop :=
  succeeded (CloudMapService.discover_subnets self (VPC.resource_id vpc)) ∧
  succeeded
    (CloudMapService.discover_route_tables self (VPC.resource_id vpc)) ∧
  succeeded
    (CloudMapService.discover_internet_gateways self (VPC.resource_id vpc)).

(** ** Sample resources *)

Module Sample.

Definition vpc_1 : VPC.t :=
  VPC.init "vpc-1" "vpc" "us-east-1" ∅ "10.0.0.0/16" "available" false None.

Definition vpc_2 : VPC.t :=
  VPC.init "vpc-2" "vpc" "us-east-1" ∅ "10.1.0.0/16" "available" false None.

(** A second VPC record with the [resource_id] of [vpc_1]. *)
Definition vpc_1_twin : VPC.t :=
  VPC.init "vpc-1" "vpc" "us-east-1" ∅ "10.9.0.0/16" "available" false None.

Definition subnet_1 : Subnet.t :=
  Subnet.init "subnet-1" "subnet" "us-east-1" ∅ "vpc-1" "10.0.1.0/24"
    "us-east-1a" "available" true None.

Definition subnet_2 : Subnet.t :=
  Subnet.init "subnet-2" "subnet" "us-east-1" ∅ "vpc-1" "10.0.2.0/24"
    "us-east-1b" "available" false None.

Definition subnet_3 : Subnet.t :=
  Subnet.init "subnet-3" "subnet" "us-east-1" ∅ "vpc-1" "10.0.3.0/24"
    "us-east-1a" "available" false None.

Definition instance_1 : EC2Instance.t :=
  EC2Instance.init "i-1" "ec2_instance" "us-east-1" {[ "Name" := "web-1" ]}
    "t3.micro" "running" "vpc-1" "subnet-1" "10.0.1.5" [] None None.

(** An instance of [vpc-1] whose subnet is not among the subnets. *)
Definition instance_stray : EC2Instance.t :=
  EC2Instance.init "i-9" "ec2_instance" "us-east-1" ∅ "t3.micro" "running"
    "vpc-1" "subnet-gone" "10.0.9.9" [] None None.

(** A function that names a subnet of [vpc-1] and has no [vpc_config]. *)
Definition function_no_config : LambdaFunction.t :=
  LambdaFunction.init "fn-1" "lambda_function" "us-east-1" ∅ "fn-1"
    "python3.12" "Active" ["subnet-1"] [] None None.

(** The same function with a [vpc_config]. *)
Definition function_in_vpc : LambdaFunction.t :=
  LambdaFunction.init "fn-2" "lambda_function" "us-east-1" ∅ "fn-2"
    "python3.12" "Active" ["subnet-1"] []
    (Some {[ "VpcId" := "vpc-1" ]}) None.

(** A topology with three subnets in two zones and one instance. *)
Definition topology_1 : NetworkTopology.t :=
  NetworkTopology.init vpc_1 [subnet_1; subnet_2; subnet_3] [] []
    [instance_1] [].

(** The topology above with the three attributes, all empty. *)
Definition topology_1_drawn : NetworkTopology.t :=
  with_attributes topology_1 [] [] [].

(** A topology with an instance whose subnet is not among its subnets. *)
Definition topology_stray : NetworkTopology.t :=
  with_attributes
    (NetworkTopology.init vpc_1 [subnet_1] [] []
       [instance_1; instance_stray] [])
    [] [] [].

(** A route, and a route table of the given VPC with five such routes. *)
Definition route : gmap string string :=
  {[ "destination" := "2001:0db8:85a3:0000:0000:8a2e:0370:7334/128";
     "gateway_id" := "igw-0123456789abcdef0";
     "state" := "active" ]}.

Definition route_table (rid vpc_id : string) : RouteTable.t :=
  RouteTable.init rid "route_table" "us-east-1" ∅ vpc_id
    (replicate 5 route) [] None.

(** Seven route tables in one topology. *)
Definition topology_7_tables : NetworkTopology.t :=
  with_attributes
    (NetworkTopology.init vpc_1 []
       [route_table "rtb-1" "vpc-1"; route_table "rtb-2" "vpc-1";
        route_table "rtb-3" "vpc-1"; route_table "rtb-4" "vpc-1";
        route_table "rtb-5" "vpc-1"; route_table "rtb-6" "vpc-1";
        route_table "rtb-7" "vpc-1"] [] [] [])
    [] [] [].

Definition account_7_in_one : AccountTopology.t :=
  AccountTopology.mk "us-east-1" [topology_7_tables].

(** Seven route tables in two topologies, four and three. *)
Definition topology_4_tables : NetworkTopology.t :=
  with_attributes
    (NetworkTopology.init vpc_1 []
       [route_table "rtb-1" "vpc-1"; route_table "rtb-2" "vpc-1";
        route_table "rtb-3" "vpc-1"; route_table "rtb-4" "vpc-1"] [] [] [])
    [] [] [].

Definition topology_3_tables : NetworkTopology.t :=
  with_attributes
    (NetworkTopology.init vpc_2 []
       [route_table "rtb-5" "vpc-2"; route_table "rtb-6" "vpc-2";
        route_table "rtb-7" "vpc-2"] [] [] [])
    [] [] [].

Definition account_4_and_3 : AccountTopology.t :=
  AccountTopology.mk "us-east-1" [topology_4_tables; topology_3_tables].

(** A service whose discoverers answer from fixed lists. *)
Definition service : CloudMapService.t :=
  CloudMapService.mk "us-east-1"
    (inr [vpc_1; vpc_2])
    (λ vpc_id,
       inr (filter (λ s, Subnet.vpc_id s = vpc_id)
              [subnet_1; subnet_2; subnet_3]))
    (λ vpc_id, inr [])
    (λ vpc_id, inr [])
    (λ subnet_id, inr [instance_1; instance_stray])
    (λ vpc_id, inr []).

End Sample.

(** * Properties *)

(** ** Loops that append *)

Lemma fold_left_snoc_fmap {A B : Type} (f : A → B) (l : list A)
    (init : list B) :
  fold_left (λ acc x, acc ++ [f x]) l init = init ++ (f <$> l).
Proof.
  revert init. induction l as [|x l IH]; intros init; simpl.
  - by rewrite app_nil_r.
  - rewrite IH. by rewrite <- app_assoc.
Qed.

Lemma fold_left_snoc_filter {A : Type} (P : A → Prop)
    `{!∀ x, Decision (P x)} (l : list A) (init : list A) :
  fold_left (λ acc x, if decide (P x) then acc ++ [x] else acc) l init
  = init ++ filter P l.
Proof.
  revert init. induction l as [|x l IH]; intros init; simpl.
  - by rewrite app_nil_r.
  - rewrite IH. rewrite filter_cons. destruct (decide (P x)); [|done].
    by rewrite <- app_assoc.
Qed.

Lemma fold_left_app_concat {A B : Type} (f : A → list B) (l : list A)
    (init : list B) :
  fold_left (λ acc x, acc ++ f x) l init = init ++ concat (f <$> l).
Proof.
  revert init. induction l as [|x l IH]; intros init; simpl.
  - by rewrite app_nil_r.
  - rewrite IH. by rewrite <- app_assoc.
Qed.

Lemma elem_of_concat {A : Type} (x : A) (ls : list (list A)) :
  x ∈ concat ls ↔ ∃ l, x ∈ l ∧ l ∈ ls.
Proof.
  induction ls as [|l ls IH]; simpl.
  - split; [by intros ?%not_elem_of_nil|].
    by intros (l & _ & ?%not_elem_of_nil).
  - rewrite elem_of_app, IH. split.
    + intros [Hx|(l' & Hx & Hl')].
      * exists l. split; [done|left].
      * exists l'. split; [done|by right].
    + intros (l' & Hx & Hl'). apply elem_of_cons in Hl' as [->|Hl'].
      * by left.
      * right. by exists l'.
Qed.

Lemma filter_none {A : Type} (P : A → Prop) `{!∀ x, Decision (P x)}
    (l : list A) :
  (∀ x, x ∈ l → ¬ P x) → filter P l = [].
Proof.
  induction l as [|x l IH]; intros Hnone; [done|].
  rewrite filter_cons, decide_False by (apply Hnone; left).
  apply IH. intros y Hy. apply Hnone. by right.
Qed.

Lemma fold_left_appends {A B : Type} (f : list B → A → list B)
    (g : A → list B) :
  (∀ acc x, f acc x = acc ++ g x) →
  ∀ l acc, fold_left f l acc = acc ++ concat (g <$> l).
Proof.
  intros Hf l. induction l as [|x l IH]; intros acc; simpl.
  - by rewrite app_nil_r.
  - rewrite IH, Hf. by rewrite <- app_assoc.
Qed.

(** ** The organizer as a map over the VPCs *)

Section Organizer.

Context (vpcs : list VPC.t) (subnets : list Subnet.t)
  (route_tables : list RouteTable.t)
  (internet_gateways : list InternetGateway.t)
  (ec2_instances : list EC2Instance.t)
  (lambda_functions : option (list LambdaFunction.t)).

Let organized : list NetworkTopology.t :=
  ResourceOrganizer.organize_network_topology vpcs subnets route_tables
    internet_gateways ec2_instances lambda_functions.

Let topology_of : VPC.t → NetworkTopology.t :=
  ResourceOrganizer.organize_vpc subnets route_tables internet_gateways
    ec2_instances
    (ResourceOrganizer.lambda_functions_or_empty lambda_functions).

Lemma organized_fmap : organized = topology_of <$> vpcs.
Proof.
  unfold organized, ResourceOrganizer.organize_network_topology.
  by rewrite fold_left_snoc_fmap.
Qed.

Lemma organized_lookup (i : nat) (t : NetworkTopology.t) :
  organized !! i = Some t ↔ ∃ v, vpcs !! i = Some v ∧ t = topology_of v.
Proof.
  rewrite organized_fmap, list_lookup_fmap_Some. naive_solver.
Qed.

Lemma organized_elem (t : NetworkTopology.t) :
  t ∈ organized ↔ ∃ v, v ∈ vpcs ∧ t = topology_of v.
Proof.
  rewrite organized_fmap, list_elem_of_fmap. naive_solver.
Qed.

Lemma topology_of_lambda_functions (v : VPC.t) :
  NetworkTopology.lambda_functions (topology_of v)
  = filter
      (ResourceOrganizer.lambda_in_vpc v
         (NetworkTopology.subnets (topology_of v)))
      (ResourceOrganizer.lambda_functions_or_empty lambda_functions).
Proof.
  unfold topology_of, ResourceOrganizer.organize_vpc. simpl.
  by rewrite fold_left_snoc_filter.
Qed.

(** One equality join, for any kind of child: a child whose key names the
    VPC at position [i] is placed there and nowhere else, provided no two
    VPCs share a [resource_id]. *)
Lemma join_placed_only_at {C : Type}
    (children : NetworkTopology.t → list C) (input : list C)
    (key : C → string → Prop) {Hdec : ∀ c s, Decision (key c s)}
    (i : nat) (v : VPC.t) (c : C) :
  (∀ v, children (topology_of v)
        = filter (λ c, key c (VPC.resource_id v)) input) →
  (∀ c a b, key c a → key c b → a = b) →
  NoDup (VPC.resource_id <$> vpcs) →
  vpcs !! i = Some v →
  c ∈ input →
  key c (VPC.resource_id v) →
  placed_only_at children organized i c.
Proof.
  intros Hchildren Hfun Hnodup Hi Hc Hkey. split.
  - exists (topology_of v). split.
    + apply organized_lookup. eauto.
    + rewrite Hchildren. by apply list_elem_of_filter.
  - intros j t Hj Hin.
    apply organized_lookup in Hj as (v' & Hj & ->).
    rewrite Hchildren in Hin. apply list_elem_of_filter in Hin as [Hk _].
    pose proof (Hfun _ _ _ Hkey Hk) as Heq.
    eapply (NoDup_lookup _ j i (VPC.resource_id v)); [done| |].
    + rewrite list_lookup_fmap, Hj. simpl. by rewrite Heq.
    + by rewrite list_lookup_fmap, Hi.
Qed.

(** A child whose key names no VPC of the input is placed nowhere. *)
Lemma join_placed_nowhere {C : Type}
    (children : NetworkTopology.t → list C) (input : list C)
    (key : C → string → Prop) {Hdec : ∀ c s, Decision (key c s)} (c : C) :
  (∀ v, children (topology_of v)
        = filter (λ c, key c (VPC.resource_id v)) input) →
  (∀ v, v ∈ vpcs → ¬ key c (VPC.resource_id v)) →
  placed_nowhere children organized c.
Proof.
  intros Hchildren Hnone t Ht Hin.
  apply organized_elem in Ht as (v & Hv & ->).
  rewrite Hchildren in Hin. apply list_elem_of_filter in Hin as [Hk _].
  by apply (Hnone v).
Qed.

End Organizer.

(** ** Join correctness *)

(** C2, amended. The result has one topology per input VPC, at the
    position of the VPC. A subnet, route table, internet gateway or instance is in a child
    list of a topology exactly when it is in the input list and its
    [vpc_id] is the [resource_id] of the VPC of that topology. Hence,
    when no two input VPCs share a [resource_id] (the uniqueness of
    [resource_id] in the data model), a child whose [vpc_id] names the
    VPC at position [i] is placed in the topology at position [i] and in
    no other; and a child whose [vpc_id] is the [resource_id] of no input
    VPC is placed in no topology. *)
Theorem join_correctness (vpcs : list VPC.t) (subnets : list Subnet.t)
    (route_tables : list RouteTable.t)
    (internet_gateways : list InternetGateway.t)
    (ec2_instances : list EC2Instance.t)
    (lambda_functions : option (list LambdaFunction.t)) :
  let organized :=
    ResourceOrganizer.organize_network_topology vpcs subnets route_tables
      internet_gateways ec2_instances lambda_functions in
  length organized = length vpcs ∧
  (∀ i v, vpcs !! i = Some v →
     ∃ t, organized !! i = Some t ∧ NetworkTopology.vpc t = v) ∧
  (∀ t, t ∈ organized →
     let id := VPC.resource_id (NetworkTopology.vpc t) in
     (∀ c, c ∈ NetworkTopology.subnets t ↔
           c ∈ subnets ∧ Subnet.vpc_id c = id) ∧
     (∀ c, c ∈ NetworkTopology.route_tables t ↔
           c ∈ route_tables ∧ RouteTable.vpc_id c = id) ∧
     (∀ c, c ∈ NetworkTopology.internet_gateways t ↔
           c ∈ internet_gateways ∧ InternetGateway.vpc_id c = Some id) ∧
     (∀ c, c ∈ NetworkTopology.ec2_instances t ↔
           c ∈ ec2_instances ∧ EC2Instance.vpc_id c = id)) ∧
  (NoDup (VPC.resource_id <$> vpcs) →
   ∀ i v, vpcs !! i = Some v →
     (∀ c, c ∈ subnets → Subnet.vpc_id c = VPC.resource_id v →
        placed_only_at NetworkTopology.subnets organized i c) ∧
     (∀ c, c ∈ route_tables → RouteTable.vpc_id c = VPC.resource_id v →
        placed_only_at NetworkTopology.route_tables organized i c) ∧
     (∀ c, c ∈ internet_gateways →
        InternetGateway.vpc_id c = Some (VPC.resource_id v) →
        placed_only_at NetworkTopology.internet_gateways organized i c) ∧
     (∀ c, c ∈ ec2_instances → EC2Instance.vpc_id c = VPC.resource_id v →
        placed_only_at NetworkTopology.ec2_instances organized i c)) ∧
  (∀ c, (∀ v, v ∈ vpcs → Subnet.vpc_id c ≠ VPC.resource_id v) →
     placed_nowhere NetworkTopology.subnets organized c) ∧
  (∀ c, (∀ v, v ∈ vpcs → RouteTable.vpc_id c ≠ VPC.resource_id v) →
     placed_nowhere NetworkTopology.route_tables organized c) ∧
  (∀ c,
     (∀ v, v ∈ vpcs → InternetGateway.vpc_id c ≠ Some (VPC.resource_id v)) →
     placed_nowhere NetworkTopology.internet_gateways organized c) ∧
  (∀ c, (∀ v, v ∈ vpcs → EC2Instance.vpc_id c ≠ VPC.resource_id v) →
     placed_nowhere NetworkTopology.ec2_instances organized c).
Proof.
  intros organized. split_and!.
  - unfold organized. by rewrite organized_fmap, length_fmap.
  - intros i v Hi. eexists. split; [apply organized_lookup; eauto|done].
  - intros t Ht id. apply organized_elem in Ht as (v & Hv & ->).
    split_and!; intros c; unfold id;
      cbn [ResourceOrganizer.organize_vpc NetworkTopology.init
           NetworkTopology.vpc NetworkTopology.subnets
           NetworkTopology.route_tables NetworkTopology.internet_gateways
           NetworkTopology.ec2_instances];
      rewrite list_elem_of_filter; tauto.
  - intros Hnodup i v Hi. split_and!.
    + intros c Hc Hk.
      apply (join_placed_only_at _ _ _ _ _ _ _ subnets
               (λ c s, Subnet.vpc_id c = s)
               (Hdec := λ c s, decide (Subnet.vpc_id c = s)) i v);
        auto; congruence.
    + intros c Hc Hk.
      apply (join_placed_only_at _ _ _ _ _ _ _ route_tables
               (λ c s, RouteTable.vpc_id c = s)
               (Hdec := λ c s, decide (RouteTable.vpc_id c = s)) i v);
        auto; congruence.
    + intros c Hc Hk.
      apply (join_placed_only_at _ _ _ _ _ _ _ internet_gateways
               (λ c s, InternetGateway.vpc_id c = Some s)
               (Hdec := λ c s, decide (InternetGateway.vpc_id c = Some s))
               i v);
        auto; congruence.
    + intros c Hc Hk.
      apply (join_placed_only_at _ _ _ _ _ _ _ ec2_instances
               (λ c s, EC2Instance.vpc_id c = s)
               (Hdec := λ c s, decide (EC2Instance.vpc_id c = s)) i v);
        auto; congruence.
  - intros c Hnone.
    apply (join_placed_nowhere _ _ _ _ _ _ _ subnets
             (λ c s, Subnet.vpc_id c = s)
             (Hdec := λ c s, decide (Subnet.vpc_id c = s))); auto.
  - intros c Hnone.
    apply (join_placed_nowhere _ _ _ _ _ _ _ route_tables
             (λ c s, RouteTable.vpc_id c = s)
             (Hdec := λ c s, decide (RouteTable.vpc_id c = s))); auto.
  - intros c Hnone.
    apply (join_placed_nowhere _ _ _ _ _ _ _ internet_gateways
             (λ c s, InternetGateway.vpc_id c = Some s)
             (Hdec := λ c s, decide (InternetGateway.vpc_id c = Some s)));
      auto.
  - intros c Hnone.
    apply (join_placed_nowhere _ _ _ _ _ _ _ ec2_instances
             (λ c s, EC2Instance.vpc_id c = s)
             (Hdec := λ c s, decide (EC2Instance.vpc_id c = s))); auto.
Qed.

Lemma join_correctness_witness :
  NoDup (VPC.resource_id <$> [Sample.vpc_1; Sample.vpc_2]) ∧
  placed_only_at NetworkTopology.subnets
    (ResourceOrganizer.organize_network_topology
       [Sample.vpc_1; Sample.vpc_2] [Sample.subnet_1; Sample.subnet_2] []
       [] [Sample.instance_1] None)
    0 Sample.subnet_1.
Proof.
  assert (Hnodup : NoDup (VPC.resource_id <$> [Sample.vpc_1; Sample.vpc_2])).
  { apply (bool_decide_unpack _). vm_compute. exact I. }
  split; [exact Hnodup|].
  destruct (join_correctness [Sample.vpc_1; Sample.vpc_2]
              [Sample.subnet_1; Sample.subnet_2] [] [] [Sample.instance_1]
              None) as (_ & _ & _ & Hplaced & _).
  destruct (Hplaced Hnodup 0 Sample.vpc_1 eq_refl) as (Hsub & _).
  apply Hsub; [|reflexivity].
  apply list_elem_of_here.
Defined.

(** The claim C2 fails on a VPC list in which two VPCs share a
    [resource_id]: a subnet whose [vpc_id] is that id is placed in the
    topology of each of them, two different topologies, so in no position
    alone. *)
Lemma shared_vpc_id_places_child_twice :
  Subnet.vpc_id Sample.subnet_1 = VPC.resource_id Sample.vpc_1 ∧
  (∃ t0 t1,
     ResourceOrganizer.organize_network_topology
       [Sample.vpc_1; Sample.vpc_1_twin] [Sample.subnet_1] [] [] [] None
     = [t0; t1] ∧
     NetworkTopology.vpc t0 = Sample.vpc_1 ∧
     NetworkTopology.vpc t1 = Sample.vpc_1_twin ∧
     t0 ≠ t1 ∧
     Sample.subnet_1 ∈ NetworkTopology.subnets t0 ∧
     Sample.subnet_1 ∈ NetworkTopology.subnets t1) ∧
  (∀ i,
     ¬ placed_only_at NetworkTopology.subnets
         (ResourceOrganizer.organize_network_topology
            [Sample.vpc_1; Sample.vpc_1_twin] [Sample.subnet_1] [] [] []
            None)
         i Sample.subnet_1).
Proof.
  split; [reflexivity|]. split.
  - do 2 eexists. split; [vm_compute; reflexivity|].
    split_and!; [reflexivity|reflexivity|discriminate| |];
      apply list_elem_of_here.
  - intros i [_ Honly].
    assert (H0 : 0 = i).
    { apply (Honly 0 _ eq_refl). apply list_elem_of_here. }
    assert (H1 : 1 = i).
    { apply (Honly 1 _ eq_refl). apply list_elem_of_here. }
    congruence.
Qed.

(** ** Placement of serverless functions *)

(** The claim C4 fails on a function that names a subnet of the VPC and
    has no [vpc_config]: the subnet is placed under [vpc-1], the function
    names it, and the function is not in the topology of [vpc-1]. *)
Lemma lambda_without_vpc_config_not_placed :
  ∃ t,
    ResourceOrganizer.organize_network_topology [Sample.vpc_1]
      [Sample.subnet_1] [] [] [] (Some [Sample.function_no_config]) = [t] ∧
    ¬ (Sample.function_no_config ∈ NetworkTopology.lambda_functions t ↔
       ∃ subnet,
         subnet ∈ NetworkTopology.subnets t ∧
         Subnet.resource_id subnet
         ∈ LambdaFunction.subnet_ids Sample.function_no_config).
Proof.
  eexists. split; [reflexivity|].
  intros [_ Hplaced].
  assert (Hin : Sample.function_no_config ∈ @nil LambdaFunction.t).
  { apply Hplaced. exists Sample.subnet_1. split.
    - apply list_elem_of_here.
    - apply list_elem_of_here. }
  by apply not_elem_of_nil in Hin.
Qed.

(** C4, amended. A function is placed in a topology of the result if and
    only if it is in the input list, its [vpc_config] is present and not
    empty, and one of its [subnet_ids] is the [resource_id] of a subnet
    placed in that topology. *)
Theorem lambda_placement (vpcs : list VPC.t) (subnets : list Subnet.t)
    (route_tables : list RouteTable.t)
    (internet_gateways : list InternetGateway.t)
    (ec2_instances : list EC2Instance.t)
    (lambda_functions : option (list LambdaFunction.t))
    (t : NetworkTopology.t) (func : LambdaFunction.t) :
  t ∈ ResourceOrganizer.organize_network_topology vpcs subnets route_tables
        internet_gateways ec2_instances lambda_functions →
  func ∈ NetworkTopology.lambda_functions t ↔
  func ∈ ResourceOrganizer.lambda_functions_or_empty lambda_functions ∧
  (∃ d, LambdaFunction.vpc_config func = Some d ∧ d ≠ ∅) ∧
  (∃ subnet,
     subnet ∈ NetworkTopology.subnets t ∧
     Subnet.resource_id subnet ∈ LambdaFunction.subnet_ids func).
Proof.
  intros Ht. apply organized_elem in Ht as (v & Hv & ->).
  rewrite topology_of_lambda_functions, list_elem_of_filter.
  unfold ResourceOrganizer.lambda_in_vpc, LambdaFunction.vpc_config_truthy.
  rewrite Exists_exists.
  split.
  - intros [[Hcfg (s & Hs & _)] Hin].
    apply list_elem_of_filter in Hs as [Hid Hs].
    split; [done|]. split; [|by exists s].
    destruct (LambdaFunction.vpc_config func) as [d|]; [|done].
    exists d. split; [done|].
    apply negb_true_iff, bool_decide_eq_false in Hcfg. done.
  - intros (Hin & (d & Hd & Hne) & s & Hs & Hid).
    split; [|done]. split.
    + rewrite Hd. apply negb_true_iff, bool_decide_eq_false. done.
    + exists s. split.
      * apply list_elem_of_filter. done.
      * simpl in Hs. apply list_elem_of_filter in Hs as [Hs _]. done.
Qed.

Lemma lambda_placement_witness :
  ∃ t,
    t ∈ ResourceOrganizer.organize_network_topology [Sample.vpc_1]
          [Sample.subnet_1] [] [] []
          (Some [Sample.function_no_config; Sample.function_in_vpc]) ∧
    Sample.function_in_vpc ∈ NetworkTopology.lambda_functions t.
Proof.
  eexists. split; [apply list_elem_of_here|].
  eapply (lambda_placement [Sample.vpc_1] [Sample.subnet_1] [] [] []
            (Some [Sample.function_no_config; Sample.function_in_vpc]));
    [apply list_elem_of_here|].
  split; [apply list_elem_of_further, list_elem_of_here|]. split.
  - eexists. split; [reflexivity|].
    intros Heq. apply (f_equal (λ m : gmap string string, m !! "VpcId")) in Heq.
    vm_compute in Heq. discriminate Heq.
  - exists Sample.subnet_1. split; apply list_elem_of_here.
Defined.

(** ** Duplicates in the input *)

(** The claim C5 fails when a subnet is listed twice: the topology of its
    VPC lists it twice. *)
Lemma duplicate_subnet_kept :
  ∃ t,
    ResourceOrganizer.organize_network_topology [Sample.vpc_1]
      [Sample.subnet_1; Sample.subnet_1] [] [] [] None = [t] ∧
    NetworkTopology.subnets t = [Sample.subnet_1; Sample.subnet_1] ∧
    ¬ NoDup (Subnet.resource_id <$> NetworkTopology.subnets t).
Proof.
  eexists. split; [reflexivity|]. split; [reflexivity|].
  intros Hnodup. apply NoDup_cons in Hnodup as [Hnotin _].
  apply Hnotin. apply list_elem_of_here.
Qed.

(** C5, amended. Every child list of a topology of the result is the
    input list restricted to the records that match the VPC, in input
    order and with the multiplicity of the input: the joins remove no
    duplicate. Hence a child list has no two records with the same
    [resource_id] whenever its input list has none. *)
Theorem joins_keep_input_multiplicity (vpcs : list VPC.t)
    (subnets : list Subnet.t) (route_tables : list RouteTable.t)
    (internet_gateways : list InternetGateway.t)
    (ec2_instances : list EC2Instance.t)
    (lambda_functions : option (list LambdaFunction.t))
    (t : NetworkTopology.t) :
  t ∈ ResourceOrganizer.organize_network_topology vpcs subnets route_tables
        internet_gateways ec2_instances lambda_functions →
  let id := VPC.resource_id (NetworkTopology.vpc t) in
  (NetworkTopology.subnets t
   = filter (λ c, Subnet.vpc_id c = id) subnets ∧
   NetworkTopology.route_tables t
   = filter (λ c, RouteTable.vpc_id c = id) route_tables ∧
   NetworkTopology.internet_gateways t
   = filter (λ c, InternetGateway.vpc_id c = Some id) internet_gateways ∧
   NetworkTopology.ec2_instances t
   = filter (λ c, EC2Instance.vpc_id c = id) ec2_instances ∧
   NetworkTopology.lambda_functions t
   = filter
       (ResourceOrganizer.lambda_in_vpc (NetworkTopology.vpc t)
          (NetworkTopology.subnets t))
       (ResourceOrganizer.lambda_functions_or_empty lambda_functions)) ∧
  (NoDup (Subnet.resource_id <$> subnets) →
   NoDup (Subnet.resource_id <$> NetworkTopology.subnets t)) ∧
  (NoDup (RouteTable.resource_id <$> route_tables) →
   NoDup (RouteTable.resource_id <$> NetworkTopology.route_tables t)) ∧
  (NoDup (InternetGateway.resource_id <$> internet_gateways) →
   NoDup
     (InternetGateway.resource_id <$> NetworkTopology.internet_gateways t)) ∧
  (NoDup (EC2Instance.resource_id <$> ec2_instances) →
   NoDup (EC2Instance.resource_id <$> NetworkTopology.ec2_instances t)) ∧
  (NoDup
     (LambdaFunction.resource_id <$>
      ResourceOrganizer.lambda_functions_or_empty lambda_functions) →
   NoDup (LambdaFunction.resource_id <$> NetworkTopology.lambda_functions t)).
Proof.
  intros Ht id. apply organized_elem in Ht as (v & Hv & ->).
  assert (Hsub : ∀ {A B : Type} (f : A → B) (P : A → Prop)
                   `{!∀ x, Decision (P x)} (l : list A),
             NoDup (f <$> l) → NoDup (f <$> filter P l)).
  { intros A B f P ? l Hnd. eapply sublist_NoDup; [exact Hnd|].
    apply fmap_sublist, sublist_filter. }
  split.
  - repeat split. apply topology_of_lambda_functions.
  - rewrite topology_of_lambda_functions.
    repeat split; intros Hnd; by apply Hsub.
Qed.

Lemma joins_keep_input_multiplicity_witness :
  ∃ t,
    t ∈ ResourceOrganizer.organize_network_topology [Sample.vpc_1]
          [Sample.subnet_1; Sample.subnet_2; Sample.subnet_1] [] [] [] None ∧
    NetworkTopology.subnets t
    = [Sample.subnet_1; Sample.subnet_2; Sample.subnet_1].
Proof.
  eexists. split; [apply list_elem_of_here|].
  destruct (joins_keep_input_multiplicity [Sample.vpc_1]
              [Sample.subnet_1; Sample.subnet_2; Sample.subnet_1] [] [] []
              None _ (list_elem_of_here _ _)) as [(Hsubnets & _) _].
  rewrite Hsubnets. reflexivity.
Defined.

(** ** Strings *)

Lemma append_cons (x : ascii) (a b : string) :
  String x a +:+ b = String x (a +:+ b).
Proof. reflexivity. Qed.

Lemma append_assoc (a b c : string) : (a +:+ b) +:+ c = a +:+ (b +:+ c).
Proof.
  induction a as [|x a IH]; [done|].
  rewrite !append_cons. f_equal. exact IH.
Qed.

Lemma prefix_append_same (a b c : string) :
  String.prefix (a +:+ b) (a +:+ c) = String.prefix b c.
Proof.
  induction a as [|x a IH]; [done|].
  rewrite !append_cons. simpl.
  destruct (Ascii.ascii_dec x x); [done|congruence].
Qed.

Lemma repeat_nat_add (s : string) (n m : nat) :
  Py.repeat_nat s (n + m) = Py.repeat_nat s n +:+ Py.repeat_nat s m.
Proof.
  induction n as [|n IH]; [done|].
  change (s +:+ Py.repeat_nat s (n + m)
          = (s +:+ Py.repeat_nat s n) +:+ Py.repeat_nat s m).
  rewrite IH. symmetry. apply append_assoc.
Qed.

Lemma indent_2_split (self : TextDiagramGenerator.t) :
  TextDiagramGenerator._indent self 2
  = TextDiagramGenerator._indent self 1
    +:+ TextDiagramGenerator._indent self 1.
Proof.
  unfold TextDiagramGenerator._indent, Py.mul.
  rewrite <- repeat_nat_add. f_equal. lia.
Qed.

Lemma indent_1_space (self : TextDiagramGenerator.t) :
  (0 < TextDiagramGenerator.indent_size self)%Z →
  ∃ rest, TextDiagramGenerator._indent self 1 = String " " rest.
Proof.
  intros Hpos. unfold TextDiagramGenerator._indent, Py.mul.
  destruct (Z.to_nat (1 * TextDiagramGenerator.indent_size self))
    as [|n] eqn:Hn; [lia|].
  simpl. eauto.
Qed.

(** ** The text report as chunks appended to the sink *)

Lemma fold_left_write {A : Type} (f : TextIO.t → A → TextIO.t)
    (g : A → list string) :
  (∀ output x, f output x = output ++ g x) →
  ∀ l output, fold_left f l output = output ++ concat (g <$> l).
Proof.
  intros Hf l. induction l as [|x l IH]; intros output; simpl.
  - by rewrite app_nil_r.
  - rewrite IH, Hf. by rewrite <- app_assoc.
Qed.

Lemma write_instance_app (self : TextDiagramGenerator.t)
    (output : TextIO.t) (instance : EC2Instance.t) :
  TextDiagramGenerator.write_instance self output instance
  = output ++ instance_chunks self instance.
Proof.
  unfold instance_chunks, TextDiagramGenerator.write_instance, TextIO.write.
  destruct (Py.opt_truthy (EC2Instance.public_ip instance)); simpl;
    by rewrite <- !app_assoc.
Qed.

Lemma write_subnet_app (self : TextDiagramGenerator.t)
    (topology : NetworkTopology.t) (output : TextIO.t) (subnet : Subnet.t) :
  TextDiagramGenerator.write_subnet self topology output subnet
  = output ++
    subnet_section self subnet
      (NetworkTopology.get_instances_by_subnet topology
         (Subnet.resource_id subnet)).
Proof.
  unfold subnet_section, TextDiagramGenerator.write_subnet, TextIO.write.
  destruct (Py.list_truthy _); simpl.
  - rewrite (fold_left_write _ _ (write_instance_app self)).
    by rewrite <- !app_assoc.
  - by rewrite <- !app_assoc.
Qed.

Lemma generate_subnet_diagram_app (self : TextDiagramGenerator.t)
    (topology : NetworkTopology.t) (output : TextIO.t) :
  TextDiagramGenerator.generate_subnet_diagram self topology output
  = output ++
    TextDiagramGenerator.vpc_report_title topology
    :: concat
         ((λ subnet,
             subnet_section self subnet
               (NetworkTopology.get_instances_by_subnet topology
                  (Subnet.resource_id subnet)))
          <$> NetworkTopology.subnets topology).
Proof.
  unfold TextDiagramGenerator.generate_subnet_diagram, TextIO.write.
  rewrite (fold_left_write _ _ (write_subnet_app self topology)).
  by rewrite <- app_assoc.
Qed.

Lemma generate_vpc_diagram_app (self : TextDiagramGenerator.t)
    (topology : NetworkTopology.t) (output : TextIO.t) :
  TextDiagramGenerator.generate_vpc_diagram self topology output
  = output ++
    vpc_summary_head self topology ++
    (if negb (length (NetworkTopology.ec2_instances topology) =? 0)
     then [TextDiagramGenerator.total_instances_line self
             (length (NetworkTopology.ec2_instances topology))]
     else [])
    ++ [Py.nl].
Proof.
  unfold vpc_summary_head, TextDiagramGenerator.generate_vpc_diagram,
    TextIO.write.
  rewrite (fold_left_write _ (λ igw, [TextDiagramGenerator.igw_line self igw]))
    by done.
  assert (Hone : ∀ l : list InternetGateway.t,
    concat ((λ igw, [TextDiagramGenerator.igw_line self igw]) <$> l)
    = TextDiagramGenerator.igw_line self <$> l).
  { induction l as [|x l IH]; csimpl; [done|]. by rewrite IH. }
  rewrite Hone.
  destruct (Py.list_truthy (NetworkTopology.internet_gateways topology));
    destruct (Py.list_truthy (NetworkTopology.get_public_subnets topology));
    destruct (Py.list_truthy (NetworkTopology.get_private_subnets topology));
    destruct (negb (length (NetworkTopology.ec2_instances topology) =? 0));
    simpl; rewrite <- ?app_assoc; simpl; rewrite <- ?app_assoc; done.
Qed.

(** No chunk before the instance count looks like the instance count. *)
Lemma vpc_summary_head_no_total (self : TextDiagramGenerator.t)
    (topology : NetworkTopology.t) (chunk : string) :
  (0 < TextDiagramGenerator.indent_size self)%Z →
  chunk ∈ vpc_summary_head self topology →
  ¬ is_total_instances_line self chunk.
Proof.
  intros Hpos Hin. unfold is_total_instances_line.
  destruct (indent_1_space self Hpos) as [rest Hrest].
  assert (Hlabel : ∀ label tail : string,
    String.prefix "Total EC2 Instances: " (label +:+ tail) = false →
    String.prefix
      (TextDiagramGenerator._indent self 1 +:+ "Total EC2 Instances: ")
      (TextDiagramGenerator._indent self 1 +:+ label +:+ tail) ≠ true).
  { intros label tail Hf. rewrite prefix_append_same, Hf. done. }
  assert (Hdeep : ∀ tail : string,
    String.prefix
      (TextDiagramGenerator._indent self 1 +:+ "Total EC2 Instances: ")
      (TextDiagramGenerator._indent self 2 +:+ tail) ≠ true).
  { intros tail. rewrite indent_2_split, append_assoc, prefix_append_same.
    rewrite Hrest. simpl. done. }
  unfold vpc_summary_head in Hin.
  rewrite !elem_of_app, !elem_of_cons in Hin.
  destruct Hin as [[Ht|[Hc|[Hs|[Hd|Hnil]]]]|[Higw|[Hpub|Hpriv]]].
  - subst chunk. unfold TextDiagramGenerator.vpc_title.
    rewrite Hrest. simpl. done.
  - subst chunk. by apply Hlabel.
  - subst chunk. by apply Hlabel.
  - subst chunk. by apply Hlabel.
  - by apply not_elem_of_nil in Hnil.
  - destruct (Py.list_truthy _); [|by apply not_elem_of_nil in Higw].
    apply elem_of_cons in Higw as [->|Higw].
    + by apply Hlabel.
    + apply list_elem_of_fmap in Higw as (igw & -> & _). apply Hdeep.
  - destruct (Py.list_truthy _); [|by apply not_elem_of_nil in Hpub].
    apply list_elem_of_singleton in Hpub as ->. by apply Hlabel.
  - destruct (Py.list_truthy _); [|by apply not_elem_of_nil in Hpriv].
    apply list_elem_of_singleton in Hpriv as ->. by apply Hlabel.
Qed.

(** ** Zero suppression *)

(** C7. With the indentation positive (its default is 2), the VPC-level
    summary of a topology with no instance has no line that starts as the
    instance count does; the summary of a topology with exactly one
    instance ends with the line of the count, with value 1, followed by
    the blank line. The summary is what the method appends to the sink. *)
Theorem zero_suppression (self : TextDiagramGenerator.t)
    (topology : NetworkTopology.t) :
  (0 < TextDiagramGenerator.indent_size self)%Z →
  ∃ summary,
    (∀ output,
       TextDiagramGenerator.generate_vpc_diagram self topology output
       = output ++ summary) ∧
    (length (NetworkTopology.ec2_instances topology) = 0 →
     ∀ chunk, chunk ∈ summary → ¬ is_total_instances_line self chunk) ∧
    (length (NetworkTopology.ec2_instances topology) = 1 →
     ∃ head,
       summary
       = head ++
         [TextDiagramGenerator._indent self 1 +:+ "Total EC2 Instances: 1"
          +:+ Py.nl; Py.nl] ∧
       ∀ chunk, chunk ∈ head → ¬ is_total_instances_line self chunk).
Proof.
  intros Hpos. eexists. split; [intros; apply generate_vpc_diagram_app|].
  split.
  - intros Hzero chunk Hin. rewrite Hzero in Hin.
    change (chunk ∈ vpc_summary_head self topology ++ [] ++ [Py.nl]) in Hin.
    rewrite app_nil_l, elem_of_app, list_elem_of_singleton in Hin.
    destruct Hin as [Hin| ->].
    + by apply (vpc_summary_head_no_total self topology).
    + unfold is_total_instances_line.
      destruct (indent_1_space self Hpos) as [rest ->]. simpl. done.
  - intros Hone. exists (vpc_summary_head self topology).
    rewrite Hone. split; [reflexivity|].
    intros chunk Hin. by apply (vpc_summary_head_no_total self topology).
Qed.

Lemma zero_suppression_witness :
  (0 < TextDiagramGenerator.indent_size (TextDiagramGenerator.init None))%Z ∧
  ∃ summary head,
    TextDiagramGenerator.generate_vpc_diagram
      (TextDiagramGenerator.init None) Sample.topology_1 []
    = summary ∧
    summary = head ++ ["  Total EC2 Instances: 1" +:+ Py.nl; Py.nl].
Proof.
  assert (Hpos : (0 < TextDiagramGenerator.indent_size
                        (TextDiagramGenerator.init None))%Z)
    by reflexivity.
  split; [exact Hpos|].
  destruct (zero_suppression (TextDiagramGenerator.init None)
              Sample.topology_1 Hpos) as (summary & Hgen & _ & Hone).
  destruct (Hone eq_refl) as (head & Hsummary & _).
  exists summary, head. split; [|exact Hsummary].
  rewrite Hgen. reflexivity.
Defined.

(** ** Name derivation *)

(** C8. A resource constructed with no explicit name and with tags that
    have the key [Name] gets the value of that tag as its name, whatever
    its kind; constructed with no explicit name and empty tags it has no
    name, and the text report then shows its [resource_id]: in the title
    of the subnet-level report and of the VPC-level summary for a VPC, in
    the title of its section for a subnet, and in its entry for an
    instance. *)
Theorem name_derivation (tags : gmap string string) (n : string) :
  tags !! "Name" = Some n →
  BaseResource.post_init None tags = Some n ∧
  (∀ rid rtype region cidr state is_default,
     VPC.name (VPC.init rid rtype region tags cidr state is_default None)
     = Some n) ∧
  (∀ rid rtype region vpc_id cidr az state public,
     Subnet.name
       (Subnet.init rid rtype region tags vpc_id cidr az state public None)
     = Some n) ∧
  (∀ rid rtype region vpc_id routes assoc,
     RouteTable.name
       (RouteTable.init rid rtype region tags vpc_id routes assoc None)
     = Some n) ∧
  (∀ rid rtype region vpc_id state,
     InternetGateway.name
       (InternetGateway.init rid rtype region tags vpc_id state None)
     = Some n) ∧
  (∀ rid rtype region itype state vpc_id subnet_id ip groups public_ip,
     EC2Instance.name
       (EC2Instance.init rid rtype region tags itype state vpc_id subnet_id
          ip groups public_ip None)
     = Some n) ∧
  (∀ rid rtype region fname runtime state subnet_ids groups config,
     LambdaFunction.name
       (LambdaFunction.init rid rtype region tags fname runtime state
          subnet_ids groups config None)
     = Some n) ∧
  (∀ rid rtype region zname zid private count assoc,
     Route53HostedZone.name
       (Route53HostedZone.init rid rtype region tags zname zid private
          count assoc None)
     = Some n) ∧
  (∀ rid rtype region aname atype protocol endpoint links,
     APIGateway.name
       (APIGateway.init rid rtype region tags aname atype protocol endpoint
          links None)
     = Some n) ∧
  BaseResource.post_init None ∅ = None ∧
  (∀ self topology rid rtype region cidr state is_default,
     NetworkTopology.vpc topology
     = VPC.init rid rtype region ∅ cidr state is_default None →
     VPC.name (NetworkTopology.vpc topology) = None ∧
     TextDiagramGenerator.generate_subnet_diagram self topology [] !! 0
     = Some ("VPC: " +:+ rid +:+ " (" +:+ cidr +:+ ")" +:+ Py.nl) ∧
     TextDiagramGenerator.generate_vpc_diagram self topology [] !! 0
     = Some ("VPC: " +:+ rid +:+ Py.nl)) ∧
  (∀ self topology rid rtype region vpc_id cidr az state public,
     let subnet :=
       Subnet.init rid rtype region ∅ vpc_id cidr az state public None in
     Subnet.name subnet = None ∧
     TextDiagramGenerator.write_subnet self topology [] subnet !! 0
     = Some (TextDiagramGenerator._indent self 1 +:+
             (if public then "Public" else "Private") +:+ " Subnet: " +:+
             rid +:+ Py.nl)) ∧
  (∀ self rid rtype region itype state vpc_id subnet_id ip groups public_ip,
     let instance :=
       EC2Instance.init rid rtype region ∅ itype state vpc_id subnet_id ip
         groups public_ip None in
     EC2Instance.name instance = None ∧
     TextDiagramGenerator.write_instance self [] instance !! 0
     = Some (TextDiagramGenerator._indent self 3 +:+ rid +:+ Py.nl)).
Proof.
  intros Hname.
  assert (Hpost : BaseResource.post_init None tags = Some n).
  { unfold BaseResource.post_init. simpl. by rewrite Hname. }
  split_and!; try (intros; exact Hpost); try reflexivity.
  - intros self topology rid rtype region cidr state is_default Hvpc.
    split_and!.
    + by rewrite Hvpc.
    + rewrite generate_subnet_diagram_app.
      unfold TextDiagramGenerator.vpc_report_title. by rewrite Hvpc.
    + rewrite generate_vpc_diagram_app.
      unfold vpc_summary_head, TextDiagramGenerator.vpc_title.
      by rewrite Hvpc.
  - intros. split; [reflexivity|].
    rewrite write_subnet_app. reflexivity.
  - intros. split; [reflexivity|].
    unfold TextDiagramGenerator.write_instance, TextIO.write.
    destruct (Py.opt_truthy _); reflexivity.
Qed.

Lemma name_derivation_witness :
  ({[ "Name" := "web-1" ]} : gmap string string) !! "Name" = Some "web-1" ∧
  EC2Instance.name Sample.instance_1 = Some "web-1".
Proof.
  assert (Htag : ({[ "Name" := "web-1" ]} : gmap string string) !! "Name"
                 = Some "web-1") by reflexivity.
  split; [exact Htag|].
  destruct (name_derivation _ _ Htag) as (_ & _ & _ & _ & _ & Hec2 & _).
  apply Hec2.
Defined.

(** ** The PlantUML pass as containers appended to the accumulator *)

Section Accumulator.

Import PlantUMLDiagramGenerator.

Lemma acc_app_assoc (a b c : acc) :
  acc_app (acc_app a b) c = acc_app a (acc_app b c).
Proof. unfold acc_app. simpl. by rewrite <- !app_assoc. Qed.

Lemma acc_app_empty_r (a : acc) : acc_app a acc_empty = a.
Proof. destruct a. unfold acc_app. simpl. by rewrite !app_nil_r. Qed.

Lemma acc_app_empty_l (a : acc) : acc_app acc_empty a = a.
Proof. by destruct a. Qed.

Lemma acc_lines_concat (l : list acc) :
  acc_lines (acc_concat l) = concat (acc_lines <$> l).
Proof. induction l as [|a l IH]; csimpl; [done|]. by rewrite IH. Qed.

Lemma acc_concat_lines_only {A : Type} (h : A → string) (l : list A) :
  acc_concat ((λ x, mk_acc [h x] [] []) <$> l) = mk_acc (h <$> l) [] [].
Proof.
  induction l as [|x l IH]; csimpl; [done|]. rewrite IH. done.
Qed.

Lemma fold_left_acc {A : Type} (f : acc → A → acc) (g : A → acc) :
  (∀ st x, f st x = acc_app st (g x)) →
  ∀ l st, fold_left f l st = acc_app st (acc_concat (g <$> l)).
Proof.
  intros Hf l. induction l as [|x l IH]; intros st; csimpl.
  - by rewrite acc_app_empty_r.
  - by rewrite IH, Hf, acc_app_assoc.
Qed.

Lemma for_each_acc {A : Type} (f : acc → A → Py.result acc) (g : A → acc) :
  (∀ st x, f st x = inr (acc_app st (g x))) →
  ∀ l st, Py.for_each f l st = inr (acc_app st (acc_concat (g <$> l))).
Proof.
  intros Hf l. induction l as [|x l IH]; intros st; csimpl.
  - by rewrite acc_app_empty_r.
  - rewrite Hf. simpl. by rewrite IH, acc_app_assoc.
Qed.

Lemma fold_emit_instance (row : list EC2Instance.t) (st : acc)
    (ids : list string) :
  fold_left emit_instance row (st, ids)
  = (acc_app st
       (mk_acc (instance_node_line <$> row) [] (instance_node_id <$> row)),
     ids ++ (instance_node_id <$> row)).
Proof.
  revert st ids. induction row as [|x row IH]; intros st ids; csimpl.
  - by rewrite acc_app_empty_r, app_nil_r.
  - unfold emit_instance at 2. simpl. rewrite IH.
    unfold acc_app. simpl. by rewrite <- !app_assoc.
Qed.

Lemma emit_alignment_spec (ids : list string) (st : acc) :
  emit_alignment ids st = acc_app st (mk_acc (alignment_lines ids) [] []).
Proof.
  unfold emit_alignment, alignment_lines.
  destruct (decide (1 < length ids)).
  - rewrite (fold_left_acc _ (λ j, mk_acc [alignment_line ids j] [] [])).
    + by rewrite acc_concat_lines_only.
    + intros st' j. unfold append_line, acc_app. simpl.
      by rewrite !app_nil_r.
  - by rewrite acc_app_empty_r.
Qed.

Lemma emit_instance_rows_spec (instances : list EC2Instance.t) (st : acc) :
  emit_instance_rows instances st
  = acc_app st (acc_concat (row_acc <$> instance_rows instances)).
Proof.
  unfold emit_instance_rows, instance_rows.
  destruct instances as [|x instances]; simpl Py.list_truthy; cbv iota.
  - by rewrite acc_app_empty_r.
  - rewrite (fold_left_acc _
               (λ i, row_acc (take 3 (drop i (x :: instances))))).
    + by rewrite <- list_fmap_compose.
    + intros st' i. rewrite fold_emit_instance. simpl fst. simpl snd.
      rewrite emit_alignment_spec, acc_app_assoc. f_equal.
      unfold row_acc, row_lines, acc_app. simpl. by rewrite app_nil_r.
Qed.

Lemma fold_emit_nat_gateway (nats : list NatGateway.t) (st : acc) :
  fold_left emit_nat_gateway nats st
  = acc_app st (mk_acc (nat_node_line <$> nats) (nat_node_id <$> nats) []).
Proof.
  revert st. induction nats as [|x nats IH]; intros st; csimpl.
  - by rewrite acc_app_empty_r.
  - rewrite IH. unfold emit_nat_gateway, acc_app. simpl.
    by rewrite <- !app_assoc, app_nil_r.
Qed.

Lemma append_line_spec (s : string) (st : acc) :
  append_line s st = acc_app st (mk_acc [s] [] []).
Proof. unfold append_line, acc_app. simpl. by rewrite !app_nil_r. Qed.

Lemma emit_public_subnet_spec (topology : NetworkTopology.t)
    (all_nats : list NatGateway.t) (st : acc) (subnet : Subnet.t) :
  NetworkTopology.nat_gateways topology = Some all_nats →
  emit_public_subnet topology st subnet
  = inr (acc_app st
           (subnet_container_acc (public_subnet_open subnet)
              (nat_gateways_of_subnet all_nats subnet)
              (NetworkTopology.get_instances_by_subnet topology
                 (Subnet.resource_id subnet)))).
Proof.
  intros Hnats. unfold emit_public_subnet, subnet_container_acc.
  rewrite Hnats. unfold Py.getattr, Py.ret, Py.bind. f_equal.
  rewrite !append_line_spec, emit_instance_rows_spec,
    fold_emit_nat_gateway, ?append_line_spec.
  by rewrite !acc_app_assoc.
Qed.

Lemma emit_private_subnet_spec (topology : NetworkTopology.t) (st : acc)
    (subnet : Subnet.t) :
  emit_private_subnet topology st subnet
  = acc_app st
      (subnet_container_acc (private_subnet_open subnet) []
         (NetworkTopology.get_instances_by_subnet topology
            (Subnet.resource_id subnet))).
Proof.
  unfold emit_private_subnet, subnet_container_acc.
  rewrite !append_line_spec, emit_instance_rows_spec, ?append_line_spec.
  rewrite !acc_app_assoc. do 2 f_equal.
Qed.

Lemma emit_az_group_spec (topology : NetworkTopology.t)
    (all_nats : list NatGateway.t) (st : acc) (entry : string * az_group) :
  NetworkTopology.nat_gateways topology = Some all_nats →
  emit_az_group topology st entry
  = inr (acc_app st (az_container_acc topology all_nats entry)).
Proof.
  intros Hnats. unfold emit_az_group, az_container_acc.
  rewrite (for_each_acc _ _
             (λ st x, emit_public_subnet_spec topology all_nats st x Hnats)).
  unfold Py.ret, Py.bind. f_equal.
  rewrite (fold_left_acc _ _ (emit_private_subnet_spec topology)).
  rewrite !append_line_spec, !acc_app_assoc. done.
Qed.

Lemma subnet_container_acc_lines (opening : string)
    (nats : list NatGateway.t) (instances : list EC2Instance.t) :
  acc_lines (subnet_container_acc opening nats instances)
  = subnet_container opening nats instances.
Proof.
  unfold subnet_container_acc, subnet_container. simpl.
  rewrite acc_lines_concat, <- list_fmap_compose. done.
Qed.

Lemma az_container_acc_lines (topology : NetworkTopology.t)
    (all_nats : list NatGateway.t) (entry : string * az_group) :
  acc_lines (az_container_acc topology all_nats entry)
  = az_container topology all_nats entry.
Proof.
  unfold az_container_acc, az_container, public_container,
    private_container.
  simpl. rewrite !acc_lines_concat, <- !list_fmap_compose.
  set (insts := λ s : Subnet.t,
         NetworkTopology.get_instances_by_subnet topology
           (Subnet.resource_id s)).
  assert (Hlines : ∀ (opening : Subnet.t → string)
                     (nats_of : Subnet.t → list NatGateway.t)
                     (l : list Subnet.t),
    concat
      (acc_lines
       ∘ (λ s, subnet_container_acc (opening s) (nats_of s) (insts s))
       <$> l)
    = concat
        ((λ s, subnet_container (opening s) (nats_of s) (insts s)) <$> l)).
  { intros opening nats_of l. f_equal. apply list_fmap_ext.
    intros _ s _. apply subnet_container_acc_lines. }
  rewrite (Hlines public_subnet_open (nat_gateways_of_subnet all_nats)).
  rewrite (Hlines private_subnet_open (λ _, [])).
  done.
Qed.

Lemma emit_internet_gateways_spec (igws : list InternetGateway.t)
    (lines : list string) :
  emit_internet_gateways igws lines
  = (lines ++ (igw_node_line <$> igws), igw_node_id <$> igws).
Proof.
  unfold emit_internet_gateways.
  assert (Hgen : ∀ st : list string * list string,
    fold_left
      (λ st igw, (st.1 ++ [igw_node_line igw], st.2 ++ [igw_node_id igw]))
      igws st
    = (st.1 ++ (igw_node_line <$> igws), st.2 ++ (igw_node_id <$> igws))).
  { induction igws as [|x igws IH]; intros st; csimpl.
    - rewrite !app_nil_r. by destruct st.
    - rewrite IH. simpl. by rewrite <- !app_assoc. }
  by rewrite Hgen.
Qed.

Lemma fold_left_pair_snoc {A : Type} (h k : A → string) (l : list A)
    (st : list string * list string) :
  fold_left (λ st x, (st.1 ++ [h x], st.2 ++ [k x])) l st
  = (st.1 ++ (h <$> l), st.2 ++ (k <$> l)).
Proof.
  revert st. induction l as [|x l IH]; intros st; csimpl.
  - rewrite !app_nil_r. by destruct st.
  - rewrite IH. cbn [fst snd]. by rewrite <- !app_assoc.
Qed.

Lemma emit_route53_zones_spec (zones : list Route53HostedZone.t)
    (lines : list string) :
  emit_route53_zones zones lines
  = (lines ++ (zone_node_line <$> zones),
     (λ zone, Py.replace "-" "_" (Route53HostedZone.resource_id zone))
     <$> zones).
Proof.
  unfold emit_route53_zones.
  by rewrite (fold_left_pair_snoc zone_node_line
                (λ zone,
                   Py.replace "-" "_" (Route53HostedZone.resource_id zone))).
Qed.

Lemma emit_api_gateways_spec (apis : list APIGateway.t)
    (lines : list string) :
  emit_api_gateways apis lines
  = (lines ++ (api_node_line <$> apis),
     (λ api, Py.replace "-" "_" (APIGateway.resource_id api)) <$> apis).
Proof.
  unfold emit_api_gateways.
  by rewrite (fold_left_pair_snoc api_node_line
                (λ api, Py.replace "-" "_" (APIGateway.resource_id api))).
Qed.

End Accumulator.

Section VpcLines.

Import PlantUMLDiagramGenerator.

Lemma emit_private_flows_app (topology : NetworkTopology.t)
    (az_groups : az_dict) (nat_gateway_ids : list string)
    (lines : list string) :
  emit_private_flows topology az_groups nat_gateway_ids lines
  = lines ++ emit_private_flows topology az_groups nat_gateway_ids [].
Proof.
  unfold emit_private_flows.
  set (per_instance := λ instance : EC2Instance.t,
         if Py.list_truthy nat_gateway_ids
         then [instance_node_id instance +:+ " .u.> " +:+
               nat_gateway_ids !!! 0]
         else []).
  set (per_subnet := λ subnet : Subnet.t,
         concat
           (per_instance <$>
            NetworkTopology.get_instances_by_subnet topology
              (Subnet.resource_id subnet))).
  set (per_entry := λ entry : string * az_group,
         concat (per_subnet <$> private entry.2)).
  assert (Hentry : ∀ (out : list string) (entry : string * az_group),
    fold_left
      (λ lines subnet,
         fold_left
           (λ lines instance,
              if Py.list_truthy nat_gateway_ids
              then lines ++
                   [instance_node_id instance +:+ " .u.> " +:+
                    nat_gateway_ids !!! 0]
              else lines)
           (NetworkTopology.get_instances_by_subnet topology
              (Subnet.resource_id subnet)) lines)
      (private entry.2) out
    = out ++ per_entry entry).
  { intros out entry. apply (fold_left_write _ per_subnet).
    intros out' subnet. apply (fold_left_write _ per_instance).
    intros out'' instance. unfold per_instance.
    destruct (Py.list_truthy nat_gateway_ids); [done|].
    by rewrite app_nil_r. }
  rewrite !(fold_left_write _ per_entry Hentry). done.
Qed.

Lemma emit_flows_app (topology : NetworkTopology.t) (az_groups : az_dict)
    (igw_ids nat_gateway_ids ec2_ids : list string) (lines : list string) :
  emit_flows topology az_groups igw_ids nat_gateway_ids ec2_ids lines
  = lines ++
    emit_flows topology az_groups igw_ids nat_gateway_ids ec2_ids [].
Proof.
  unfold emit_flows.
  assert (Hfold : ∀ (h : string → string) (l : list string)
                    (out : list string),
    fold_left (λ lines nat_id, lines ++ [h nat_id]) l out
    = out ++ (h <$> l)).
  { intros h l out. apply fold_left_snoc_fmap. }
  rewrite !(Hfold (λ nat_id, nat_id +:+ " .u.> " +:+ igw_ids !!! 0)).
  rewrite !(Hfold
              (λ nat_id, nat_id +:+ " .[hidden]u.> " +:+ igw_ids !!! 0)).
  destruct (Py.list_truthy nat_gateway_ids && Py.list_truthy igw_ids);
    destruct (Py.list_truthy ec2_ids && Py.list_truthy nat_gateway_ids);
    destruct (bool_decide (1 < length nat_gateway_ids)
              && Py.list_truthy igw_ids);
    rewrite ?(emit_private_flows_app _ _ _ (_ ++ _));
    rewrite ?(emit_private_flows_app _ _ _ (_ :: _));
    rewrite ?(emit_private_flows_app _ _ _ lines);
    rewrite ?app_nil_l, ?app_nil_r, <- ?app_assoc; done.
Qed.

(** The lines of one topology that carries the three attributes: the two
    opening lines, one node per internet gateway, one container per
    availability-zone group in the order of the groups, the two closing
    lines, one node per hosted zone, one node per API gateway, a blank
    line, the flow edges, a blank line. *)
Lemma vpc_diagram_lines_shape (topology : NetworkTopology.t)
    (nats : list NatGateway.t) (zones : list Route53HostedZone.t)
    (apis : list APIGateway.t) :
  NetworkTopology.nat_gateways topology = Some nats →
  NetworkTopology.route53_zones topology = Some zones →
  NetworkTopology.api_gateways topology = Some apis →
  ∃ flows,
    _generate_vpc_diagram_lines topology
    = inr (vpc_open topology
           ++ (igw_node_line <$> NetworkTopology.internet_gateways topology)
           ++ concat
                (az_container topology nats
                 <$> build_az_groups (NetworkTopology.subnets topology))
           ++ vpc_close
           ++ (zone_node_line <$> zones)
           ++ (api_node_line <$> apis)
           ++ [""] ++ flows ++ [""]).
Proof.
  intros Hnats Hzones Hapis. unfold _generate_vpc_diagram_lines.
  rewrite emit_internet_gateways_spec.
  rewrite (for_each_acc _ _
             (λ st x, emit_az_group_spec topology nats st x Hnats)).
  rewrite Hzones, Hapis. unfold Py.getattr, Py.bind, Py.ret.
  rewrite emit_route53_zones_spec, emit_api_gateways_spec.
  rewrite emit_flows_app.
  match goal with
  | |- ∃ _, inr ((_ ++ ?flows) ++ _) = _ => exists flows
  end.
  f_equal. cbn [acc_lines acc_app].
  rewrite acc_lines_concat, <- list_fmap_compose.
  rewrite (list_fmap_ext (acc_lines ∘ az_container_acc topology nats)
             (az_container topology nats))
    by (intros; apply az_container_acc_lines).
  rewrite <- !app_assoc. reflexivity.
Qed.

(** A topology without the attribute [route53_zones] makes the pass
    raise: on [nat_gateways] when the attribute is missing and some public
    subnet is reached first, on [route53_zones] otherwise. *)
Lemma vpc_diagram_lines_raise (topology : NetworkTopology.t) :
  NetworkTopology.route53_zones topology = None →
  ∃ attr,
    _generate_vpc_diagram_lines topology
    = inl (Py.AttributeError "NetworkTopology" attr).
Proof.
  intros Hzones. unfold _generate_vpc_diagram_lines.
  destruct (emit_internet_gateways _ _) as [lines igw_ids].
  destruct (Py.for_each (emit_az_group topology) _ _) as [e|st] eqn:Hloop.
  - assert (Hexn : ∀ l st e,
      Py.for_each (emit_az_group topology) l st = inl e →
      e = Py.AttributeError "NetworkTopology" "nat_gateways").
    { clear. intros l. induction l as [|entry l IH]; intros st e Hl.
      - discriminate Hl.
      - simpl in Hl.
        destruct (emit_az_group topology st entry) as [e'|st'] eqn:Hg.
        + simpl in Hl. injection Hl as <-.
          unfold emit_az_group in Hg.
          assert (Hpub : ∀ l st e,
            Py.for_each (emit_public_subnet topology) l st = inl e →
            e = Py.AttributeError "NetworkTopology" "nat_gateways").
          { clear. intros l. induction l as [|s l IH]; intros st e Hl.
            - discriminate Hl.
            - simpl in Hl.
              destruct (emit_public_subnet topology st s) as [e'|st'] eqn:Hs.
              + simpl in Hl. injection Hl as <-.
                unfold emit_public_subnet in Hs.
                destruct (NetworkTopology.nat_gateways topology);
                  simpl in Hs; [discriminate Hs|].
                by injection Hs as <-.
              + simpl in Hl. by eapply IH. }
          destruct (Py.for_each (emit_public_subnet topology) _ _)
            as [e''|st''] eqn:Hp.
          * simpl in Hg. injection Hg as <-. by eapply Hpub.
          * simpl in Hg. discriminate Hg.
        + simpl in Hl. by eapply IH. }
    apply Hexn in Hloop as ->. by eexists.
  - simpl. rewrite Hzones. simpl. by eexists.
Qed.

End VpcLines.

(** ** Determinism of the renderers *)

Lemma generate_vpc_diagram_frame (self : TextDiagramGenerator.t)
    (topology : NetworkTopology.t) (output : TextIO.t) :
  TextDiagramGenerator.generate_vpc_diagram self topology output
  = output ++ TextDiagramGenerator.generate_vpc_diagram self topology [].
Proof.
  rewrite (generate_vpc_diagram_app self topology output).
  by rewrite (generate_vpc_diagram_app self topology []).
Qed.

Lemma generate_subnet_diagram_frame (self : TextDiagramGenerator.t)
    (topology : NetworkTopology.t) (output : TextIO.t) :
  TextDiagramGenerator.generate_subnet_diagram self topology output
  = output ++ TextDiagramGenerator.generate_subnet_diagram self topology [].
Proof.
  rewrite (generate_subnet_diagram_app self topology output).
  by rewrite (generate_subnet_diagram_app self topology []).
Qed.

Lemma generate_account_diagram_app (self : TextDiagramGenerator.t)
    (account : AccountTopology.t) (output : TextIO.t) :
  TextDiagramGenerator.generate_account_diagram self account output
  = output ++
    ["AWS Account - Region: " +:+ AccountTopology.region account +:+ Py.nl;
     "Total VPCs: " +:+
     Py.str_of_nat (length (AccountTopology.vpcs account)) +:+ Py.nl;
     TextDiagramGenerator.account_instances_line account;
     "Total Subnets: " +:+
     Py.str_of_nat (length (AccountTopology.get_all_subnets account))
     +:+ Py.nl;
     Py.nl]
    ++ concat
         ((λ t, TextDiagramGenerator.generate_vpc_diagram self t [])
          <$> AccountTopology.vpcs account).
Proof.
  unfold TextDiagramGenerator.generate_account_diagram, TextIO.write.
  rewrite (fold_left_write _
             (λ t, TextDiagramGenerator.generate_vpc_diagram self t [])
             (λ out t, generate_vpc_diagram_frame self t out)).
  by rewrite <- !app_assoc.
Qed.

Lemma generate_account_diagram_frame (self : TextDiagramGenerator.t)
    (account : AccountTopology.t) (output : TextIO.t) :
  TextDiagramGenerator.generate_account_diagram self account output
  = output ++ TextDiagramGenerator.generate_account_diagram self account [].
Proof.
  rewrite (generate_account_diagram_app self account output).
  by rewrite (generate_account_diagram_app self account []).
Qed.

Lemma generate_full_diagram_app (self : TextDiagramGenerator.t)
    (account : AccountTopology.t) (output : TextIO.t) :
  TextDiagramGenerator.generate_full_diagram self account output
  = output ++
    [Py.mul "=" 60 +:+ Py.nl;
     "AWS CLOUD INFRASTRUCTURE MAP" +:+ Py.nl;
     Py.mul "=" 60 +:+ Py.nl +:+ Py.nl]
    ++ TextDiagramGenerator.generate_account_diagram self account []
    ++ ["DETAILED VPC BREAKDOWN:" +:+ Py.nl;
        Py.mul "-" 30 +:+ Py.nl +:+ Py.nl]
    ++ concat
         ((λ t, TextDiagramGenerator.generate_subnet_diagram self t []
                ++ [Py.mul "-" 30 +:+ Py.nl])
          <$> AccountTopology.vpcs account).
Proof.
  unfold TextDiagramGenerator.generate_full_diagram, TextIO.write.
  rewrite (fold_left_write _
             (λ t, TextDiagramGenerator.generate_subnet_diagram self t []
                   ++ [Py.mul "-" 30 +:+ Py.nl])).
  - rewrite (generate_account_diagram_frame self account (_ ++ _)).
    by rewrite <- !app_assoc.
  - intros out t. rewrite generate_subnet_diagram_frame.
    by rewrite <- app_assoc.
Qed.

Lemma generate_full_diagram_frame (self : TextDiagramGenerator.t)
    (account : AccountTopology.t) (output : TextIO.t) :
  TextDiagramGenerator.generate_full_diagram self account output
  = output ++ TextDiagramGenerator.generate_full_diagram self account [].
Proof.
  rewrite (generate_full_diagram_app self account output).
  by rewrite (generate_full_diagram_app self account []).
Qed.

(** C9. Each rendering method of the text generator appends to the sink a
    text that depends on the generator and on the topology only, not on
    what the sink holds, and the generator is not changed by the call: a
    second call on the same topology appends the same chunks again. The
    PlantUML generator computes its content, or the exception it raises,
    from the topology alone, and its effect on the sink and its save
    request are the same at each call. *)
Theorem rendering_is_deterministic (self : TextDiagramGenerator.t)
    (puml : PlantUMLDiagramGenerator.t) (account : AccountTopology.t) :
  (∃ text,
     (∀ output,
        TextDiagramGenerator.generate_full_diagram self account output
        = output ++ text) ∧
     (∀ output,
        TextDiagramGenerator.generate_full_diagram self account
          (TextDiagramGenerator.generate_full_diagram self account output)
        = output ++ text ++ text)) ∧
  (∃ text,
     ∀ output,
       TextDiagramGenerator.generate_account_diagram self account output
       = output ++ text) ∧
  (∀ topology,
     (∃ text,
        ∀ output,
          TextDiagramGenerator.generate_vpc_diagram self topology output
          = output ++ text) ∧
     (∃ text,
        ∀ output,
          TextDiagramGenerator.generate_subnet_diagram self topology output
          = output ++ text)) ∧
  ((∃ e, ∀ output,
      PlantUMLDiagramGenerator.generate_full_diagram puml account output
      = inl e) ∨
   (∃ content request,
      PlantUMLDiagramGenerator._generate_plantuml_content account
      = inr content ∧
      ∀ output,
        PlantUMLDiagramGenerator.generate_full_diagram puml account output
        = inr (output ++ [content], request))).
Proof.
  split_and!.
  - exists (TextDiagramGenerator.generate_full_diagram self account []).
    split.
    + apply generate_full_diagram_frame.
    + intros output.
      rewrite (generate_full_diagram_frame self account (_ _ _ output)).
      rewrite (generate_full_diagram_frame self account output).
      by rewrite <- app_assoc.
  - eexists. apply generate_account_diagram_frame.
  - intros topology. split; eexists.
    + apply generate_vpc_diagram_frame.
    + apply generate_subnet_diagram_frame.
  - unfold PlantUMLDiagramGenerator.generate_full_diagram.
    destruct (PlantUMLDiagramGenerator._generate_plantuml_content account)
      as [e|content].
    + left. by exists e.
    + right. unfold TextIO.write, Py.bind, Py.ret.
      destruct (PlantUMLDiagramGenerator.output_manager puml),
        (PlantUMLDiagramGenerator.session_dir puml); eauto.
Qed.

(** ** The document of the empty account *)

(** The empty account is rendered. *)
Example plantuml_renders_empty_account :
  ∃ content,
    PlantUMLDiagramGenerator.generate_full_diagram
      (PlantUMLDiagramGenerator.mk None None)
      (ResourceOrganizer.create_account_topology "us-east-1" []) []
    = inr ([content], None).
Proof. eexists. vm_compute. reflexivity. Qed.

(** ** The routing-table note *)

Section Note.

Import PlantUMLDiagramGenerator.

Lemma note_rows_concat (account : AccountTopology.t) :
  note_rows account
  = concat (topology_note_rows <$> AccountTopology.vpcs account).
Proof.
  unfold note_rows.
  rewrite (fold_left_appends _ topology_note_rows); [done|].
  intros rows t. unfold topology_note_rows.
  apply (fold_left_appends _
           (λ rt, make_note_row rt <$> take 3 (RouteTable.routes rt))).
  intros rows' rt. apply fold_left_snoc_fmap.
Qed.

Lemma slice_to_length (n : nat) (s : string) :
  String.length (Py.slice_to n s) ≤ n.
Proof.
  revert s. induction n as [|n IH]; intros [|c s]; simpl; try lia.
  specialize (IH s). lia.
Qed.

Lemma make_note_row_within_widths (rt : RouteTable.t)
    (route : gmap string string) :
  row_within_widths (make_note_row rt route).
Proof.
  unfold row_within_widths, make_note_row.
  cbn [rt_name dest gateway status]. split_and!; apply slice_to_length.
Qed.

Lemma concat_length_bound {A B : Type} (g : A → list B) (k : nat)
    (l : list A) :
  (∀ x, x ∈ l → length (g x) ≤ k) →
  length (concat (g <$> l)) ≤ k * length l.
Proof.
  induction l as [|x l IH]; intros Hg; csimpl; [lia|].
  rewrite length_app.
  assert (length (g x) ≤ k) by (apply Hg; left).
  assert (length (concat (g <$> l)) ≤ k * length l).
  { apply IH. intros y Hy. apply Hg. by right. }
  lia.
Qed.

Lemma concat_length_exact {A B : Type} (g : A → list B) (k : nat)
    (l : list A) :
  (∀ x, x ∈ l → length (g x) = k) →
  length (concat (g <$> l)) = k * length l.
Proof.
  induction l as [|x l IH]; intros Hg; csimpl; [lia|].
  rewrite length_app.
  assert (length (g x) = k) by (apply Hg; left).
  assert (length (concat (g <$> l)) = k * length l).
  { apply IH. intros y Hy. apply Hg. by right. }
  lia.
Qed.

Lemma topology_note_rows_bound (t : NetworkTopology.t) :
  length (topology_note_rows t) ≤ 15.
Proof.
  unfold topology_note_rows.
  etransitivity.
  - apply (concat_length_bound _ 3). intros rt _.
    rewrite length_fmap, length_take. lia.
  - rewrite length_take. lia.
Qed.

Lemma topology_note_rows_full (t : NetworkTopology.t) :
  5 ≤ length (NetworkTopology.route_tables t) →
  Forall (λ rt, 3 ≤ length (RouteTable.routes rt))
    (NetworkTopology.route_tables t) →
  length (topology_note_rows t) = 15.
Proof.
  intros Hlen Hroutes. unfold topology_note_rows.
  rewrite (concat_length_exact _ 3).
  - rewrite length_take. lia.
  - intros rt Hrt. rewrite length_fmap, length_take.
    apply (subseteq_take 5) in Hrt.
    rewrite Forall_forall in Hroutes. specialize (Hroutes rt Hrt). lia.
Qed.

Lemma document_lines_note (account : AccountTopology.t)
    (lines : list string) :
  document_lines account = inr lines →
  ∃ body,
    lines
    = preamble (AccountTopology.region account) ++ body
      ++ routing_table_note account ++ ["@enduml"].
Proof.
  unfold document_lines.
  assert (Hloop : ∀ l init out,
    Py.for_each
      (λ lines network_topology,
         do vpc_lines <- _generate_vpc_diagram_lines network_topology;
         Py.ret (lines ++ vpc_lines)) l init = inr out →
    ∃ body, out = init ++ body).
  { induction l as [|t l IH]; intros init out Hout.
    - injection Hout as <-. exists []. by rewrite app_nil_r.
    - cbn [Py.for_each] in Hout.
      destruct (_generate_vpc_diagram_lines t) as [e|vpc_lines];
        [discriminate Hout|].
      apply IH in Hout as [body ->]. exists (vpc_lines ++ body).
      by rewrite <- app_assoc. }
  destruct (Py.for_each _ _ _) as [e|out] eqn:Hout; [discriminate|].
  intros Heq. injection Heq as <-.
  apply Hloop in Hout as [body ->]. exists body.
  by rewrite <- !app_assoc.
Qed.

End Note.

(** The claim C3 fails on an account whose seven route tables, of five
    routes each, are in two topologies, four in one and three in the
    other: the document is produced, its note is the last block before
    the closing marker, and the note has 21 data rows, not 15. *)
Lemma note_limit_is_per_topology :
  length
    (concat
       (NetworkTopology.route_tables
        <$> AccountTopology.vpcs Sample.account_4_and_3)) = 7 ∧
  Forall (λ rt, length (RouteTable.routes rt) = 5)
    (concat
       (NetworkTopology.route_tables
        <$> AccountTopology.vpcs Sample.account_4_and_3)) ∧
  (∃ lines body,
     PlantUMLDiagramGenerator.document_lines Sample.account_4_and_3
     = inr lines ∧
     lines
     = PlantUMLDiagramGenerator.preamble "us-east-1" ++ body
       ++ PlantUMLDiagramGenerator.routing_table_note Sample.account_4_and_3
       ++ ["@enduml"]) ∧
  length (PlantUMLDiagramGenerator.note_rows Sample.account_4_and_3) = 21 ∧
  length (PlantUMLDiagramGenerator.note_rows Sample.account_4_and_3) ≠ 15.
Proof.
  split_and!.
  - reflexivity.
  - repeat (constructor; [reflexivity|]). constructor.
  - assert (Hok : ∃ lines,
      PlantUMLDiagramGenerator.document_lines Sample.account_4_and_3
      = inr lines).
    { eexists. vm_compute. reflexivity. }
    destruct Hok as [lines Hlines].
    destruct (document_lines_note _ _ Hlines) as [body Hbody].
    by exists lines, body.
  - vm_compute. reflexivity.
  - vm_compute. lia.
Qed.

(** C3, amended. The data rows of the note are, topology by topology in
    account order, the first 3 routes of each of the first 5 route tables
    of that topology: the limit of 5 route tables holds for each topology,
    not for the account. So a topology contributes at most 15 rows, and
    exactly 15 when it has at least 5 route tables with at least 3 routes
    each (as with 7 route tables of 5 routes in one topology). In every
    row the route-table name has at most 20 characters, the destination
    and the target at most 18, the status at most 10. When some topology
    has a route table, the note is its four heading lines, one line per
    data row and its closing line, and otherwise it is empty; in a
    document that is produced the note comes last before the closing
    marker. *)
Theorem route_table_note_limits (account : AccountTopology.t) :
  PlantUMLDiagramGenerator.note_rows account
  = concat (topology_note_rows <$> AccountTopology.vpcs account) ∧
  (∀ t,
     length (topology_note_rows t) ≤ 15 ∧
     (5 ≤ length (NetworkTopology.route_tables t) →
      Forall (λ rt, 3 ≤ length (RouteTable.routes rt))
        (NetworkTopology.route_tables t) →
      length (topology_note_rows t) = 15)) ∧
  Forall row_within_widths (PlantUMLDiagramGenerator.note_rows account) ∧
  ((∃ t, t ∈ AccountTopology.vpcs account ∧
         NetworkTopology.route_tables t ≠ []) →
   PlantUMLDiagramGenerator.routing_table_note account
   = [""; "note bottom"; "<size:12><b>Routing Tables</b></size>";
      "<#lightblue,#black>|= Route Table |= Destination |= Target |= Status |"]
     ++ (PlantUMLDiagramGenerator.format_note_row
         <$> PlantUMLDiagramGenerator.note_rows account)
     ++ ["end note"]) ∧
  ((∀ t, t ∈ AccountTopology.vpcs account →
         NetworkTopology.route_tables t = []) →
   PlantUMLDiagramGenerator.routing_table_note account = []) ∧
  (∀ lines,
     PlantUMLDiagramGenerator.document_lines account = inr lines →
     ∃ body,
       lines
       = PlantUMLDiagramGenerator.preamble (AccountTopology.region account)
         ++ body
         ++ PlantUMLDiagramGenerator.routing_table_note account
         ++ ["@enduml"]).
Proof.
  split_and!.
  - apply note_rows_concat.
  - intros t. split.
    + apply topology_note_rows_bound.
    + apply topology_note_rows_full.
  - rewrite note_rows_concat. apply Forall_forall. intros r Hr.
    apply elem_of_concat in Hr as (rows & Hr & Hrows).
    apply list_elem_of_fmap in Hrows as (t & -> & _).
    unfold topology_note_rows in Hr.
    apply elem_of_concat in Hr as (rows & Hr & Hrows).
    apply list_elem_of_fmap in Hrows as (rt & -> & _).
    apply list_elem_of_fmap in Hr as (route & -> & _).
    apply make_note_row_within_widths.
  - intros (t & Ht & Hrts).
    unfold PlantUMLDiagramGenerator.routing_table_note.
    assert (Hany :
      existsb (λ vpc, Py.list_truthy (NetworkTopology.route_tables vpc))
        (AccountTopology.vpcs account) = true).
    { apply existsb_exists. exists t. split.
      - by apply list_elem_of_In.
      - destruct (NetworkTopology.route_tables t); [done|reflexivity]. }
    by rewrite Hany.
  - intros Hnone.
    unfold PlantUMLDiagramGenerator.routing_table_note.
    assert (Hany :
      existsb (λ vpc, Py.list_truthy (NetworkTopology.route_tables vpc))
        (AccountTopology.vpcs account) = false).
    { apply not_true_is_false. intros Hex.
      apply existsb_exists in Hex as (t & Ht & Htruthy).
      apply list_elem_of_In in Ht. rewrite (Hnone t Ht) in Htruthy.
      discriminate Htruthy. }
    by rewrite Hany.
  - apply document_lines_note.
Qed.

Lemma route_table_note_limits_witness :
  5 ≤ length (NetworkTopology.route_tables Sample.topology_7_tables) ∧
  Forall (λ rt, 3 ≤ length (RouteTable.routes rt))
    (NetworkTopology.route_tables Sample.topology_7_tables) ∧
  length (PlantUMLDiagramGenerator.note_rows Sample.account_7_in_one) = 15.
Proof.
  assert (Hfive :
    5 ≤ length (NetworkTopology.route_tables Sample.topology_7_tables)).
  { vm_compute. lia. }
  assert (Hthree :
    Forall (λ rt, 3 ≤ length (RouteTable.routes rt))
      (NetworkTopology.route_tables Sample.topology_7_tables)).
  { repeat (constructor; [vm_compute; lia|]). constructor. }
  split_and!; [exact Hfive|exact Hthree|].
  destruct (route_table_note_limits Sample.account_7_in_one)
    as (Hrows & Hper & _).
  rewrite Hrows.
  destruct (Hper Sample.topology_7_tables) as [_ Hfull].
  change (AccountTopology.vpcs Sample.account_7_in_one)
    with [Sample.topology_7_tables].
  cbn [fmap list_fmap concat]. rewrite app_nil_r.
  exact (Hfull Hfive Hthree).
Defined.

(** ** Grouping by availability zone *)

Section AzGroups.

Import PlantUMLDiagramGenerator.

Lemma first_seen_elem (x : string) (l : list string) :
  x ∈ first_seen l ↔ x ∈ l.
Proof.
  induction l as [|a l IH]; simpl; [done|].
  rewrite !elem_of_cons, list_elem_of_filter, IH.
  destruct (decide (x = a)); naive_solver.
Qed.

Lemma first_seen_NoDup (l : list string) : NoDup (first_seen l).
Proof.
  induction l as [|a l IH]; simpl; [constructor|].
  constructor.
  - rewrite list_elem_of_filter. naive_solver.
  - by apply NoDup_filter.
Qed.

Lemma first_seen_snoc (l : list string) (x : string) :
  first_seen (l ++ [x])
  = if decide (x ∈ l) then first_seen l else first_seen l ++ [x].
Proof.
  induction l as [|y l IH]; simpl.
  - try done; rewrite decide_False by apply not_elem_of_nil; done.
  - rewrite IH. destruct (decide (x ∈ l)) as [Hin|Hnotin].
    + rewrite decide_True by (by right). done.
    + rewrite filter_app, filter_cons, filter_nil.
      destruct (decide (x = y)) as [->|Hne].
      * rewrite decide_False by naive_solver.
        rewrite decide_True by left. by rewrite app_nil_r.
      * rewrite decide_True by done.
        rewrite decide_False; [done|].
        rewrite elem_of_cons. naive_solver.
Qed.

Lemma group_of_snoc (a : string) (l : list Subnet.t) (s : Subnet.t) :
  group_of a (l ++ [s])
  = if decide (Subnet.availability_zone s = a) then
      if Subnet.map_public_ip_on_launch s
      then mk_group (public (group_of a l) ++ [s]) (private (group_of a l))
      else mk_group (public (group_of a l)) (private (group_of a l) ++ [s])
    else group_of a l.
Proof.
  unfold group_of. rewrite !filter_app, !filter_cons, !filter_nil.
  cbn [public private].
  destruct (decide (Subnet.availability_zone s = a)) as [Haz|Haz];
    destruct (Subnet.map_public_ip_on_launch s) eqn:Hpub.
  - rewrite decide_True by done.
    rewrite decide_False by naive_solver. by rewrite app_nil_r.
  - rewrite decide_False by naive_solver.
    rewrite decide_True by naive_solver. by rewrite app_nil_r.
  - rewrite !decide_False by naive_solver. by rewrite !app_nil_r.
  - rewrite !decide_False by naive_solver. by rewrite !app_nil_r.
Qed.

Lemma group_of_absent (a : string) (l : list Subnet.t) :
  a ∉ Subnet.availability_zone <$> l → group_of a l = mk_group [] [].
Proof.
  intros Ha. unfold group_of. f_equal.
  - apply filter_none. intros s Hs [Haz _].
    apply Ha. apply list_elem_of_fmap. by exists s.
  - apply filter_none. intros s Hs [Haz _].
    apply Ha. apply list_elem_of_fmap. by exists s.
Qed.

(** The dictionary of the groups, in closed form: one entry per zone, in
    the order in which the zones are first seen, holding the public and
    the private subnets of that zone in the order of the list. *)
Lemma build_az_groups_closed_form (subnets : list Subnet.t) :
  build_az_groups subnets
  = (λ az, (az, group_of az subnets))
    <$> first_seen (Subnet.availability_zone <$> subnets).
Proof.
  induction subnets as [|s l IH] using rev_ind; [done|].
  unfold build_az_groups in *. rewrite fold_left_app. cbn [fold_left].
  rewrite IH. clear IH.
  set (a0 := Subnet.availability_zone s).
  set (K := first_seen (Subnet.availability_zone <$> l)).
  rewrite fmap_app. cbn [fmap list_fmap]. fold a0.
  rewrite first_seen_snoc. fold K.
  unfold az_groups_step. fold a0.
  rewrite <- list_fmap_compose.
  assert (Hkeys : (fst ∘ (λ az, (az, group_of az l))) <$> K = K).
  { rewrite <- (list_fmap_id K) at 2. by apply list_fmap_ext. }
  rewrite Hkeys.
  assert (Hstep : ∀ K0 : list string,
    (if Subnet.map_public_ip_on_launch s
     then
       az_dict_update
         (λ g, mk_group (public g ++ [s]) (private g)) a0
         ((λ az, (az, group_of az l)) <$> K0)
     else
       az_dict_update
         (λ g, mk_group (public g) (private g ++ [s])) a0
         ((λ az, (az, group_of az l)) <$> K0))
    = (λ az, (az, group_of az (l ++ [s]))) <$> K0).
  { intros K0.
    destruct (Subnet.map_public_ip_on_launch s) eqn:Hpub;
      unfold az_dict_update; rewrite <- list_fmap_compose;
      apply list_fmap_ext; intros _ a _; cbn [compose fst snd];
      rewrite group_of_snoc; fold a0; rewrite Hpub;
      destruct (decide (a = a0)) as [->|Hne].
    - by rewrite decide_True.
    - by rewrite decide_False.
    - by rewrite decide_True.
    - by rewrite decide_False. }
  destruct (decide (a0 ∈ K)) as [Hin|Hnotin].
  - rewrite decide_True by (by apply first_seen_elem). apply Hstep.
  - assert (a0 ∉ Subnet.availability_zone <$> l) as Hnot.
    { intros Hin. apply Hnotin. by apply first_seen_elem. }
    rewrite decide_False by done.
    rewrite <- (group_of_absent a0 l Hnot).
    change (((λ az, (az, group_of az l)) <$> K) ++ [(a0, group_of a0 l)])
      with (((λ az, (az, group_of az l)) <$> K)
            ++ ((λ az, (az, group_of az l)) <$> [a0])).
    rewrite <- fmap_app. apply Hstep.
Qed.

End AzGroups.

(** The lines of a topology that carries the three attributes, with the
    groups in closed form. *)
Lemma az_grouping_lines (topology : NetworkTopology.t)
    (nats : list NatGateway.t) (zones : list Route53HostedZone.t)
    (apis : list APIGateway.t) :
  NetworkTopology.nat_gateways topology = Some nats →
  NetworkTopology.route53_zones topology = Some zones →
  NetworkTopology.api_gateways topology = Some apis →
  ∃ flows,
    PlantUMLDiagramGenerator._generate_vpc_diagram_lines topology
    = inr (PlantUMLDiagramGenerator.vpc_open topology
           ++ (PlantUMLDiagramGenerator.igw_node_line
               <$> NetworkTopology.internet_gateways topology)
           ++ concat
                ((λ az,
                    az_container topology nats
                      (az, group_of az (NetworkTopology.subnets topology)))
                 <$> first_seen
                       (Subnet.availability_zone
                        <$> NetworkTopology.subnets topology))
           ++ PlantUMLDiagramGenerator.vpc_close
           ++ (PlantUMLDiagramGenerator.zone_node_line <$> zones)
           ++ (PlantUMLDiagramGenerator.api_node_line <$> apis)
           ++ [""] ++ flows ++ [""]).
Proof.
  intros Hnats Hzones Hapis.
  destruct (vpc_diagram_lines_shape topology nats zones apis
              Hnats Hzones Hapis) as [flows Hlines].
  exists flows. rewrite Hlines.
  rewrite build_az_groups_closed_form, <- list_fmap_compose. done.
Qed.

(** ** Availability-zone containers *)

(** C6. For a topology that carries the three attributes the generator
    reads, the lines of the topology are: the opening of the cloud and
    VPC groups, the internet gateways, then exactly one container per
    availability zone, in the order in which the zones are first seen in
    the subnet list, then the closing of the groups and the lines outside
    them. The container of a zone holds one container per public subnet
    of that zone, then one per private subnet of that zone, each kind in
    the order of the subnet list. No zone has two containers, and every
    subnet is in the container of its own zone and of no other, wherever
    it stands in the list. *)
Theorem az_grouping (topology : NetworkTopology.t)
    (nats : list NatGateway.t) (zones : list Route53HostedZone.t)
    (apis : list APIGateway.t) :
  NetworkTopology.nat_gateways topology = Some nats →
  NetworkTopology.route53_zones topology = Some zones →
  NetworkTopology.api_gateways topology = Some apis →
  let subnets := NetworkTopology.subnets topology in
  let zones_seen := first_seen (Subnet.availability_zone <$> subnets) in
  (∃ flows,
     PlantUMLDiagramGenerator._generate_vpc_diagram_lines topology
     = inr (PlantUMLDiagramGenerator.vpc_open topology
            ++ (PlantUMLDiagramGenerator.igw_node_line
                <$> NetworkTopology.internet_gateways topology)
            ++ concat
                 ((λ az, az_container topology nats (az, group_of az subnets))
                  <$> zones_seen)
            ++ PlantUMLDiagramGenerator.vpc_close
            ++ (PlantUMLDiagramGenerator.zone_node_line <$> zones)
            ++ (PlantUMLDiagramGenerator.api_node_line <$> apis)
            ++ [""] ++ flows ++ [""])) ∧
  NoDup zones_seen ∧
  (∀ az, az ∈ zones_seen ↔ ∃ s, s ∈ subnets ∧ Subnet.availability_zone s = az) ∧
  (∀ az s,
     s ∈ PlantUMLDiagramGenerator.public (group_of az subnets) ↔
     s ∈ subnets ∧ Subnet.availability_zone s = az ∧
     Subnet.map_public_ip_on_launch s = true) ∧
  (∀ az s,
     s ∈ PlantUMLDiagramGenerator.private (group_of az subnets) ↔
     s ∈ subnets ∧ Subnet.availability_zone s = az ∧
     Subnet.map_public_ip_on_launch s = false) ∧
  (∀ az,
     PlantUMLDiagramGenerator.public (group_of az subnets)
     `sublist_of` subnets ∧
     PlantUMLDiagramGenerator.private (group_of az subnets)
     `sublist_of` subnets).
Proof.
  intros Hnats Hzones Hapis subnets zones_seen. split_and!.
  - by apply az_grouping_lines.
  - apply first_seen_NoDup.
  - intros az. unfold zones_seen.
    rewrite first_seen_elem, list_elem_of_fmap. naive_solver.
  - intros az s. unfold group_of. cbn [PlantUMLDiagramGenerator.public].
    rewrite list_elem_of_filter. naive_solver.
  - intros az s. unfold group_of. cbn [PlantUMLDiagramGenerator.private].
    rewrite list_elem_of_filter.
    destruct (Subnet.map_public_ip_on_launch s); naive_solver.
  - intros az. split; apply sublist_filter.
Qed.

Lemma az_grouping_witness :
  NetworkTopology.nat_gateways Sample.topology_1_drawn = Some [] ∧
  NetworkTopology.route53_zones Sample.topology_1_drawn = Some [] ∧
  NetworkTopology.api_gateways Sample.topology_1_drawn = Some [] ∧
  first_seen
    (Subnet.availability_zone
     <$> NetworkTopology.subnets Sample.topology_1_drawn)
  = ["us-east-1a"; "us-east-1b"] ∧
  (Sample.subnet_3
   ∈ PlantUMLDiagramGenerator.private
       (group_of "us-east-1a"
          (NetworkTopology.subnets Sample.topology_1_drawn)) ↔
   Sample.subnet_3 ∈ NetworkTopology.subnets Sample.topology_1_drawn ∧
   Subnet.availability_zone Sample.subnet_3 = "us-east-1a" ∧
   Subnet.map_public_ip_on_launch Sample.subnet_3 = false).
Proof.
  split_and!; try reflexivity.
  destruct (az_grouping Sample.topology_1_drawn [] [] []
              eq_refl eq_refl eq_refl) as (_ & _ & _ & _ & Hprivate & _).
  apply Hprivate.
Defined.

(** ** An instance whose subnet is not in its topology *)

Lemma get_all_instances_concat (account : AccountTopology.t) :
  AccountTopology.get_all_instances account
  = concat (NetworkTopology.ec2_instances <$> AccountTopology.vpcs account).
Proof.
  unfold AccountTopology.get_all_instances.
  by rewrite (fold_left_app_concat NetworkTopology.ec2_instances).
Qed.

Lemma stray_not_by_subnet (t : NetworkTopology.t) (inst : EC2Instance.t)
    (s : Subnet.t) :
  Subnet.resource_id s ≠ EC2Instance.subnet_id inst →
  inst ∉ NetworkTopology.get_instances_by_subnet t (Subnet.resource_id s).
Proof.
  intros Hne Hin. unfold NetworkTopology.get_instances_by_subnet in Hin.
  apply list_elem_of_filter in Hin as [Heq _]. by apply Hne.
Qed.

(** C10. The organizer places an instance in the topology of the VPC its
    [vpc_id] names, whatever its [subnet_id]. For a topology and an
    instance of its [ec2_instances] whose [subnet_id] is the
    [resource_id] of none of its subnets: the VPC-level summary ends with
    the line [Total EC2 Instances: n], where [n] is the length of
    [ec2_instances], the instance included; the instance is among the
    instances of every account holding the topology, and the third line
    of the account-level summary is [Total Instances: m], where [m] is
    the number of these instances; the subnet-level report lists under each subnet the instances of
    [get_instances_by_subnet], and the instance is among them for no
    subnet; when the diagram document is produced, each subnet container
    draws the instances of [get_instances_by_subnet] for its subnet, so
    the instance is drawn in none. *)
Theorem stray_instance_counted_not_listed :
  (∀ vpcs subnets route_tables internet_gateways ec2_instances
     lambda_functions i v inst,
     vpcs !! i = Some v →
     inst ∈ ec2_instances →
     EC2Instance.vpc_id inst = VPC.resource_id v →
     ∃ t,
       ResourceOrganizer.organize_network_topology vpcs subnets route_tables
         internet_gateways ec2_instances lambda_functions !! i = Some t ∧
       NetworkTopology.vpc t = v ∧
       inst ∈ NetworkTopology.ec2_instances t) ∧
  (∀ t inst,
     inst ∈ NetworkTopology.ec2_instances t →
     (∀ s, s ∈ NetworkTopology.subnets t →
           Subnet.resource_id s ≠ EC2Instance.subnet_id inst) →
     (∀ self output,
        TextDiagramGenerator.generate_vpc_diagram self t output
        = output ++ vpc_summary_head self t
          ++ [TextDiagramGenerator._indent self 1 +:+
              "Total EC2 Instances: " +:+
              Py.str_of_nat (length (NetworkTopology.ec2_instances t))
              +:+ Py.nl;
              Py.nl]) ∧
     (∀ account,
        t ∈ AccountTopology.vpcs account →
        inst ∈ AccountTopology.get_all_instances account ∧
        ∀ self output,
          TextDiagramGenerator.generate_account_diagram self account output
          !! (length output + 2)
          = Some ("Total Instances: " +:+
                  Py.str_of_nat
                    (length (AccountTopology.get_all_instances account))
                  +:+ Py.nl)) ∧
     (∀ self output,
        TextDiagramGenerator.generate_subnet_diagram self t output
        = output ++
          TextDiagramGenerator.vpc_report_title t
          :: concat
               ((λ subnet,
                   subnet_section self subnet
                     (NetworkTopology.get_instances_by_subnet t
                        (Subnet.resource_id subnet)))
                <$> NetworkTopology.subnets t)) ∧
     (∀ s, s ∈ NetworkTopology.subnets t →
           inst ∉ NetworkTopology.get_instances_by_subnet t
                    (Subnet.resource_id s)) ∧
     (∀ nats zones apis,
        NetworkTopology.nat_gateways t = Some nats →
        NetworkTopology.route53_zones t = Some zones →
        NetworkTopology.api_gateways t = Some apis →
        ∃ flows,
          PlantUMLDiagramGenerator._generate_vpc_diagram_lines t
          = inr (PlantUMLDiagramGenerator.vpc_open t
                 ++ (PlantUMLDiagramGenerator.igw_node_line
                     <$> NetworkTopology.internet_gateways t)
                 ++ concat
                      ((λ az,
                          az_container t nats
                            (az, group_of az (NetworkTopology.subnets t)))
                       <$> first_seen
                             (Subnet.availability_zone
                              <$> NetworkTopology.subnets t))
                 ++ PlantUMLDiagramGenerator.vpc_close
                 ++ (PlantUMLDiagramGenerator.zone_node_line <$> zones)
                 ++ (PlantUMLDiagramGenerator.api_node_line <$> apis)
                 ++ [""] ++ flows ++ [""])) ∧
     (∀ az s,
        s ∈ PlantUMLDiagramGenerator.public
              (group_of az (NetworkTopology.subnets t)) ∨
        s ∈ PlantUMLDiagramGenerator.private
              (group_of az (NetworkTopology.subnets t)) →
        inst ∉ NetworkTopology.get_instances_by_subnet t
                 (Subnet.resource_id s))).
Proof.
  split.
  - intros vpcs subnets route_tables internet_gateways ec2_instances
      lambda_functions i v inst Hi Hinst Hvpc.
    eexists. split; [apply organized_lookup; eauto|]. split; [done|].
    cbn [ResourceOrganizer.organize_vpc NetworkTopology.init
         NetworkTopology.ec2_instances].
    by apply list_elem_of_filter.
  - intros t inst Hinst Hstray. split_and!.
    + intros self output. rewrite generate_vpc_diagram_app.
      destruct (NetworkTopology.ec2_instances t) as [|x l] eqn:Hl.
      * by apply not_elem_of_nil in Hinst.
      * done.
    + intros account Ht. split.
      * rewrite get_all_instances_concat. apply elem_of_concat.
        exists (NetworkTopology.ec2_instances t). split; [done|].
        apply list_elem_of_fmap. by exists t.
      * intros self output. rewrite generate_account_diagram_app.
        unfold TextIO.t. rewrite lookup_app_r by lia.
        by replace (length output + 2 - length output) with 2 by lia.
    + intros self output. apply generate_subnet_diagram_app.
    + intros s Hs. apply stray_not_by_subnet. by apply Hstray.
    + intros nats zones apis Hnats Hzones Hapis.
      destruct (az_grouping_lines t nats zones apis Hnats Hzones Hapis)
        as [flows Hlines].
      by exists flows.
    + intros az s Hs. apply stray_not_by_subnet. apply Hstray.
      unfold group_of in Hs.
      cbn [PlantUMLDiagramGenerator.public
           PlantUMLDiagramGenerator.private] in Hs.
      destruct Hs as [Hs|Hs]; apply list_elem_of_filter in Hs; tauto.
Qed.

Lemma stray_instance_counted_not_listed_witness :
  Sample.instance_stray ∈ NetworkTopology.ec2_instances Sample.topology_stray ∧
  (∀ s, s ∈ NetworkTopology.subnets Sample.topology_stray →
        Subnet.resource_id s
        ≠ EC2Instance.subnet_id Sample.instance_stray) ∧
  (∀ output,
     TextDiagramGenerator.generate_vpc_diagram
       (TextDiagramGenerator.init None) Sample.topology_stray output
     = output
       ++ vpc_summary_head (TextDiagramGenerator.init None)
            Sample.topology_stray
       ++ ["  Total EC2 Instances: 2" +:+ Py.nl; Py.nl]) ∧
  TextDiagramGenerator.generate_account_diagram
    (TextDiagramGenerator.init None)
    (AccountTopology.mk "us-east-1" [Sample.topology_stray]) [] !! 2
  = Some ("Total Instances: 2" +:+ Py.nl) ∧
  Sample.instance_stray
  ∉ NetworkTopology.get_instances_by_subnet Sample.topology_stray
      (Subnet.resource_id Sample.subnet_1).
Proof.
  assert (Hin : Sample.instance_stray
                ∈ NetworkTopology.ec2_instances Sample.topology_stray).
  { apply list_elem_of_further, list_elem_of_here. }
  assert (Hstray : ∀ s, s ∈ NetworkTopology.subnets Sample.topology_stray →
                        Subnet.resource_id s
                        ≠ EC2Instance.subnet_id Sample.instance_stray).
  { intros s Hs. apply list_elem_of_singleton in Hs as ->.
    vm_compute. discriminate. }
  destruct stray_instance_counted_not_listed as [_ Htopology].
  destruct (Htopology Sample.topology_stray Sample.instance_stray Hin Hstray)
    as (Hvpc & Haccount & _ & Hsub & _).
  split_and!; [exact Hin|exact Hstray| | |].
  - intros output. rewrite (Hvpc (TextDiagramGenerator.init None) output).
    reflexivity.
  - destruct (Haccount
                (AccountTopology.mk "us-east-1" [Sample.topology_stray]))
      as [_ Hline]; [apply list_elem_of_here|].
    exact (Hline (TextDiagramGenerator.init None) []).
  - apply Hsub. apply list_elem_of_here.
Defined.

(** * Further properties of the organizer *)

(** ** Lookups *)

Lemma head_filter_None {A : Type} (P : A → Prop) `{!∀ x, Decision (P x)}
    (l : list A) :
  head (filter P l) = None ↔ ∀ x, x ∈ l → ¬ P x.
Proof.
  rewrite head_None. split.
  - intros Hnil x Hx HP.
    assert (Hin : x ∈ filter P l) by (by apply list_elem_of_filter).
    rewrite Hnil in Hin. by apply not_elem_of_nil in Hin.
  - apply filter_none.
Qed.

Lemma head_filter_Some {A : Type} (P : A → Prop) `{!∀ x, Decision (P x)}
    (l : list A) (x : A) :
  head (filter P l) = Some x ↔
  ∃ i, l !! i = Some x ∧ P x ∧ ∀ j y, j < i → l !! j = Some y → ¬ P y.
Proof.
  induction l as [|a l IH].
  - split; [discriminate|]. intros (i & Hi & _). by destruct i.
  - rewrite filter_cons. destruct (decide (P a)) as [Ha|Ha].
    + simpl. split.
      * intros [= ->]. exists 0. split_and!; [done|done|]. intros; lia.
      * intros (i & Hi & Hx & Hfirst). destruct i as [|i].
        -- by injection Hi as ->.
        -- exfalso. apply (Hfirst 0 a); [lia|done|done].
    + rewrite IH. split.
      * intros (i & Hi & Hx & Hfirst). exists (S i). split_and!; [done|done|].
        intros [|j] y Hj Hy; [by injection Hy as <-|].
        apply (Hfirst j); [lia|done].
      * intros (i & Hi & Hx & Hfirst). destruct i as [|i].
        -- injection Hi as ->. done.
        -- exists i. split_and!; [done|done|].
           intros j y Hj Hy. apply (Hfirst (S j)); [lia|done].
Qed.

Lemma head_filter_key {A K : Type} `{!EqDecision K} (f : A → K)
    (l : list A) (x : A) :
  NoDup (f <$> l) → x ∈ l → head (filter (λ y, f y = f x) l) = Some x.
Proof.
  intros Hnodup Hx. apply head_filter_Some.
  apply list_elem_of_lookup in Hx as [i Hi]. exists i.
  split_and!; [done|done|].
  intros j y Hj Hy Heq.
  assert (j = i); [|lia].
  apply (NoDup_lookup (f <$> l) j i (f x) Hnodup).
  - by rewrite list_lookup_fmap, Hy, <- Heq.
  - by rewrite list_lookup_fmap, Hi.
Qed.

(** X1. [get_subnet_by_id] returns the first subnet of the topology with
    the given id, and [None] exactly when no subnet has it; when the ids
    of the subnets are pairwise distinct, looking up the id of a subnet of
    the topology gives that subnet back. *)
Theorem get_subnet_by_id_spec (t : NetworkTopology.t) (subnet_id : string) :
  (∀ s,
     NetworkTopology.get_subnet_by_id t subnet_id = Some s ↔
     ∃ i, NetworkTopology.subnets t !! i = Some s ∧
          Subnet.resource_id s = subnet_id ∧
          ∀ j s', j < i → NetworkTopology.subnets t !! j = Some s' →
                  Subnet.resource_id s' ≠ subnet_id) ∧
  (NetworkTopology.get_subnet_by_id t subnet_id = None ↔
   ∀ s, s ∈ NetworkTopology.subnets t → Subnet.resource_id s ≠ subnet_id) ∧
  (NoDup (Subnet.resource_id <$> NetworkTopology.subnets t) →
   ∀ s, s ∈ NetworkTopology.subnets t →
        NetworkTopology.get_subnet_by_id t (Subnet.resource_id s) = Some s).
Proof.
  unfold NetworkTopology.get_subnet_by_id. split_and!.
  - intros s.
    apply (head_filter_Some (λ subnet, Subnet.resource_id subnet = subnet_id)).
  - apply (head_filter_None (λ subnet, Subnet.resource_id subnet = subnet_id)).
  - intros Hnodup s Hs. by apply (head_filter_key Subnet.resource_id).
Qed.

Lemma get_subnet_by_id_spec_witness :
  NoDup (Subnet.resource_id <$> NetworkTopology.subnets Sample.topology_1) ∧
  NetworkTopology.get_subnet_by_id Sample.topology_1 "subnet-2"
  = Some Sample.subnet_2.
Proof.
  assert (Hnodup : NoDup (Subnet.resource_id
                          <$> NetworkTopology.subnets Sample.topology_1)).
  { apply (bool_decide_unpack _). vm_compute. exact I. }
  split; [exact Hnodup|].
  destruct (get_subnet_by_id_spec Sample.topology_1 "subnet-2")
    as (_ & _ & Hround).
  apply (Hround Hnodup Sample.subnet_2).
  apply list_elem_of_further, list_elem_of_here.
Defined.

(** X2. The public and the private subnets of a topology split its
    subnets: together they are the subnets, no subnet is in both, the two
    counts add up to the number of subnets, and each list keeps the order
    of the subnets. *)
Theorem public_private_partition (t : NetworkTopology.t) :
  NetworkTopology.get_public_subnets t ++ NetworkTopology.get_private_subnets t
  ≡ₚ NetworkTopology.subnets t ∧
  (∀ s, s ∈ NetworkTopology.get_public_subnets t ↔
        s ∈ NetworkTopology.subnets t ∧
        Subnet.map_public_ip_on_launch s = true) ∧
  (∀ s, s ∈ NetworkTopology.get_private_subnets t ↔
        s ∈ NetworkTopology.subnets t ∧
        Subnet.map_public_ip_on_launch s = false) ∧
  length (NetworkTopology.get_public_subnets t)
  + length (NetworkTopology.get_private_subnets t)
  = length (NetworkTopology.subnets t) ∧
  NetworkTopology.get_public_subnets t
  `sublist_of` NetworkTopology.subnets t ∧
  NetworkTopology.get_private_subnets t
  `sublist_of` NetworkTopology.subnets t.
Proof.
  unfold NetworkTopology.get_public_subnets,
    NetworkTopology.get_private_subnets.
  assert (Hperm :
    filter (λ s, Subnet.map_public_ip_on_launch s = true)
      (NetworkTopology.subnets t)
    ++ filter (λ s, Subnet.map_public_ip_on_launch s ≠ true)
         (NetworkTopology.subnets t)
    ≡ₚ NetworkTopology.subnets t).
  { apply (filter_app_complement
             (λ s, Subnet.map_public_ip_on_launch s = true)). }
  split_and!.
  - exact Hperm.
  - intros s. rewrite list_elem_of_filter. tauto.
  - intros s. rewrite list_elem_of_filter.
    destruct (Subnet.map_public_ip_on_launch s); naive_solver.
  - rewrite <- length_app. by rewrite Hperm.
  - apply sublist_filter.
  - apply sublist_filter.
Qed.

(** X3. On the account built from the organizer's result, when no two
    input VPCs share a [resource_id], [get_vpc_topology] with the id of an
    input VPC returns the topology built for that VPC. Whatever the
    input, a topology it returns has the requested id, and it returns
    [None] exactly when no input VPC has the requested id. *)
Theorem get_vpc_topology_organized (region : string) (vpcs : list VPC.t)
    (subnets : list Subnet.t) (route_tables : list RouteTable.t)
    (internet_gateways : list InternetGateway.t)
    (ec2_instances : list EC2Instance.t)
    (lambda_functions : option (list LambdaFunction.t)) :
  let account :=
    ResourceOrganizer.create_account_topology region
      (ResourceOrganizer.organize_network_topology vpcs subnets route_tables
         internet_gateways ec2_instances lambda_functions) in
  (NoDup (VPC.resource_id <$> vpcs) →
   ∀ v, v ∈ vpcs →
     AccountTopology.get_vpc_topology account (VPC.resource_id v)
     = Some (ResourceOrganizer.organize_vpc subnets route_tables
               internet_gateways ec2_instances
               (ResourceOrganizer.lambda_functions_or_empty
                  lambda_functions) v)) ∧
  (∀ vpc_id t,
     AccountTopology.get_vpc_topology account vpc_id = Some t →
     VPC.resource_id (NetworkTopology.vpc t) = vpc_id ∧
     t ∈ AccountTopology.vpcs account) ∧
  (∀ vpc_id,
     AccountTopology.get_vpc_topology account vpc_id = None ↔
     ∀ v, v ∈ vpcs → VPC.resource_id v ≠ vpc_id).
Proof.
  intros account.
  set (topology_of :=
         ResourceOrganizer.organize_vpc subnets route_tables
           internet_gateways ec2_instances
           (ResourceOrganizer.lambda_functions_or_empty lambda_functions)).
  assert (Hvpcs : AccountTopology.vpcs account = topology_of <$> vpcs).
  { unfold account, ResourceOrganizer.create_account_topology.
    cbn [AccountTopology.vpcs]. apply organized_fmap. }
  unfold AccountTopology.get_vpc_topology. rewrite Hvpcs. split_and!.
  - intros Hnodup v Hv.
    apply (head_filter_key
             (λ t, VPC.resource_id (NetworkTopology.vpc t))
             (topology_of <$> vpcs) (topology_of v)).
    + rewrite <- list_fmap_compose. exact Hnodup.
    + apply list_elem_of_fmap. by exists v.
  - intros vpc_id t Hhead.
    apply (head_filter_Some
             (λ t, VPC.resource_id (NetworkTopology.vpc t) = vpc_id))
      in Hhead as (i & Hi & Hid & _).
    split; [done|]. by apply list_elem_of_lookup_2 in Hi.
  - intros vpc_id.
    rewrite (head_filter_None
               (λ t, VPC.resource_id (NetworkTopology.vpc t) = vpc_id)).
    split.
    + intros Hnone v Hv. apply (Hnone (topology_of v)).
      apply list_elem_of_fmap. by exists v.
    + intros Hnone t Ht. apply list_elem_of_fmap in Ht as (v & -> & Hv).
      by apply Hnone.
Qed.

Lemma get_vpc_topology_organized_witness :
  NoDup (VPC.resource_id <$> [Sample.vpc_1; Sample.vpc_2]) ∧
  ∃ t,
    AccountTopology.get_vpc_topology
      (ResourceOrganizer.create_account_topology "us-east-1"
         (ResourceOrganizer.organize_network_topology
            [Sample.vpc_1; Sample.vpc_2] [Sample.subnet_1] [] [] [] None))
      "vpc-2"
    = Some t ∧
    NetworkTopology.vpc t = Sample.vpc_2.
Proof.
  assert (Hnodup : NoDup (VPC.resource_id <$> [Sample.vpc_1; Sample.vpc_2])).
  { apply (bool_decide_unpack _). vm_compute. exact I. }
  split; [exact Hnodup|].
  destruct (get_vpc_topology_organized "us-east-1"
              [Sample.vpc_1; Sample.vpc_2] [Sample.subnet_1] [] [] [] None)
    as (Hround & _).
  eexists. split.
  - apply (Hround Hnodup Sample.vpc_2).
    apply list_elem_of_further, list_elem_of_here.
  - reflexivity.
Defined.

(** ** Flattening *)

Lemma filter_disjoint_or {A : Type} (P Q : A → Prop)
    `{!∀ x, Decision (P x)} `{!∀ x, Decision (Q x)} (l : list A) :
  (∀ x, P x → Q x → False) →
  filter (λ x, P x ∨ Q x) l ≡ₚ filter P l ++ filter Q l.
Proof.
  intros Hdisj. induction l as [|x l IH]; [done|].
  rewrite !filter_cons.
  destruct (decide (P x)) as [HP|HP]; destruct (decide (Q x)) as [HQ|HQ].
  - by destruct (Hdisj x).
  - rewrite decide_True by (by left). simpl. by rewrite IH.
  - rewrite decide_True by (by right). rewrite IH.
    by rewrite Permutation_middle.
  - rewrite decide_False by tauto. done.
Qed.

Lemma join_concat_perm {V C K : Type} `{!EqDecision K} (key : C → K)
    (f : V → K) (vs : list V) (l : list C) :
  NoDup (f <$> vs) →
  concat ((λ v, filter (λ c, key c = f v) l) <$> vs)
  ≡ₚ filter (λ c, key c ∈ f <$> vs) l.
Proof.
  induction vs as [|v vs IH]; intros Hnodup; csimpl.
  - symmetry. rewrite (filter_none (λ c, key c ∈ [])); [done|].
    intros c _. apply not_elem_of_nil.
  - apply NoDup_cons in Hnodup as [Hv Hnodup].
    rewrite (IH Hnodup).
    rewrite (list_filter_iff (λ c, key c ∈ f v :: (f <$> vs))
               (λ c, key c = f v ∨ key c ∈ f <$> vs))
      by (intros c; rewrite elem_of_cons; tauto).
    symmetry. apply filter_disjoint_or.
    intros c Heq Hin. apply Hv. by rewrite <- Heq.
Qed.

Lemma get_all_subnets_concat (account : AccountTopology.t) :
  AccountTopology.get_all_subnets account
  = concat (NetworkTopology.subnets <$> AccountTopology.vpcs account).
Proof.
  unfold AccountTopology.get_all_subnets.
  by rewrite (fold_left_app_concat NetworkTopology.subnets).
Qed.

(** X4. On the account built from the organizer's result, when no two
    input VPCs share a [resource_id], the instances of the whole account
    are, up to order, the input instances whose [vpc_id] names an input
    VPC, each as many times as the input lists it, and likewise for the
    subnets: nothing is counted twice and only orphans are left out. *)
Theorem account_flattening_conserves (region : string) (vpcs : list VPC.t)
    (subnets : list Subnet.t) (route_tables : list RouteTable.t)
    (internet_gateways : list InternetGateway.t)
    (ec2_instances : list EC2Instance.t)
    (lambda_functions : option (list LambdaFunction.t)) :
  NoDup (VPC.resource_id <$> vpcs) →
  let account :=
    ResourceOrganizer.create_account_topology region
      (ResourceOrganizer.organize_network_topology vpcs subnets route_tables
         internet_gateways ec2_instances lambda_functions) in
  AccountTopology.get_all_instances account
  ≡ₚ filter (λ inst, EC2Instance.vpc_id inst ∈ VPC.resource_id <$> vpcs)
       ec2_instances ∧
  AccountTopology.get_all_subnets account
  ≡ₚ filter (λ s, Subnet.vpc_id s ∈ VPC.resource_id <$> vpcs) subnets.
Proof.
  intros Hnodup account.
  assert (Hvpcs :
    AccountTopology.vpcs account
    = ResourceOrganizer.organize_vpc subnets route_tables internet_gateways
        ec2_instances
        (ResourceOrganizer.lambda_functions_or_empty lambda_functions)
      <$> vpcs).
  { unfold account, ResourceOrganizer.create_account_topology.
    cbn [AccountTopology.vpcs]. apply organized_fmap. }
  rewrite get_all_instances_concat, get_all_subnets_concat, Hvpcs.
  rewrite <- !list_fmap_compose. split.
  - apply (join_concat_perm EC2Instance.vpc_id VPC.resource_id vpcs
             ec2_instances Hnodup).
  - apply (join_concat_perm Subnet.vpc_id VPC.resource_id vpcs subnets
             Hnodup).
Qed.

Lemma account_flattening_conserves_witness :
  NoDup (VPC.resource_id <$> [Sample.vpc_1; Sample.vpc_2]) ∧
  AccountTopology.get_all_instances
    (ResourceOrganizer.create_account_topology "us-east-1"
       (ResourceOrganizer.organize_network_topology
          [Sample.vpc_1; Sample.vpc_2] [Sample.subnet_1] [] []
          [Sample.instance_1; Sample.instance_stray] None))
  ≡ₚ filter
       (λ inst,
          EC2Instance.vpc_id inst
          ∈ VPC.resource_id <$> [Sample.vpc_1; Sample.vpc_2])
       [Sample.instance_1; Sample.instance_stray].
Proof.
  assert (Hnodup : NoDup (VPC.resource_id <$> [Sample.vpc_1; Sample.vpc_2])).
  { apply (bool_decide_unpack _). vm_compute. exact I. }
  split; [exact Hnodup|].
  apply (account_flattening_conserves "us-east-1"
           [Sample.vpc_1; Sample.vpc_2] [Sample.subnet_1] [] []
           [Sample.instance_1; Sample.instance_stray] None Hnodup).
Defined.

(** X5. [get_lambda_functions_by_subnet] lists the functions of the
    topology that name the subnet id among their [subnet_ids]; every
    function the organizer places in a topology is listed this way under
    at least one subnet of that topology. *)
Theorem placed_function_listed_by_subnet (vpcs : list VPC.t)
    (subnets : list Subnet.t) (route_tables : list RouteTable.t)
    (internet_gateways : list InternetGateway.t)
    (ec2_instances : list EC2Instance.t)
    (lambda_functions : option (list LambdaFunction.t)) :
  (∀ (t : NetworkTopology.t) subnet_id func,
     func ∈ NetworkTopology.get_lambda_functions_by_subnet t subnet_id ↔
     func ∈ NetworkTopology.lambda_functions t ∧
     subnet_id ∈ LambdaFunction.subnet_ids func) ∧
  (∀ t func,
     t ∈ ResourceOrganizer.organize_network_topology vpcs subnets
           route_tables internet_gateways ec2_instances lambda_functions →
     func ∈ NetworkTopology.lambda_functions t →
     ∃ s, s ∈ NetworkTopology.subnets t ∧
          func ∈ NetworkTopology.get_lambda_functions_by_subnet t
                   (Subnet.resource_id s)).
Proof.
  split.
  - intros t subnet_id func.
    unfold NetworkTopology.get_lambda_functions_by_subnet.
    rewrite list_elem_of_filter. tauto.
  - intros t func Ht Hfunc.
    apply organized_elem in Ht as (v & Hv & ->).
    pose proof Hfunc as Hfunc'.
    rewrite topology_of_lambda_functions in Hfunc'.
    apply list_elem_of_filter in Hfunc' as [[_ Hany] _].
    apply Exists_exists in Hany as (s & Hs & _).
    apply list_elem_of_filter in Hs as [Hid Hs].
    exists s. split; [done|].
    unfold NetworkTopology.get_lambda_functions_by_subnet.
    by apply list_elem_of_filter.
Qed.

Lemma placed_function_listed_by_subnet_witness :
  ∃ t,
    t ∈ ResourceOrganizer.organize_network_topology [Sample.vpc_1]
          [Sample.subnet_1] [] [] [] (Some [Sample.function_in_vpc]) ∧
    Sample.function_in_vpc ∈ NetworkTopology.lambda_functions t ∧
    ∃ s, s ∈ NetworkTopology.subnets t ∧
         Sample.function_in_vpc
         ∈ NetworkTopology.get_lambda_functions_by_subnet t
             (Subnet.resource_id s).
Proof.
  eexists.
  assert (Hfunc :
    Sample.function_in_vpc
    ∈ NetworkTopology.lambda_functions
        (ResourceOrganizer.organize_vpc [Sample.subnet_1] [] [] []
           [Sample.function_in_vpc] Sample.vpc_1)).
  { apply list_elem_of_here. }
  split; [apply list_elem_of_here|]. split; [exact Hfunc|].
  destruct (placed_function_listed_by_subnet [Sample.vpc_1]
              [Sample.subnet_1] [] [] [] (Some [Sample.function_in_vpc]))
    as [_ Hlisted].
  apply (Hlisted _ _ (list_elem_of_here _ _) Hfunc).
Defined.

(** * Further properties of the models and of the text report *)

(** X6. The name a resource is constructed with wins over its tags when it
    is not empty; an empty or absent name is replaced by the [Name] tag
    when the tags have one; and the text report falls back to the
    [resource_id] when what results is absent or empty. So the title of a
    VPC, the section title of a subnet and the entry of an instance show
    the explicit name, else the tag, else the id. *)
Theorem displayed_name_precedence (name : option string)
    (tags : gmap string string) :
  (Py.opt_truthy name = true → BaseResource.post_init name tags = name) ∧
  (Py.opt_truthy name = false →
   BaseResource.post_init name tags
   = match tags !! "Name" with Some n => Some n | None => name end) ∧
  (∀ rid, Py.or_else (BaseResource.post_init name tags) rid
          = displayed_name name tags rid) ∧
  (∀ topology rid rtype region cidr state is_default,
     NetworkTopology.vpc topology
     = VPC.init rid rtype region tags cidr state is_default name →
     TextDiagramGenerator.vpc_title topology
     = "VPC: " +:+ displayed_name name tags rid +:+ Py.nl) ∧
  (∀ self rid rtype region vpc_id cidr az state public,
     TextDiagramGenerator.subnet_title self
       (Subnet.init rid rtype region tags vpc_id cidr az state public name)
     = TextDiagramGenerator._indent self 1 +:+
       (if public then "Public" else "Private") +:+ " Subnet: " +:+
       displayed_name name tags rid +:+ Py.nl) ∧
  (∀ self rid rtype region itype state vpc_id subnet_id ip groups public_ip,
     instance_chunks self
       (EC2Instance.init rid rtype region tags itype state vpc_id subnet_id
          ip groups public_ip name) !! 0
     = Some (TextDiagramGenerator._indent self 3 +:+
             displayed_name name tags rid +:+ Py.nl)).
Proof.
  assert (Hshown : ∀ rid,
    Py.or_else (BaseResource.post_init name tags) rid
    = displayed_name name tags rid).
  { intros rid. unfold BaseResource.post_init, displayed_name.
    destruct name as [[|c n]|]; simpl;
      destruct (tags !! "Name") as [[|c2 n2]|]; reflexivity. }
  split_and!.
  - intros Htruthy. unfold BaseResource.post_init. by rewrite Htruthy.
  - intros Hfalsy. unfold BaseResource.post_init. by rewrite Hfalsy.
  - exact Hshown.
  - intros topology rid rtype region cidr state is_default Hvpc.
    unfold TextDiagramGenerator.vpc_title. rewrite Hvpc.
    cbn [VPC.init VPC.name VPC.resource_id]. by rewrite Hshown.
  - intros. unfold TextDiagramGenerator.subnet_title.
    cbn [Subnet.init Subnet.name Subnet.resource_id
         Subnet.map_public_ip_on_launch].
    by rewrite Hshown.
  - intros. unfold instance_chunks, TextDiagramGenerator.write_instance,
      TextIO.write.
    cbn [EC2Instance.init EC2Instance.name EC2Instance.resource_id
         EC2Instance.public_ip].
    rewrite Hshown. by destruct (Py.opt_truthy public_ip).
Qed.

Lemma displayed_name_precedence_witness :
  Py.opt_truthy (Some "bastion") = true ∧
  BaseResource.post_init (Some "bastion") {[ "Name" := "web-1" ]}
  = Some "bastion".
Proof.
  split; [reflexivity|].
  destruct (displayed_name_precedence (Some "bastion")
              {[ "Name" := "web-1" ]}) as (Hkept & _).
  apply Hkept. reflexivity.
Defined.

Lemma append_length (a b : string) :
  String.length (a +:+ b) = String.length a + String.length b.
Proof.
  induction a as [|c a IH]; [done|].
  rewrite append_cons. simpl. by rewrite IH.
Qed.

Lemma repeat_nat_length (s : string) (n : nat) :
  String.length (Py.repeat_nat s n) = n * String.length s.
Proof.
  induction n as [|n IH]; [done|].
  change (Py.repeat_nat s (S n)) with (s +:+ Py.repeat_nat s n).
  rewrite append_length, IH. lia.
Qed.

(** X7. The indentation of a level has as many characters as the level
    times the indent size, and none at all when that product is not
    positive: a zero or negative indent size raises nothing and indents
    nothing. Each level adds the same width. *)
Theorem indent_width (self : TextDiagramGenerator.t) (level : Z) :
  String.length (TextDiagramGenerator._indent self level)
  = Z.to_nat (level * TextDiagramGenerator.indent_size self) ∧
  ((level * TextDiagramGenerator.indent_size self ≤ 0)%Z →
   TextDiagramGenerator._indent self level = EmptyString) ∧
  ((0 ≤ level)%Z → (0 ≤ TextDiagramGenerator.indent_size self)%Z →
   TextDiagramGenerator._indent self (level + 1)
   = TextDiagramGenerator._indent self level
     +:+ TextDiagramGenerator._indent self 1).
Proof.
  unfold TextDiagramGenerator._indent, Py.mul. split_and!.
  - rewrite repeat_nat_length. simpl. lia.
  - intros Hle.
    by replace (Z.to_nat (level * TextDiagramGenerator.indent_size self))
      with 0 by lia.
  - intros Hlevel Hsize. rewrite <- repeat_nat_add. f_equal. nia.
Qed.

Lemma indent_width_witness :
  (3 * TextDiagramGenerator.indent_size (TextDiagramGenerator.mk (-2)) ≤ 0)%Z
  ∧ TextDiagramGenerator._indent (TextDiagramGenerator.mk (-2)) 3
    = EmptyString.
Proof.
  split; [vm_compute; discriminate|].
  destruct (indent_width (TextDiagramGenerator.mk (-2)) 3) as (_ & Hnone & _).
  apply Hnone. vm_compute. discriminate.
Defined.

(** ** The reports as sequences of whole lines *)

Lemma ends_with_newline_nl : ends_with_newline Py.nl.
Proof. by exists EmptyString. Qed.

Lemma ends_with_newline_append (a b : string) :
  ends_with_newline b → ends_with_newline (a +:+ b).
Proof. intros [body ->]. exists (a +:+ body). by rewrite append_assoc. Qed.

Ltac whole_line :=
  unfold TextDiagramGenerator.vpc_report_title,
    TextDiagramGenerator.subnet_title, TextDiagramGenerator.subnet_cidr_line,
    TextDiagramGenerator.subnet_az_line,
    TextDiagramGenerator.instances_heading, TextDiagramGenerator.vpc_title,
    TextDiagramGenerator.vpc_cidr_line, TextDiagramGenerator.vpc_state_line,
    TextDiagramGenerator.vpc_default_line, TextDiagramGenerator.igw_heading,
    TextDiagramGenerator.igw_line, TextDiagramGenerator.public_subnets_line,
    TextDiagramGenerator.private_subnets_line,
    TextDiagramGenerator.total_instances_line,
    TextDiagramGenerator.account_instances_line;
  repeat first [ apply ends_with_newline_nl
               | apply ends_with_newline_append ].

Lemma instance_chunks_whole_lines (self : TextDiagramGenerator.t)
    (instance : EC2Instance.t) :
  Forall ends_with_newline (instance_chunks self instance).
Proof.
  unfold instance_chunks, TextDiagramGenerator.write_instance, TextIO.write.
  destruct (Py.opt_truthy (EC2Instance.public_ip instance));
    cbn [app]; repeat (constructor; [whole_line|]); constructor.
Qed.

Lemma subnet_section_whole_lines (self : TextDiagramGenerator.t)
    (subnet : Subnet.t) (instances : list EC2Instance.t) :
  Forall ends_with_newline (subnet_section self subnet instances).
Proof.
  unfold subnet_section. rewrite !Forall_app. split_and!.
  - repeat (constructor; [whole_line|]). constructor.
  - destruct (Py.list_truthy instances); [|constructor].
    constructor; [whole_line|].
    apply Forall_concat, Forall_fmap, Forall_forall. intros inst _.
    apply instance_chunks_whole_lines.
  - constructor; [whole_line|constructor].
Qed.

Lemma subnet_diagram_whole_lines (self : TextDiagramGenerator.t)
    (topology : NetworkTopology.t) :
  Forall ends_with_newline
    (TextDiagramGenerator.generate_subnet_diagram self topology []).
Proof.
  rewrite generate_subnet_diagram_app, app_nil_l.
  constructor; [whole_line|].
  apply Forall_concat, Forall_fmap, Forall_forall. intros s _.
  apply subnet_section_whole_lines.
Qed.

Lemma vpc_diagram_whole_lines (self : TextDiagramGenerator.t)
    (topology : NetworkTopology.t) :
  Forall ends_with_newline
    (TextDiagramGenerator.generate_vpc_diagram self topology []).
Proof.
  rewrite generate_vpc_diagram_app, app_nil_l.
  unfold vpc_summary_head. rewrite !Forall_app. split_and!.
  - repeat (constructor; [whole_line|]). constructor.
  - destruct (Py.list_truthy _); [|constructor].
    constructor; [whole_line|].
    apply Forall_fmap, Forall_forall. intros igw _.
    unfold compose. whole_line.
  - destruct (Py.list_truthy _); [|constructor].
    constructor; [whole_line|constructor].
  - destruct (Py.list_truthy _); [|constructor].
    constructor; [whole_line|constructor].
  - destruct (negb _); [|constructor].
    constructor; [whole_line|constructor].
  - constructor; [whole_line|constructor].
Qed.

Lemma account_diagram_whole_lines (self : TextDiagramGenerator.t)
    (account : AccountTopology.t) :
  Forall ends_with_newline
    (TextDiagramGenerator.generate_account_diagram self account []).
Proof.
  rewrite generate_account_diagram_app, app_nil_l.
  rewrite Forall_app. split.
  - repeat (constructor; [whole_line|]). constructor.
  - apply Forall_concat, Forall_fmap, Forall_forall. intros t _.
    apply vpc_diagram_whole_lines.
Qed.

(** X8. Every chunk the text generator writes ends with a line feed, in
    each of its four reports: a report is a sequence of whole lines,
    whatever the topology. *)
Theorem text_reports_are_whole_lines (self : TextDiagramGenerator.t)
    (account : AccountTopology.t) (topology : NetworkTopology.t) :
  Forall ends_with_newline
    (TextDiagramGenerator.generate_full_diagram self account []) ∧
  Forall ends_with_newline
    (TextDiagramGenerator.generate_account_diagram self account []) ∧
  Forall ends_with_newline
    (TextDiagramGenerator.generate_vpc_diagram self topology []) ∧
  Forall ends_with_newline
    (TextDiagramGenerator.generate_subnet_diagram self topology []).
Proof.
  split_and!.
  - rewrite generate_full_diagram_app, app_nil_l.
    rewrite !Forall_app. split_and!.
    + repeat (constructor; [whole_line|]). constructor.
    + apply account_diagram_whole_lines.
    + repeat (constructor; [whole_line|]). constructor.
    + apply Forall_concat, Forall_fmap, Forall_forall. intros t _.
      unfold compose. rewrite Forall_app. split.
      * apply subnet_diagram_whole_lines.
      * constructor; [whole_line|constructor].
  - apply account_diagram_whole_lines.
  - apply vpc_diagram_whole_lines.
  - apply subnet_diagram_whole_lines.
Qed.

(** ** What the reports list and count *)

Lemma concat_length_sum {A B : Type} (g : A → list B) (l : list A) :
  length (concat (g <$> l)) = sum_list ((λ x, length (g x)) <$> l).
Proof.
  induction l as [|x l IH]; csimpl; [done|].
  by rewrite length_app, IH.
Qed.

(** X9. The account-level summary writes its five heading lines and then
    the VPC-level summary of each topology, in account order. The number
    of instances it prints is the sum of the numbers the VPC-level
    summaries count, and the number of subnets it prints is the sum over
    the topologies of their public and private subnets. *)
Theorem account_summary_totals (self : TextDiagramGenerator.t)
    (account : AccountTopology.t) (output : TextIO.t) :
  TextDiagramGenerator.generate_account_diagram self account output
  = output ++
    ["AWS Account - Region: " +:+ AccountTopology.region account +:+ Py.nl;
     "Total VPCs: " +:+
     Py.str_of_nat (length (AccountTopology.vpcs account)) +:+ Py.nl;
     "Total Instances: " +:+
     Py.str_of_nat (length (AccountTopology.get_all_instances account))
     +:+ Py.nl;
     "Total Subnets: " +:+
     Py.str_of_nat (length (AccountTopology.get_all_subnets account))
     +:+ Py.nl;
     Py.nl]
    ++ concat
         ((λ t, TextDiagramGenerator.generate_vpc_diagram self t [])
          <$> AccountTopology.vpcs account) ∧
  length (AccountTopology.get_all_instances account)
  = sum_list
      ((λ t, length (NetworkTopology.ec2_instances t))
       <$> AccountTopology.vpcs account) ∧
  length (AccountTopology.get_all_subnets account)
  = sum_list
      ((λ t, length (NetworkTopology.get_public_subnets t)
             + length (NetworkTopology.get_private_subnets t))
       <$> AccountTopology.vpcs account).
Proof.
  split_and!.
  - apply generate_account_diagram_app.
  - rewrite get_all_instances_concat. apply concat_length_sum.
  - rewrite get_all_subnets_concat, concat_length_sum. f_equal.
    apply list_fmap_ext. intros _ t _.
    unfold NetworkTopology.get_public_subnets,
      NetworkTopology.get_private_subnets.
    rewrite <- length_app.
    by rewrite (filter_app_complement
                  (λ s, Subnet.map_public_ip_on_launch s = true)).
Qed.

(** X10. When the subnets of a topology have pairwise distinct ids, the
    instances the subnet-level report lists, subnet after subnet, are up
    to order the instances of the topology whose [subnet_id] is the id of
    one of its subnets: each of them is listed once for each time it is in
    [ec2_instances], and under the subnet it names. *)
Theorem subnet_report_lists_placed_instances (self : TextDiagramGenerator.t)
    (topology : NetworkTopology.t) (output : TextIO.t) :
  NoDup (Subnet.resource_id <$> NetworkTopology.subnets topology) →
  TextDiagramGenerator.generate_subnet_diagram self topology output
  = output ++
    TextDiagramGenerator.vpc_report_title topology
    :: concat
         ((λ subnet,
             subnet_section self subnet
               (NetworkTopology.get_instances_by_subnet topology
                  (Subnet.resource_id subnet)))
          <$> NetworkTopology.subnets topology) ∧
  concat
    ((λ subnet,
        NetworkTopology.get_instances_by_subnet topology
          (Subnet.resource_id subnet))
     <$> NetworkTopology.subnets topology)
  ≡ₚ filter
       (λ inst,
          EC2Instance.subnet_id inst
          ∈ Subnet.resource_id <$> NetworkTopology.subnets topology)
       (NetworkTopology.ec2_instances topology).
Proof.
  intros Hnodup. split.
  - apply generate_subnet_diagram_app.
  - apply (join_concat_perm EC2Instance.subnet_id Subnet.resource_id
             (NetworkTopology.subnets topology)
             (NetworkTopology.ec2_instances topology) Hnodup).
Qed.

Lemma subnet_report_lists_placed_instances_witness :
  NoDup (Subnet.resource_id <$> NetworkTopology.subnets Sample.topology_stray)
  ∧ concat
      ((λ subnet,
          NetworkTopology.get_instances_by_subnet Sample.topology_stray
            (Subnet.resource_id subnet))
       <$> NetworkTopology.subnets Sample.topology_stray)
    ≡ₚ filter
         (λ inst,
            EC2Instance.subnet_id inst
            ∈ Subnet.resource_id
              <$> NetworkTopology.subnets Sample.topology_stray)
         (NetworkTopology.ec2_instances Sample.topology_stray).
Proof.
  assert (Hnodup :
    NoDup (Subnet.resource_id
           <$> NetworkTopology.subnets Sample.topology_stray)).
  { apply (bool_decide_unpack _). vm_compute. exact I. }
  split; [exact Hnodup|].
  apply (subnet_report_lists_placed_instances (TextDiagramGenerator.init None)
           Sample.topology_stray [] Hnodup).
Defined.

(** * Further properties of the PlantUML generator *)

(** ** Rows of instances *)

Section Rows.

Import PlantUMLDiagramGenerator.

Lemma filter_mod3_shift (a n : nat) :
  filter (λ i, i `mod` 3 = 0) (seq (3 + a) n)
  = (λ i, 3 + i) <$> filter (λ i, i `mod` 3 = 0) (seq a n).
Proof.
  revert a. induction n as [|n IH]; intros a; [done|].
  change (seq (3 + a) (S n)) with ((3 + a) :: seq (3 + S a) n).
  change (seq a (S n)) with (a :: seq (S a) n).
  rewrite !filter_cons, IH.
  assert (Hmod : (3 + a) `mod` 3 = a `mod` 3).
  { replace (3 + a) with (a + 1 * 3) by lia. apply Nat.Div0.mod_add. }
  rewrite Hmod. by destruct (decide (a `mod` 3 = 0)).
Qed.

Lemma range_by_3_step (n : nat) :
  range_by_3 (3 + n) = 0 :: ((λ i, 3 + i) <$> range_by_3 n).
Proof.
  unfold range_by_3.
  change (seq 0 (3 + n)) with (0 :: 1 :: 2 :: seq (3 + 0) n).
  rewrite !filter_cons, filter_mod3_shift. done.
Qed.

Lemma instance_rows_step (a b c : EC2Instance.t)
    (rest : list EC2Instance.t) :
  instance_rows (a :: b :: c :: rest) = [a; b; c] :: instance_rows rest.
Proof.
  unfold instance_rows.
  change (length (a :: b :: c :: rest)) with (3 + length rest).
  rewrite range_by_3_step, fmap_cons, <- list_fmap_compose. done.
Qed.

Lemma by_three_ind {A : Type} (P : list A → Prop) :
  P [] → (∀ a, P [a]) → (∀ a b, P [a; b]) →
  (∀ a b c rest, P rest → P (a :: b :: c :: rest)) →
  ∀ l, P l.
Proof.
  intros H0 H1 H2 H3 l.
  assert (Hlen : ∀ n l, length l ≤ n → P l).
  { clear l. induction n as [|n IH]; intros l Hl.
    - destruct l; [done|simpl in Hl; lia].
    - destruct l as [|a [|b [|c rest]]]; [done..|].
      apply H3, IH. simpl in Hl. lia. }
  by apply (Hlen (length l)).
Qed.

Lemma instance_rows_concat (instances : list EC2Instance.t) :
  concat (instance_rows instances) = instances.
Proof.
  induction instances as [|a|a b|a b c rest IH] using by_three_ind;
    [done..|].
  rewrite instance_rows_step. simpl. by rewrite IH.
Qed.

Lemma alignment_lines_length (ids : list string) :
  length (alignment_lines ids) = length ids - 1.
Proof.
  unfold alignment_lines. destruct (decide (1 < length ids)).
  - by rewrite length_fmap, length_seq.
  - simpl. lia.
Qed.

End Rows.

(** ** The identifiers the pass collects *)

Section Collected.

Import PlantUMLDiagramGenerator.

Lemma fmap_concat {A B : Type} (f : A → B) (ls : list (list A)) :
  f <$> concat ls = concat (fmap (M:=list) f <$> ls).
Proof.
  induction ls as [|l ls IH]; csimpl; [done|].
  by rewrite fmap_app, IH.
Qed.

Lemma acc_nat_gateway_ids_concat (l : list acc) :
  acc_nat_gateway_ids (acc_concat l) = concat (acc_nat_gateway_ids <$> l).
Proof. induction l as [|a l IH]; csimpl; [done|]. by rewrite IH. Qed.

Lemma acc_ec2_ids_concat (l : list acc) :
  acc_ec2_ids (acc_concat l) = concat (acc_ec2_ids <$> l).
Proof. induction l as [|a l IH]; csimpl; [done|]. by rewrite IH. Qed.

Lemma rows_ec2_ids (instances : list EC2Instance.t) :
  acc_ec2_ids (acc_concat (row_acc <$> instance_rows instances))
  = instance_node_id <$> instances.
Proof.
  rewrite acc_ec2_ids_concat, <- list_fmap_compose.
  rewrite <- (instance_rows_concat instances) at 2.
  by rewrite fmap_concat.
Qed.

Lemma rows_nat_gateway_ids (instances : list EC2Instance.t) :
  acc_nat_gateway_ids (acc_concat (row_acc <$> instance_rows instances))
  = [].
Proof.
  rewrite acc_nat_gateway_ids_concat, <- list_fmap_compose.
  induction (instance_rows instances) as [|r rs IH]; csimpl; done.
Qed.

Lemma subnet_container_acc_ids (opening : string)
    (nats : list NatGateway.t) (instances : list EC2Instance.t) :
  acc_nat_gateway_ids (subnet_container_acc opening nats instances)
  = nat_node_id <$> nats ∧
  acc_ec2_ids (subnet_container_acc opening nats instances)
  = instance_node_id <$> instances.
Proof.
  unfold subnet_container_acc.
  cbn [acc_app acc_nat_gateway_ids acc_ec2_ids app].
  rewrite rows_nat_gateway_ids, rows_ec2_ids.
  by rewrite !app_nil_r.
Qed.

Lemma az_container_acc_ids (topology : NetworkTopology.t)
    (all_nats : list NatGateway.t) (entry : string * az_group) :
  acc_nat_gateway_ids (az_container_acc topology all_nats entry)
  = nat_node_id
    <$> concat (nat_gateways_of_subnet all_nats <$> public entry.2) ∧
  acc_ec2_ids (az_container_acc topology all_nats entry)
  = instance_node_id
    <$> (concat (instances_of topology <$> public entry.2)
         ++ concat (instances_of topology <$> private entry.2)).
Proof.
  unfold az_container_acc.
  cbn [acc_app acc_nat_gateway_ids acc_ec2_ids app].
  rewrite !acc_nat_gateway_ids_concat, !acc_ec2_ids_concat.
  rewrite <- !list_fmap_compose, !app_nil_r.
  rewrite fmap_app, !fmap_concat, <- !list_fmap_compose.
  assert (Hno_nat : ∀ l : list Subnet.t,
    concat
      (acc_nat_gateway_ids
       ∘ (λ subnet,
            subnet_container_acc (private_subnet_open subnet) []
              (NetworkTopology.get_instances_by_subnet topology
                 (Subnet.resource_id subnet)))
       <$> l) = []).
  { induction l as [|s l IH]; csimpl; [done|].
    rewrite IH, app_nil_r. unfold compose.
    apply (proj1 (subnet_container_acc_ids (private_subnet_open s) []
                    (NetworkTopology.get_instances_by_subnet topology
                       (Subnet.resource_id s)))). }
  rewrite Hno_nat, app_nil_r. split.
  - f_equal. apply list_fmap_ext. intros _ s _. unfold compose.
    apply subnet_container_acc_ids.
  - f_equal; f_equal; apply list_fmap_ext; intros _ s _; unfold compose;
      apply subnet_container_acc_ids.
Qed.

Lemma emit_private_flows_explicit (topology : NetworkTopology.t)
    (az_groups : az_dict) (nat_gateway_ids : list string) :
  emit_private_flows topology az_groups nat_gateway_ids []
  = if Py.list_truthy nat_gateway_ids
    then (λ instance_id, instance_id +:+ " .u.> " +:+ nat_gateway_ids !!! 0)
         <$> (instance_node_id
              <$> concat
                    ((λ entry : string * az_group,
                        concat (instances_of topology <$> private entry.2))
                     <$> az_groups))
    else [].
Proof.
  unfold emit_private_flows.
  set (edge := λ instance : EC2Instance.t,
         instance_node_id instance +:+ " .u.> " +:+ nat_gateway_ids !!! 0).
  destruct (Py.list_truthy nat_gateway_ids).
  - rewrite (fold_left_appends _
               (λ entry : string * az_group,
                  edge <$> concat (instances_of topology <$> private entry.2))).
    + rewrite app_nil_l, <- list_fmap_compose, fmap_concat,
        <- list_fmap_compose. done.
    + intros lines entry.
      rewrite (fold_left_appends _
                 (λ subnet, edge <$> instances_of topology subnet)).
      * by rewrite fmap_concat, <- list_fmap_compose.
      * intros lines2 subnet. apply fold_left_snoc_fmap.
  - rewrite (fold_left_appends _ (λ _, [])).
    + induction az_groups as [|e l IH]; csimpl; done.
    + intros lines entry.
      rewrite (fold_left_appends _ (λ _, [])).
      * induction (private entry.2) as [|e l IH]; csimpl;
          [by rewrite app_nil_r|done].
      * intros lines2 subnet.
        induction (NetworkTopology.get_instances_by_subnet topology
                     (Subnet.resource_id subnet)) as [|i l IH];
          [by rewrite app_nil_r|done].
Qed.

Lemma emit_flows_explicit (topology : NetworkTopology.t)
    (igw_ids nat_ids ec2_ids : list string) :
  emit_flows topology (build_az_groups (NetworkTopology.subnets topology))
    igw_ids nat_ids ec2_ids []
  = flow_lines igw_ids nat_ids ec2_ids
      (instance_node_id <$> private_instances topology).
Proof.
  unfold emit_flows, flow_lines, private_instances.
  rewrite !fold_left_snoc_fmap.
  destruct (Py.list_truthy nat_ids) eqn:Hnat;
    destruct (Py.list_truthy igw_ids);
    destruct (Py.list_truthy ec2_ids);
    destruct (bool_decide (1 < length nat_ids));
    cbn [andb];
    rewrite ?(emit_private_flows_app _ _ _ (_ ++ _)),
      ?emit_private_flows_explicit, ?Hnat;
    rewrite ?app_nil_l, ?app_nil_r, <- ?app_assoc; done.
Qed.

Lemma vpc_diagram_lines_explicit (topology : NetworkTopology.t)
    (nats : list NatGateway.t) (zones : list Route53HostedZone.t)
    (apis : list APIGateway.t) :
  NetworkTopology.nat_gateways topology = Some nats →
  NetworkTopology.route53_zones topology = Some zones →
  NetworkTopology.api_gateways topology = Some apis →
  _generate_vpc_diagram_lines topology
  = inr (vpc_open topology
         ++ (igw_node_line <$> NetworkTopology.internet_gateways topology)
         ++ concat
              (az_container topology nats
               <$> build_az_groups (NetworkTopology.subnets topology))
         ++ vpc_close
         ++ (zone_node_line <$> zones)
         ++ (api_node_line <$> apis)
         ++ [""]
         ++ flow_lines
              (igw_node_id <$> NetworkTopology.internet_gateways topology)
              (nat_node_id <$> drawn_nat_gateways topology nats)
              (instance_node_id <$> drawn_instances topology)
              (instance_node_id <$> private_instances topology)
         ++ [""]).
Proof.
  intros Hnats Hzones Hapis. unfold _generate_vpc_diagram_lines.
  rewrite emit_internet_gateways_spec.
  rewrite (for_each_acc _ _
             (λ st x, emit_az_group_spec topology nats st x Hnats)).
  rewrite Hzones, Hapis. unfold Py.getattr, Py.bind, Py.ret.
  rewrite emit_route53_zones_spec, emit_api_gateways_spec.
  rewrite emit_flows_app. f_equal.
  cbn [acc_lines acc_app acc_nat_gateway_ids acc_ec2_ids app].
  rewrite acc_lines_concat, acc_nat_gateway_ids_concat, acc_ec2_ids_concat.
  rewrite <- !list_fmap_compose.
  rewrite (list_fmap_ext (acc_lines ∘ az_container_acc topology nats)
             (az_container topology nats))
    by (intros; apply az_container_acc_lines).
  rewrite (list_fmap_ext
             (acc_nat_gateway_ids ∘ az_container_acc topology nats)
             (λ entry : string * az_group,
                nat_node_id
                <$> concat (nat_gateways_of_subnet nats <$> public entry.2)))
    by (intros; apply az_container_acc_ids).
  rewrite (list_fmap_ext
             (acc_ec2_ids ∘ az_container_acc topology nats)
             (λ entry : string * az_group,
                instance_node_id
                <$> (concat (instances_of topology <$> public entry.2)
                     ++ concat (instances_of topology <$> private entry.2))))
    by (intros; apply az_container_acc_ids).
  rewrite emit_flows_explicit.
  unfold drawn_nat_gateways, drawn_instances.
  rewrite !fmap_concat, <- !list_fmap_compose.
  rewrite <- !app_assoc. reflexivity.
Qed.

End Collected.

(** ** What the pass draws and which edges it adds *)

Section DrawnNodes.

Import PlantUMLDiagramGenerator.

(** X11. The instances of a subnet are drawn in rows that, put end to
    end, are the instances in their order: the loop over the rows adds to
    [lines] the lines of the rows, adds to [ec2_ids] the node identifier
    of every instance once, in order, and leaves [nat_gateway_ids] alone.
    Every row has one to three instances, there are as many rows as a
    third of the instances rounded up, and a row of [k] nodes is followed
    by [k - 1] hidden alignment edges, so a single node gets none. *)
Theorem instance_rows_cover (instances : list EC2Instance.t) :
  (∀ st,
     emit_instance_rows instances st
     = mk_acc (acc_lines st ++ concat (row_lines <$> instance_rows instances))
         (acc_nat_gateway_ids st)
         (acc_ec2_ids st ++ (instance_node_id <$> instances))) ∧
  concat (instance_rows instances) = instances ∧
  Forall (λ row, 1 ≤ length row ≤ 3) (instance_rows instances) ∧
  length (instance_rows instances) = (length instances + 2) `div` 3 ∧
  (∀ row,
     row_lines row
     = (instance_node_line <$> row)
       ++ alignment_lines (instance_node_id <$> row) ∧
     length (alignment_lines (instance_node_id <$> row)) = length row - 1).
Proof.
  split_and!.
  - intros st. rewrite emit_instance_rows_spec. unfold acc_app.
    rewrite rows_nat_gateway_ids, rows_ec2_ids, app_nil_r.
    rewrite acc_lines_concat, <- list_fmap_compose. done.
  - apply instance_rows_concat.
  - induction instances as [|a|a b|a b c rest IH] using by_three_ind.
    + constructor.
    + repeat constructor.
    + repeat constructor.
    + rewrite instance_rows_step. constructor; [simpl; lia|done].
  - induction instances as [|a|a b|a b c rest IH] using by_three_ind;
      [done..|].
    rewrite instance_rows_step. cbn [length]. rewrite IH.
    replace (S (S (S (length rest))) + 2)
      with (length rest + 2 + 1 * 3) by lia.
    rewrite Nat.div_add by lia. lia.
  - intros row. split; [done|].
    by rewrite alignment_lines_length, length_fmap.
Qed.

Lemma group_subnets (subnets : list Subnet.t) (s : Subnet.t) :
  ((∃ entry, entry ∈ build_az_groups subnets ∧ s ∈ public entry.2) ↔
   s ∈ subnets ∧ Subnet.map_public_ip_on_launch s = true) ∧
  ((∃ entry, entry ∈ build_az_groups subnets ∧ s ∈ private entry.2) ↔
   s ∈ subnets ∧ Subnet.map_public_ip_on_launch s = false).
Proof.
  rewrite build_az_groups_closed_form.
  assert (Hentry :
    s ∈ subnets →
    (Subnet.availability_zone s,
     group_of (Subnet.availability_zone s) subnets)
    ∈ (λ az, (az, group_of az subnets))
      <$> first_seen (Subnet.availability_zone <$> subnets)).
  { intros Hs. apply list_elem_of_fmap. eexists. split; [done|].
    apply first_seen_elem, list_elem_of_fmap. by exists s. }
  split; split.
  - intros (entry & Hentry' & Hs).
    apply list_elem_of_fmap in Hentry' as (az & -> & _).
    unfold group_of in Hs. cbn [snd public] in Hs.
    apply list_elem_of_filter in Hs. tauto.
  - intros [Hs Hpub]. eexists. split; [by apply Hentry|].
    unfold group_of. cbn [snd public]. by apply list_elem_of_filter.
  - intros (entry & Hentry' & Hs).
    apply list_elem_of_fmap in Hentry' as (az & -> & _).
    unfold group_of in Hs. cbn [snd private] in Hs.
    apply list_elem_of_filter in Hs as [[_ Hpriv] Hs].
    split; [done|]. by destruct (Subnet.map_public_ip_on_launch s).
  - intros [Hs Hpriv]. eexists. split; [by apply Hentry|].
    unfold group_of. cbn [snd private]. apply list_elem_of_filter.
    rewrite Hpriv. done.
Qed.

(** X12. For a topology that carries the three attributes, the lines of
    the pass are given in full: groups, nodes, containers, and the flow
    edges computed from the identifiers the pass collects. A NAT gateway
    gets a node, and so can get edges, exactly when its [subnet_id] is the
    id of a public subnet of the topology: one without [subnet_id], or in
    a private or unknown subnet, is not drawn. An instance gets a node
    exactly when its [subnet_id] is the id of a subnet of the topology,
    and it is among the sources of the edges to the NAT gateway exactly
    when that subnet is private. *)
Theorem vpc_pass_draws_and_connects (topology : NetworkTopology.t)
    (nats : list NatGateway.t) (zones : list Route53HostedZone.t)
    (apis : list APIGateway.t) :
  NetworkTopology.nat_gateways topology = Some nats →
  NetworkTopology.route53_zones topology = Some zones →
  NetworkTopology.api_gateways topology = Some apis →
  _generate_vpc_diagram_lines topology
  = inr (vpc_open topology
         ++ (igw_node_line <$> NetworkTopology.internet_gateways topology)
         ++ concat
              (az_container topology nats
               <$> build_az_groups (NetworkTopology.subnets topology))
         ++ vpc_close
         ++ (zone_node_line <$> zones)
         ++ (api_node_line <$> apis)
         ++ [""]
         ++ flow_lines
              (igw_node_id <$> NetworkTopology.internet_gateways topology)
              (nat_node_id <$> drawn_nat_gateways topology nats)
              (instance_node_id <$> drawn_instances topology)
              (instance_node_id <$> private_instances topology)
         ++ [""]) ∧
  (∀ nat,
     nat ∈ drawn_nat_gateways topology nats ↔
     nat ∈ nats ∧
     ∃ s, s ∈ NetworkTopology.subnets topology ∧
          Subnet.map_public_ip_on_launch s = true ∧
          NatGateway.subnet_id nat = Some (Subnet.resource_id s)) ∧
  (∀ inst,
     inst ∈ drawn_instances topology ↔
     inst ∈ NetworkTopology.ec2_instances topology ∧
     ∃ s, s ∈ NetworkTopology.subnets topology ∧
          EC2Instance.subnet_id inst = Subnet.resource_id s) ∧
  (∀ inst,
     inst ∈ private_instances topology ↔
     inst ∈ NetworkTopology.ec2_instances topology ∧
     ∃ s, s ∈ NetworkTopology.subnets topology ∧
          Subnet.map_public_ip_on_launch s = false ∧
          EC2Instance.subnet_id inst = Subnet.resource_id s).
Proof.
  intros Hnats Hzones Hapis.
  pose proof (λ s, proj1 (group_subnets (NetworkTopology.subnets topology) s))
    as Hpublic.
  pose proof (λ s, proj2 (group_subnets (NetworkTopology.subnets topology) s))
    as Hprivate.
  assert (Hinst : ∀ inst s,
    inst ∈ instances_of topology s ↔
    inst ∈ NetworkTopology.ec2_instances topology ∧
    EC2Instance.subnet_id inst = Subnet.resource_id s).
  { intros inst s.
    unfold instances_of, NetworkTopology.get_instances_by_subnet.
    rewrite list_elem_of_filter. tauto. }
  split_and!.
  - by apply vpc_diagram_lines_explicit.
  - intros nat. unfold drawn_nat_gateways. rewrite elem_of_concat. split.
    + intros (l & Hnat & Hl).
      apply list_elem_of_fmap in Hl as (entry & -> & Hentry).
      apply elem_of_concat in Hnat as (l & Hnat & Hl).
      apply list_elem_of_fmap in Hl as (s & -> & Hs).
      apply list_elem_of_filter in Hnat as [Hid Hnat].
      split; [done|]. exists s.
      destruct (proj1 (Hpublic s)) as [Hs' Hpub]; [by exists entry|].
      done.
    + intros (Hnat & s & Hs & Hpub & Hid).
      destruct (proj2 (Hpublic s)) as (entry & Hentry & Hs'); [done|].
      eexists. split; [|apply list_elem_of_fmap; by exists entry].
      apply elem_of_concat. eexists.
      split; [|apply list_elem_of_fmap; by exists s].
      by apply list_elem_of_filter.
  - intros inst. unfold drawn_instances. rewrite elem_of_concat. split.
    + intros (l & Hi & Hl).
      apply list_elem_of_fmap in Hl as (entry & -> & Hentry).
      apply elem_of_app in Hi as [Hi|Hi];
        apply elem_of_concat in Hi as (l & Hi & Hl);
        apply list_elem_of_fmap in Hl as (s & -> & Hs);
        apply Hinst in Hi as [Hi Hid]; (split; [done|]); exists s.
      * destruct (proj1 (Hpublic s)) as [Hs' _]; [by exists entry|done].
      * destruct (proj1 (Hprivate s)) as [Hs' _]; [by exists entry|done].
    + intros (Hi & s & Hs & Hid).
      destruct (Subnet.map_public_ip_on_launch s) eqn:Hpub.
      * destruct (proj2 (Hpublic s)) as (entry & Hentry & Hs'); [done|].
        eexists. split; [|apply list_elem_of_fmap; by exists entry].
        apply elem_of_app. left. apply elem_of_concat. eexists.
        split; [|apply list_elem_of_fmap; by exists s].
        by apply Hinst.
      * destruct (proj2 (Hprivate s)) as (entry & Hentry & Hs'); [done|].
        eexists. split; [|apply list_elem_of_fmap; by exists entry].
        apply elem_of_app. right. apply elem_of_concat. eexists.
        split; [|apply list_elem_of_fmap; by exists s].
        by apply Hinst.
  - intros inst. unfold private_instances. rewrite elem_of_concat. split.
    + intros (l & Hi & Hl).
      apply list_elem_of_fmap in Hl as (entry & -> & Hentry).
      apply elem_of_concat in Hi as (l & Hi & Hl).
      apply list_elem_of_fmap in Hl as (s & -> & Hs).
      apply Hinst in Hi as [Hi Hid]. split; [done|]. exists s.
      destruct (proj1 (Hprivate s)) as [Hs' Hpriv]; [by exists entry|].
      done.
    + intros (Hi & s & Hs & Hpriv & Hid).
      destruct (proj2 (Hprivate s)) as (entry & Hentry & Hs'); [done|].
      eexists. split; [|apply list_elem_of_fmap; by exists entry].
      apply elem_of_concat. eexists.
      split; [|apply list_elem_of_fmap; by exists s].
      by apply Hinst.
Qed.

Lemma vpc_pass_draws_and_connects_witness :
  NetworkTopology.nat_gateways Sample.topology_1_drawn = Some [] ∧
  NetworkTopology.route53_zones Sample.topology_1_drawn = Some [] ∧
  NetworkTopology.api_gateways Sample.topology_1_drawn = Some [] ∧
  (Sample.instance_1 ∈ drawn_instances Sample.topology_1_drawn ↔
   Sample.instance_1 ∈ NetworkTopology.ec2_instances Sample.topology_1_drawn
   ∧ ∃ s, s ∈ NetworkTopology.subnets Sample.topology_1_drawn ∧
          EC2Instance.subnet_id Sample.instance_1 = Subnet.resource_id s).
Proof.
  split_and!; try reflexivity.
  destruct (vpc_pass_draws_and_connects Sample.topology_1_drawn [] [] []
              eq_refl eq_refl eq_refl) as (_ & _ & Hdrawn & _).
  apply Hdrawn.
Defined.

(** X13. The flow edges of a topology. Without a drawn NAT gateway there
    is no flow edge at all, even with internet gateways and private
    instances. Without an internet gateway the only edges are those of
    the private instances to the first NAT gateway. With both, the block
    has its comment line, an edge from every NAT gateway to the first
    internet gateway, the edges of the private instances to the first NAT
    gateway when some instance is drawn, and then a second, hidden edge to
    the first internet gateway for every NAT gateway after the first. *)
Theorem flow_edges (topology : NetworkTopology.t)
    (ec2_ids lines : list string) :
  let az_groups := build_az_groups (NetworkTopology.subnets topology) in
  let private_ids := instance_node_id <$> private_instances topology in
  (∀ igw_ids, emit_flows topology az_groups igw_ids [] ec2_ids lines = lines)
  ∧
  (∀ nat_ids,
     emit_flows topology az_groups [] nat_ids ec2_ids lines
     = lines ++
       if Py.list_truthy ec2_ids && Py.list_truthy nat_ids
       then (λ instance_id, instance_id +:+ " .u.> " +:+ nat_ids !!! 0)
            <$> private_ids
       else []) ∧
  (∀ igw_id igw_ids nat_id nat_ids,
     emit_flows topology az_groups (igw_id :: igw_ids) (nat_id :: nat_ids)
       ec2_ids lines
     = lines
       ++ "' Network Flow Connections"
          :: ((λ n, n +:+ " .u.> " +:+ igw_id) <$> nat_id :: nat_ids)
       ++ (if Py.list_truthy ec2_ids
           then (λ instance_id, instance_id +:+ " .u.> " +:+ nat_id)
                <$> private_ids
           else [])
       ++ ((λ n, n +:+ " .[hidden]u.> " +:+ igw_id) <$> nat_ids)).
Proof.
  intros az_groups private_ids. split_and!.
  - intros igw_ids. unfold az_groups.
    rewrite emit_flows_app, emit_flows_explicit. unfold flow_lines.
    cbn [Py.list_truthy andb length bool_decide].
    rewrite andb_false_r. by rewrite !app_nil_r.
  - intros nat_ids. unfold az_groups.
    rewrite emit_flows_app, emit_flows_explicit. unfold flow_lines.
    cbn [Py.list_truthy]. rewrite !andb_false_r.
    by rewrite app_nil_l, app_nil_r.
  - intros igw_id igw_ids nat_id nat_ids. unfold az_groups.
    rewrite emit_flows_app, emit_flows_explicit. unfold flow_lines.
    cbn [Py.list_truthy andb]. rewrite !andb_true_r.
    change ((igw_id :: igw_ids) !!! 0) with igw_id.
    change ((nat_id :: nat_ids) !!! 0) with nat_id.
    do 3 f_equal.
    destruct nat_ids as [|n2 nat_ids]; [done|].
    rewrite bool_decide_eq_true_2 by (simpl; lia). done.
Qed.

End DrawnNodes.

(** ** Node identifiers *)

Lemma replace_length (a b : Ascii.ascii) (s : string) :
  String.length (Py.replace a b s) = String.length s.
Proof. induction s as [|c s IH]; simpl; [done|]. by rewrite IH. Qed.

Lemma replace_removes (a b : Ascii.ascii) (s : string) :
  a ≠ b → ¬ contains_char a (Py.replace a b s).
Proof.
  intros Hne. induction s as [|c s IH]; simpl; [tauto|].
  intros [Hc|Hin]; [|by apply IH].
  destruct (Ascii.eqb c a) eqn:Heq.
  - by subst b.
  - apply Ascii.eqb_neq in Heq. by subst c.
Qed.

Lemma replace_absent (a b : Ascii.ascii) (s : string) :
  ¬ contains_char a s → Py.replace a b s = s.
Proof.
  induction s as [|c s IH]; simpl; [done|].
  intros Hnot. destruct (Ascii.eqb c a) eqn:Heq.
  - apply Ascii.eqb_eq in Heq. tauto.
  - f_equal. apply IH. tauto.
Qed.

(** X14. Replacing a character by another one keeps the length of the
    string, leaves no occurrence of the replaced character, and changes
    nothing in a string without it. So the node identifiers of instances,
    NAT gateways and internet gateways hold no hyphen and are as long as
    the [resource_id]; an id without hyphen is its own identifier; and two
    different ids can get the same identifier, such as [i-1] and [i_1]. *)
Theorem node_identifiers :
  (∀ a b s, String.length (Py.replace a b s) = String.length s) ∧
  (∀ a b s, a ≠ b → ¬ contains_char a (Py.replace a b s)) ∧
  (∀ a b s, ¬ contains_char a s → Py.replace a b s = s) ∧
  (∀ inst,
     ¬ contains_char "-" (PlantUMLDiagramGenerator.instance_node_id inst)) ∧
  (∀ nat, ¬ contains_char "-" (PlantUMLDiagramGenerator.nat_node_id nat)) ∧
  (∀ igw, ¬ contains_char "-" (PlantUMLDiagramGenerator.igw_node_id igw)) ∧
  Py.replace "-" "_" "i-1" = Py.replace "-" "_" "i_1".
Proof.
  split_and!.
  - apply replace_length.
  - apply replace_removes.
  - apply replace_absent.
  - intros inst. by apply replace_removes.
  - intros nat. by apply replace_removes.
  - intros igw. by apply replace_removes.
  - reflexivity.
Qed.

Lemma node_identifiers_witness :
  ("-"%char ≠ "_"%char) ∧ ¬ contains_char "-" (Py.replace "-" "_" "i-0a-b").
Proof.
  assert (Hne : "-"%char ≠ "_"%char) by discriminate.
  split; [exact Hne|].
  destruct node_identifiers as (_ & Hnone & _).
  by apply Hnone.
Defined.

(** ** When the document is produced *)

Section Renderable.

Import PlantUMLDiagramGenerator.

Lemma for_each_raises {A S : Type} (f : S → A → Py.result S) (l : list A) :
  (∃ x, x ∈ l ∧ ∀ st, ∃ e, f st x = inl e) →
  ∀ st, ∃ e, Py.for_each f l st = inl e.
Proof.
  induction l as [|y l IH]; intros (x & Hx & Hfail) st.
  - by apply not_elem_of_nil in Hx.
  - cbn [Py.for_each]. destruct (f st y) as [e|st'] eqn:Hy.
    + by exists e.
    + apply elem_of_cons in Hx as [->|Hx].
      * destruct (Hfail st) as [e He]. congruence.
      * apply IH. by exists x.
Qed.

Lemma for_each_acc_in {A : Type} (f : acc → A → Py.result acc)
    (g : A → acc) (l : list A) :
  (∀ st x, x ∈ l → f st x = inr (acc_app st (g x))) →
  ∀ st, Py.for_each f l st = inr (acc_app st (acc_concat (g <$> l))).
Proof.
  induction l as [|x l IH]; intros Hf st; csimpl.
  - by rewrite acc_app_empty_r.
  - rewrite Hf by left. cbn [Py.bind].
    rewrite IH by (intros st' y Hy; apply Hf; by right).
    by rewrite acc_app_assoc.
Qed.

Lemma emit_az_group_no_public (topology : NetworkTopology.t) (st : acc)
    (entry : string * az_group) :
  public entry.2 = [] →
  emit_az_group topology st entry
  = inr (acc_app st (az_container_acc topology [] entry)).
Proof.
  intros Hpub. unfold emit_az_group, az_container_acc. rewrite Hpub.
  cbn [Py.for_each Py.ret Py.bind]. f_equal.
  rewrite (fold_left_acc _ _ (emit_private_subnet_spec topology)).
  rewrite !append_line_spec, !acc_app_assoc. cbn [fmap list_fmap acc_concat].
  rewrite acc_app_empty_l. done.
Qed.

Lemma emit_az_group_raises (topology : NetworkTopology.t) (st : acc)
    (entry : string * az_group) :
  NetworkTopology.nat_gateways topology = None →
  public entry.2 ≠ [] →
  emit_az_group topology st entry
  = inl (Py.AttributeError "NetworkTopology" "nat_gateways").
Proof.
  intros Hnats Hpub. unfold emit_az_group.
  destruct (public entry.2) as [|s l]; [done|].
  cbn [Py.for_each]. unfold emit_public_subnet. rewrite Hnats. done.
Qed.

Lemma vpc_diagram_lines_renderable (topology : NetworkTopology.t) :
  (∃ lines, _generate_vpc_diagram_lines topology = inr lines) ↔
  renderable topology.
Proof.
  unfold renderable.
  assert (Hgroups : NetworkTopology.get_public_subnets topology = [] →
    ∀ entry, entry ∈ build_az_groups (NetworkTopology.subnets topology) →
             public entry.2 = []).
  { intros Hnone entry Hentry.
    destruct (public entry.2) as [|s l] eqn:Hpub; [done|].
    destruct (proj1 (proj1 (group_subnets
                              (NetworkTopology.subnets topology) s)))
      as [Hs Hp].
    { exists entry. split; [done|]. rewrite Hpub. left. }
    assert (Hin : s ∈ NetworkTopology.get_public_subnets topology).
    { unfold NetworkTopology.get_public_subnets.
      by apply list_elem_of_filter. }
    rewrite Hnone in Hin. by apply not_elem_of_nil in Hin. }
  split.
  - intros [lines Hlines].
    destruct (NetworkTopology.route53_zones topology) as [zones|] eqn:Hzones.
    2:{ destruct (vpc_diagram_lines_raise topology Hzones) as [attr Hraise].
        congruence. }
    split; [by eexists|].
    unfold _generate_vpc_diagram_lines in Hlines.
    destruct (emit_internet_gateways _ _) as [lines0 igw_ids].
    destruct (Py.for_each (emit_az_group topology) _ _) as [e|st] eqn:Hloop;
      [discriminate Hlines|].
    rewrite Hzones in Hlines. cbn [Py.getattr Py.ret Py.bind] in Hlines.
    destruct (emit_route53_zones zones _) as [lines1 ids1].
    destruct (NetworkTopology.api_gateways topology) as [apis|];
      [|discriminate Hlines].
    split; [by eexists|].
    destruct (NetworkTopology.nat_gateways topology) as [nats|] eqn:Hnats;
      [left; by eexists|right].
    destruct (NetworkTopology.get_public_subnets topology) as [|s l] eqn:Hpub;
      [done|exfalso].
    assert (Hs : s ∈ NetworkTopology.subnets topology ∧
                 Subnet.map_public_ip_on_launch s = true).
    { assert (Hin : s ∈ NetworkTopology.get_public_subnets topology)
        by (rewrite Hpub; left).
      unfold NetworkTopology.get_public_subnets in Hin.
      apply list_elem_of_filter in Hin. tauto. }
    apply (proj1 (group_subnets _ s)) in Hs as (entry & Hentry & Hs).
    destruct (for_each_raises (emit_az_group topology)
                (build_az_groups (NetworkTopology.subnets topology)))
      with (st := mk_acc lines0 [] []) as [e He].
    { exists entry. split; [done|]. intros st'. eexists.
      apply emit_az_group_raises; [done|].
      intros Hnil. rewrite Hnil in Hs. by apply not_elem_of_nil in Hs. }
    congruence.
  - intros ([zones Hzones] & [apis Hapis] & Hnats).
    destruct (NetworkTopology.nat_gateways topology) as [nats|] eqn:Hn.
    + destruct (vpc_diagram_lines_shape topology nats zones apis
                  Hn Hzones Hapis) as [flows Hlines].
      by eexists.
    + destruct Hnats as [[nats Hnats]|Hnone]; [discriminate Hnats|].
      unfold _generate_vpc_diagram_lines.
      destruct (emit_internet_gateways _ _) as [lines0 igw_ids].
      rewrite (for_each_acc_in _ (az_container_acc topology [])).
      2:{ intros st entry Hentry. apply emit_az_group_no_public.
          by apply Hgroups. }
      rewrite Hzones, Hapis. cbn [Py.getattr Py.ret Py.bind].
      destruct (emit_route53_zones zones _) as [lines1 ids1].
      destruct (emit_api_gateways apis lines1) as [lines2 ids2].
      by eexists.
Qed.

Lemma document_loop_succeeds (l : list NetworkTopology.t)
    (init : list string) :
  (∃ lines,
     Py.for_each
       (λ lines network_topology,
          do vpc_lines <- _generate_vpc_diagram_lines network_topology;
          Py.ret (lines ++ vpc_lines)) l init = inr lines) ↔
  Forall renderable l.
Proof.
  revert init. induction l as [|t l IH]; intros init.
  - split; [constructor|]. intros _. by eexists.
  - cbn [Py.for_each]. rewrite Forall_cons, <- vpc_diagram_lines_renderable.
    destruct (_generate_vpc_diagram_lines t) as [e|vpc_lines].
    + cbn [Py.bind]. split.
      * intros [lines Hlines]. discriminate Hlines.
      * intros [[lines Hlines] _]. discriminate Hlines.
    + cbn [Py.bind Py.ret]. rewrite (IH (init ++ vpc_lines)).
      split; [|tauto]. intros Hall. split; [by eexists|done].
Qed.




(** X15. The PlantUML generator produces its document exactly when every
    topology of the account carries the attributes [route53_zones] and
    [api_gateways], and carries [nat_gateways] unless it has no public
    subnet; otherwise it raises and writes nothing. When it succeeds the
    sink gets the content as one chunk, and the save request is made
    exactly when both an output manager and a session directory are
    set. *)
Theorem document_produced_iff_renderable (self : PlantUMLDiagramGenerator.t)
    (account : AccountTopology.t) (output : TextIO.t) :
  ((∃ content, _generate_plantuml_content account = inr content) ↔
   Forall renderable (AccountTopology.vpcs account)) ∧
  (∀ topology,
     (∃ lines, _generate_vpc_diagram_lines topology = inr lines) ↔
     renderable topology) ∧
  (∀ content,
     _generate_plantuml_content account = inr content →
     generate_full_diagram self account output
     = inr (output ++ [content],
            match output_manager self, session_dir self with
            | Some _, Some dir =>
                Some (mk_save content dir (AccountTopology.region account))
            | _, _ => None
            end)) ∧
  (∀ e,
     _generate_plantuml_content account = inl e →
     generate_full_diagram self account output = inl e).
Proof.
  split_and!.
  - unfold _generate_plantuml_content, document_lines.
    rewrite <- (document_loop_succeeds (AccountTopology.vpcs account)
                  (preamble (AccountTopology.region account))).
    destruct (Py.for_each _ _ _) as [e|lines].
    + cbn [Py.bind]. split; intros [x Hx]; discriminate Hx.
    + cbn [Py.bind Py.ret]. split; intros _; by eexists.
  - apply vpc_diagram_lines_renderable.
  - intros content Hcontent. unfold generate_full_diagram.
    rewrite Hcontent. cbn [Py.bind]. unfold TextIO.write, Py.ret.
    by destruct (output_manager self), (session_dir self).
  - intros e He. unfold generate_full_diagram. by rewrite He.
Qed.

Lemma document_produced_iff_renderable_witness :
  ∃ content,
    _generate_plantuml_content Sample.account_7_in_one = inr content ∧
    generate_full_diagram
      (PlantUMLDiagramGenerator.mk (Some output_manager_handle) (Some "out"))
      Sample.account_7_in_one []
    = inr ([content], Some (mk_save content "out" "us-east-1")).
Proof.
  assert (Hok : ∃ content,
    _generate_plantuml_content Sample.account_7_in_one = inr content).
  { eexists. vm_compute. reflexivity. }
  destruct Hok as [content Hcontent]. exists content.
  split; [exact Hcontent|].
  destruct (document_produced_iff_renderable
              (PlantUMLDiagramGenerator.mk (Some output_manager_handle)
                 (Some "out"))
              Sample.account_7_in_one []) as (_ & _ & Hwrite & _).
  apply (Hwrite content Hcontent).
Defined.

End Renderable.

(** * Properties of the orchestration *)

Section Discovery.

Import CloudMapService.

Lemma discover_network_spec (self : CloudMapService.t) (all : discovered)
    (vpc : VPC.t) :
  (network_discovered self vpc →
   discover_network self all vpc
   = inr (mk_discovered
            (all_subnets all
             ++ returned (discover_subnets self (VPC.resource_id vpc)))
            (all_route_tables all
             ++ returned (discover_route_tables self (VPC.resource_id vpc)))
            (all_gateways all
             ++ returned
                  (discover_internet_gateways self (VPC.resource_id vpc)))))
  ∧ (succeeded (discover_network self all vpc) →
     network_discovered self vpc).
Proof.
  unfold discover_network, network_discovered, succeeded.
  destruct (discover_subnets self (VPC.resource_id vpc)) as [e1|l1];
    destruct (discover_route_tables self (VPC.resource_id vpc)) as [e2|l2];
    destruct (discover_internet_gateways self (VPC.resource_id vpc))
      as [e3|l3];
    cbn [io_bind returned]; split;
    try (intros ([? ?] & [? ?] & [? ?]); congruence);
    try (intros [? ?]; congruence);
    try done.
  intros _. split_and!; by eexists.
Qed.

Lemma discover_loop_spec (self : CloudMapService.t) (vpcs : list VPC.t)
    (init : discovered) :
  (Forall (network_discovered self) vpcs →
   io_for_each (discover_network self) vpcs init
   = inr (mk_discovered
            (all_subnets init
             ++ concat
                  ((λ v, returned (discover_subnets self (VPC.resource_id v)))
                   <$> vpcs))
            (all_route_tables init
             ++ concat
                  ((λ v,
                      returned
                        (discover_route_tables self (VPC.resource_id v)))
                   <$> vpcs))
            (all_gateways init
             ++ concat
                  ((λ v,
                      returned
                        (discover_internet_gateways self (VPC.resource_id v)))
                   <$> vpcs)))) ∧
  (succeeded (io_for_each (discover_network self) vpcs init) →
   Forall (network_discovered self) vpcs).
Proof.
  revert init. induction vpcs as [|v vpcs IH]; intros init.
  - split; [|constructor]. intros _. cbn. rewrite !app_nil_r.
    by destruct init.
  - cbn [io_for_each]. split.
    + intros Hall. apply Forall_cons in Hall as [Hv Hall].
      rewrite (proj1 (discover_network_spec self init v) Hv).
      cbn [io_bind]. rewrite (proj1 (IH _) Hall).
      cbn [all_subnets all_route_tables all_gateways]. csimpl.
      by rewrite <- !app_assoc.
    + intros Hok.
      destruct (discover_network self init v) as [e|all] eqn:Hv.
      * destruct Hok as [a Ha]. discriminate Ha.
      * cbn [io_bind] in Hok. constructor.
        -- apply (proj2 (discover_network_spec self init v)).
           rewrite Hv. by eexists.
        -- by apply (proj2 (IH all)).
Qed.

(** X16. [discover_infrastructure] returns an account exactly when the
    VPC discovery returns, the three network discoveries return for every
    VPC in scope, and the instance and function discoveries return. The
    VPCs in scope are all the discovered VPCs when no [vpc_id] is given
    (or an empty one), else those with that id; network discovery is not
    attempted for a VPC out of scope, so its failure does not matter. *)
Theorem discovery_succeeds_iff (self : CloudMapService.t)
    (vpc_id : option string) :
  (succeeded (discover_infrastructure self vpc_id) ↔
   succeeded (discover_vpcs self) ∧
   Forall (network_discovered self)
     (vpcs_in_scope vpc_id (returned (discover_vpcs self))) ∧
   succeeded (discover_ec2_instances self None) ∧
   succeeded (discover_lambda_functions self vpc_id)) ∧
  (∀ vpcs, Py.opt_truthy vpc_id = false → vpcs_in_scope vpc_id vpcs = vpcs) ∧
  (∀ vpcs v,
     Py.opt_truthy vpc_id = true →
     v ∈ vpcs_in_scope vpc_id vpcs ↔
     v ∈ vpcs ∧ Some (VPC.resource_id v) = vpc_id) ∧
  (∀ e, discover_vpcs self = inl e →
        discover_infrastructure self vpc_id = inl e).
Proof.
  split_and!.
  - unfold discover_infrastructure.
    destruct (discover_vpcs self) as [e|vpcs] eqn:Hvpcs; cbn [io_bind].
    { split; [intros [a Ha]; discriminate Ha|].
      intros ([a Ha] & _). discriminate Ha. }
    cbn [returned].
    pose proof (discover_loop_spec self (vpcs_in_scope vpc_id vpcs)
                  (mk_discovered [] [] [])) as [Hok Hback].
    destruct (io_for_each _ _ _) as [e|all] eqn:Hloop; cbn [io_bind].
    { split; [intros [a Ha]; discriminate Ha|].
      intros (_ & Hall & _). discriminate (Hok Hall). }
    assert (Hall : Forall (network_discovered self)
                     (vpcs_in_scope vpc_id vpcs)).
    { apply Hback. by eexists. }
    destruct (discover_ec2_instances self None) as [e|ec2]; cbn [io_bind].
    { split; [intros [a Ha]; discriminate Ha|].
      intros (_ & _ & [a Ha] & _). discriminate Ha. }
    destruct (discover_lambda_functions self vpc_id) as [e|lambdas];
      cbn [io_bind].
    { split; [intros [a Ha]; discriminate Ha|].
      intros (_ & _ & _ & [a Ha]). discriminate Ha. }
    split; [|intros _; by eexists].
    intros _. split_and!; [by eexists|done|by eexists|by eexists].
  - intros vpcs Hfalsy. unfold vpcs_in_scope. by rewrite Hfalsy.
  - intros vpcs v Htruthy. unfold vpcs_in_scope. rewrite Htruthy.
    rewrite list_elem_of_filter. tauto.
  - intros e He. unfold discover_infrastructure. by rewrite He.
Qed.

Lemma discovery_succeeds_iff_witness :
  Py.opt_truthy (Some "vpc-2") = true ∧
  (Sample.vpc_2 ∈ vpcs_in_scope (Some "vpc-2") [Sample.vpc_1; Sample.vpc_2] ↔
   Sample.vpc_2 ∈ [Sample.vpc_1; Sample.vpc_2] ∧
   Some (VPC.resource_id Sample.vpc_2) = Some "vpc-2").
Proof.
  split; [reflexivity|].
  destruct (discovery_succeeds_iff Sample.service (Some "vpc-2"))
    as (_ & _ & Hscope & _).
  apply Hscope. reflexivity.
Defined.

Lemma filter_all {A : Type} (P : A → Prop) `{!∀ x, Decision (P x)}
    (l : list A) :
  (∀ x, x ∈ l → P x) → filter P l = l.
Proof.
  induction l as [|x l IH]; intros Hall; [done|].
  rewrite filter_cons, decide_True by (apply Hall; left).
  f_equal. apply IH. intros y Hy. apply Hall. by right.
Qed.

(** Filtering the concatenation of per-parent answers by the key of one
    parent gives back the answer for that parent, when every answer
    carries the key of its parent and no two parents share a key. *)
Lemma filter_concat_own {V C K : Type} `{!EqDecision K} (key : C → K)
    (f : V → K) (g : V → list C) (vs : list V) (v : V) :
  NoDup (f <$> vs) →
  (∀ v c, v ∈ vs → c ∈ g v → key c = f v) →
  v ∈ vs →
  filter (λ c, key c = f v) (concat (g <$> vs)) = g v.
Proof.
  induction vs as [|v0 vs IH]; intros Hnodup Hkey Hin.
  { by apply not_elem_of_nil in Hin. }
  apply NoDup_cons in Hnodup as [Hv0 Hnodup]. csimpl.
  rewrite filter_app.
  assert (Hrest : ∀ w c, w ∈ vs → c ∈ g w → key c = f w).
  { intros w c Hw. apply Hkey. by right. }
  destruct (decide (f v = f v0)) as [Heq|Hne].
  - rewrite Heq.
    rewrite (filter_all (λ c, key c = f v0))
      by (intros c Hc; apply (Hkey v0); [left|done]).
    rewrite (filter_none (λ c, key c = f v0)).
    + rewrite app_nil_r. apply elem_of_cons in Hin as [->|Hin]; [done|].
      destruct Hv0. rewrite <- Heq. apply list_elem_of_fmap. eauto.
    + intros c Hc Hk. apply elem_of_concat in Hc as (l & Hc & Hl).
      apply list_elem_of_fmap in Hl as (w & -> & Hw).
      apply Hv0. rewrite <- Hk, (Hrest w c Hw Hc).
      apply list_elem_of_fmap. eauto.
  - apply elem_of_cons in Hin as [->|Hin]; [done|].
    rewrite (filter_none (λ c, key c = f v)).
    + by rewrite (IH Hnodup Hrest Hin).
    + intros c Hc Hk. apply Hne. rewrite <- Hk. apply (Hkey v0); [left|done].
Qed.

Lemma discover_infrastructure_returns (self : CloudMapService.t)
    (vpc_id : option string) (account : AccountTopology.t) :
  discover_infrastructure self vpc_id = inr account →
  ∃ vpcs ec2_instances lambda_functions,
    discover_vpcs self = inr vpcs ∧
    discover_ec2_instances self None = inr ec2_instances ∧
    discover_lambda_functions self vpc_id = inr lambda_functions ∧
    Forall (network_discovered self) (vpcs_in_scope vpc_id vpcs) ∧
    account
    = ResourceOrganizer.create_account_topology (region self)
        (ResourceOrganizer.organize_network_topology
           (vpcs_in_scope vpc_id vpcs)
           (concat
              ((λ v, returned (discover_subnets self (VPC.resource_id v)))
               <$> vpcs_in_scope vpc_id vpcs))
           (concat
              ((λ v,
                  returned (discover_route_tables self (VPC.resource_id v)))
               <$> vpcs_in_scope vpc_id vpcs))
           (concat
              ((λ v,
                  returned
                    (discover_internet_gateways self (VPC.resource_id v)))
               <$> vpcs_in_scope vpc_id vpcs))
           (instances_in_scope vpc_id ec2_instances)
           (Some lambda_functions)).
Proof.
  unfold discover_infrastructure.
  destruct (discover_vpcs self) as [e|vpcs]; cbn [io_bind]; [done|].
  pose proof (discover_loop_spec self (vpcs_in_scope vpc_id vpcs)
                (mk_discovered [] [] [])) as [Hok Hback].
  destruct (io_for_each _ _ _) as [e|all]; cbn [io_bind]; [done|].
  assert (Hall : Forall (network_discovered self)
                   (vpcs_in_scope vpc_id vpcs)).
  { apply Hback. by eexists. }
  specialize (Hok Hall). injection Hok as ->.
  destruct (discover_ec2_instances self None) as [e|ec2]; cbn [io_bind];
    [done|].
  destruct (discover_lambda_functions self vpc_id) as [e|lambdas];
    cbn [io_bind]; [done|].
  intros [= <-]. exists vpcs, ec2, lambdas.
  split_and!; done.
Qed.

(** X17. When [discover_infrastructure] returns an account, the account
    carries the region of the service and one topology per VPC in scope,
    in discovery order. If no two VPCs in scope share a [resource_id] and
    each subnet answered for a VPC carries the id of that VPC, the
    subnets of a topology are exactly the answer of the subnet discovery
    for its VPC, in the order of the answer. The instances of a topology
    are the discovered instances whose [vpc_id] is the id of its VPC,
    with or without a [vpc_id] filter. *)
Theorem discovery_round_trip (self : CloudMapService.t)
    (vpc_id : option string) (account : AccountTopology.t) :
  discover_infrastructure self vpc_id = inr account →
  let vpcs := vpcs_in_scope vpc_id (returned (discover_vpcs self)) in
  NoDup (VPC.resource_id <$> vpcs) →
  (∀ v s, v ∈ vpcs →
          s ∈ returned (discover_subnets self (VPC.resource_id v)) →
          Subnet.vpc_id s = VPC.resource_id v) →
  AccountTopology.region account = region self ∧
  NetworkTopology.vpc <$> AccountTopology.vpcs account = vpcs ∧
  (∀ topology, topology ∈ AccountTopology.vpcs account →
     NetworkTopology.subnets topology
     = returned
         (discover_subnets self
            (VPC.resource_id (NetworkTopology.vpc topology))) ∧
     NetworkTopology.ec2_instances topology
     = filter
         (λ inst,
            EC2Instance.vpc_id inst
            = VPC.resource_id (NetworkTopology.vpc topology))
         (returned (discover_ec2_instances self None))).
Proof.
  intros Hrun vpcs Hnodup Hcontract.
  apply discover_infrastructure_returns in Hrun
    as (vpcs0 & ec2 & lambdas & Hvpcs & Hec2 & _ & _ & ->).
  unfold vpcs in *. clear vpcs. rewrite Hvpcs in *. rewrite Hec2.
  cbn [returned] in *.
  unfold ResourceOrganizer.create_account_topology.
  cbn [AccountTopology.region AccountTopology.vpcs].
  rewrite organized_fmap. split_and!.
  - done.
  - rewrite <- list_fmap_compose. apply list_fmap_id.
  - intros topology Hin.
    apply list_elem_of_fmap in Hin as (v & -> & Hv).
    cbn [ResourceOrganizer.organize_vpc NetworkTopology.init
         NetworkTopology.subnets NetworkTopology.ec2_instances
         NetworkTopology.vpc]. split.
    + apply (filter_concat_own Subnet.vpc_id VPC.resource_id
               (λ v, returned (discover_subnets self (VPC.resource_id v)))
               _ v Hnodup Hcontract Hv).
    + unfold instances_in_scope.
      destruct (Py.opt_truthy vpc_id) eqn:Htruthy; [|done].
      unfold vpcs_in_scope in Hv. rewrite Htruthy in Hv.
      apply list_elem_of_filter in Hv as [Hid _].
      rewrite list_filter_filter. apply list_filter_iff.
      intros inst. rewrite <- Hid. split; [by intros [Heq _]|].
      intros Heq. split; [done|by rewrite Heq].
Qed.

Lemma discovery_round_trip_witness :
  ∃ account,
    discover_infrastructure Sample.service None = inr account ∧
    (∀ topology, topology ∈ AccountTopology.vpcs account →
       NetworkTopology.subnets topology
       = returned
           (discover_subnets Sample.service
              (VPC.resource_id (NetworkTopology.vpc topology))) ∧
       NetworkTopology.ec2_instances topology
       = filter
           (λ inst,
              EC2Instance.vpc_id inst
              = VPC.resource_id (NetworkTopology.vpc topology))
           (returned (discover_ec2_instances Sample.service None))).
Proof.
  eexists. split; [reflexivity|].
  refine (proj2 (proj2 (discovery_round_trip Sample.service None _
                          eq_refl _ _))).
  - apply (bool_decide_unpack _). vm_compute. exact I.
  - intros v s _ Hs.
    change (s ∈ filter (λ s, Subnet.vpc_id s = VPC.resource_id v)
                [Sample.subnet_1; Sample.subnet_2; Sample.subnet_3]) in Hs.
    by apply list_elem_of_filter in Hs as [Hs _].
Defined.

(** X18. A [vpc_id] that names none of the discovered VPCs is no error:
    no network discovery is attempted, and once the instance and function
    discoveries return, the result is the account of the region with no
    topology at all, whatever instances and functions were discovered. *)
Theorem discovery_unknown_vpc (self : CloudMapService.t)
    (vpc_id : option string) (vpcs : list VPC.t) :
  Py.opt_truthy vpc_id = true →
  discover_vpcs self = inr vpcs →
  (∀ v, v ∈ vpcs → Some (VPC.resource_id v) ≠ vpc_id) →
  succeeded (discover_ec2_instances self None) →
  succeeded (discover_lambda_functions self vpc_id) →
  discover_infrastructure self vpc_id
  = inr (AccountTopology.mk (region self) []).
Proof.
  intros Htruthy Hvpcs Hnone [ec2 Hec2] [lambdas Hlambdas].
  unfold discover_infrastructure. rewrite Hvpcs. cbn [io_bind].
  assert (Hscope : vpcs_in_scope vpc_id vpcs = []).
  { unfold vpcs_in_scope. rewrite Htruthy. by apply filter_none. }
  rewrite Hscope. cbn [io_for_each io_bind].
  rewrite Hec2. cbn [io_bind]. rewrite Hlambdas. by cbn [io_bind].
Qed.

Lemma discovery_unknown_vpc_witness :
  discover_infrastructure Sample.service (Some "vpc-404")
  = inr (AccountTopology.mk "us-east-1" []).
Proof.
  apply (discovery_unknown_vpc Sample.service (Some "vpc-404")
           [Sample.vpc_1; Sample.vpc_2]).
  - reflexivity.
  - reflexivity.
  - intros v Hv. apply elem_of_cons in Hv as [->|Hv]; [discriminate|].
    apply elem_of_cons in Hv as [->|Hv]; [discriminate|].
    by apply not_elem_of_nil in Hv.
  - by eexists.
  - by eexists.
Defined.

End Discovery.
